(** * Overthinking Meter: the episode log, the weekly window and the
      daily-minutes statistics of [app.py]

    The development follows the two pipelines of the program.  The episode
    pipeline ([OverthinkingTracker]) reads and writes a pipe-delimited text
    log; the daily pipeline ([DailyDataAnalyzer]) reads a CSV of minutes and
    computes statistics over binary64 floats.

    Conventions of the embedding.
    - A Python [str] is a [string] whose characters are code points below
      256; the character classes ([isspace], [isdigit], [lower]) are those
      of Python on that range.
    - A Python [int] is a [Z], of any size; a Python [float] is a primitive
      binary64 [float], so arithmetic and comparisons round as in the
      program.  The division of two [int]s rounds the exact quotient and
      raises when it lies beyond the floats; [int] and [str] keep the
      interpreter's bound of 4300 digits.
    - The file system is a finite map from file names to file texts;
      opening a file for writing succeeds.
    - An exception is an explicit outcome of the function that raises it,
      whether a [try] of the program catches it or not.
    - The library routines [datetime.strptime], [float], float formatting
      and [sorted] are parameters of the sections that use them, [sorted]
      together with what the language promises of it. *)

From Stdlib Require Import ZArith List String Ascii Bool Lia Floats.
From Stdlib Require Import DecimalString DecimalZ Permutation Sorted.
From stdpp Require Import gmap strings.
Import ListNotations.

Set Warnings "-inexact-float".
Local Open Scope string_scope.
Local Open Scope list_scope.

(** ** Python strings *)

Module PyStr.

(** [str.isspace] on one character: the white-space code points below 256. *)
Definition isspace (c : ascii) : bool :=
  let n := nat_of_ascii c in
  (((9 <=? n) && (n <=? 13)) || ((28 <=? n) && (n <=? 32))
   || (n =? 133) || (n =? 160))%nat.

(** A decimal digit, the characters [int] converts. *)
Definition isdecimal_char (c : ascii) : bool :=
  let n := nat_of_ascii c in ((48 <=? n) && (n <=? 57))%nat.

(** [str.isdigit] on one character: the decimal digits and the superscript
    digits U+00B2, U+00B3 and U+00B9. *)
Definition isdigit_char (c : ascii) : bool :=
  let n := nat_of_ascii c in
  isdecimal_char c || ((n =? 178) || (n =? 179) || (n =? 185))%nat.

Fixpoint all_chars (p : ascii -> bool) (s : string) : bool :=
  match s with
  | EmptyString => true
  | String c s' => p c && all_chars p s'
  end.

(** [s.isdigit()]: every character is a digit and there is at least one. *)
Definition isdigit (s : string) : bool :=
  match s with
  | EmptyString => false
  | String _ _ => all_chars isdigit_char s
  end.

(** Truth value of a string: non-empty. *)
Definition truthy (s : string) : bool :=
  match s with EmptyString => false | String _ _ => true end.

Fixpoint lstrip (s : string) : string :=
  match s with
  | EmptyString => EmptyString
  | String c s' => if isspace c then lstrip s' else s
  end.

Fixpoint rstrip (s : string) : string :=
  match s with
  | EmptyString => EmptyString
  | String c s' =>
      match rstrip s' with
      | EmptyString => if isspace c then EmptyString else String c EmptyString
      | r => String c r
      end
  end.

(** [s.strip()] *)
Definition strip (s : string) : string := rstrip (lstrip s).

(** [c in s] for a one-character [c]. *)
Fixpoint has_char (c : ascii) (s : string) : bool :=
  match s with
  | EmptyString => false
  | String a s' => Ascii.eqb a c || has_char c s'
  end.

(** [s.split(sep)] for a one-character separator: never the empty list. *)
Fixpoint split (sep : ascii) (s : string) : list string :=
  match s with
  | EmptyString => [EmptyString]
  | String c s' =>
      if Ascii.eqb c sep then EmptyString :: split sep s'
      else match split sep s' with
           | [] => [String c EmptyString]
           | p :: ps => String c p :: ps
           end
  end.

(** [str.lower] on one character. *)
Definition lower_char (c : ascii) : ascii :=
  let n := nat_of_ascii c in
  if (((65 <=? n) && (n <=? 90))
      || ((192 <=? n) && (n <=? 222) && negb (n =? 215)))%nat
  then ascii_of_nat (n + 32) else c.

Fixpoint lower (s : string) : string :=
  match s with
  | EmptyString => EmptyString
  | String c s' => String (lower_char c) (lower s')
  end.

(** [sub in s] *)
Fixpoint contains (sub s : string) : bool :=
  String.prefix sub s
  || match s with
     | EmptyString => false
     | String _ s' => contains sub s'
     end.

(** The interpreter's bound on the digits of a numeral that [int] reads or
    [str] writes, [sys.get_int_max_str_digits()]. *)
Definition INT_MAX_STR_DIGITS : nat := 4300.

(** [str(n)] for an [int] whose numeral is within the bound; every
    intensity the tracker holds is (see [storable]). *)
Definition str_of_int (z : Z) : string := NilZero.string_of_int (Z.to_int z).

(** [int(s)] for a string [s] with [s.isdigit()]: the value of the decimal
    digits, and [None] (a [ValueError]) when a character is a digit that is
    not decimal or when there are more digits than the bound allows. *)
Definition int_of_digits (s : string) : option Z :=
  match s with
  | EmptyString => None
  | String _ _ =>
      if (INT_MAX_STR_DIGITS <? String.length s)%nat then None
      else option_map Z.of_uint (NilEmpty.uint_of_string s)
  end.

(** The lines a text file yields when it is iterated or read with
    [readlines()]: each line keeps its end, written ["\n"], and the ends
    ["\r\n"] and ["\r"] are read as ["\n"]. *)
Definition LF : ascii := ascii_of_nat 10.
Definition CR : ascii := ascii_of_nat 13.

Fixpoint readlines_from (cur : string) (s : string) : list string :=
  match s with
  | EmptyString => if truthy cur then [cur] else []
  | String c s' =>
      if Ascii.eqb c LF then (cur +:+ String LF EmptyString) :: readlines_from EmptyString s'
      else if Ascii.eqb c CR then
        match s' with
        | String c' s'' =>
            if Ascii.eqb c' LF
            then (cur +:+ String LF EmptyString) :: readlines_from EmptyString s''
            else (cur +:+ String LF EmptyString) :: readlines_from EmptyString s'
        | EmptyString => [cur +:+ String LF EmptyString]
        end
      else readlines_from (cur +:+ String c EmptyString) s'
  end.

Definition readlines (s : string) : list string := readlines_from EmptyString s.

End PyStr.

(** ** Numbers *)

Module PyNum.

(** The binary64 value nearest to an integer, ties to even; an infinity
    when the integer lies beyond the floats. *)
Definition nearest (z : Z) : spec_float := binary_normalize prec emax z 0 false.

(** [float(n)] for an [int]; [None] is the [OverflowError] of an integer
    beyond the floats. *)
Definition float_of_Z (z : Z) : option float :=
  match nearest z with
  | S754_finite _ _ _ as r => Some (SF2Prim r)
  | S754_zero _ as r => Some (SF2Prim r)
  | _ => None
  end.

(** [float(n)] for the length [n] of a list, which is below 2^63 and so
    within the floats. *)
Definition float_of_nat (n : nat) : float := SF2Prim (nearest (Z.of_nat n)).

(** An integer as a float of unbounded mantissa. *)
Definition exact (z : Z) : spec_float :=
  match z with
  | Z0 => S754_zero false
  | Zpos p => S754_finite false p 0
  | Zneg p => S754_finite true p 0
  end.

(** The magnitude from which a quotient rounds beyond the largest float:
    half an ulp above it. *)
Definition OVERFLOW_THRESHOLD : Z := (2 ^ 1024 - 2 ^ 970)%Z.

(** The quotient [a / b] rounds to no float. *)
Definition overflows (a b : Z) : bool :=
  (OVERFLOW_THRESHOLD * Z.abs b <=? Z.abs a)%Z.

(** [a / b] on two [int]s: the float nearest to the exact quotient, ties to
    even, whatever the size of [a] and [b]; [None] is the
    [ZeroDivisionError] of [b = 0] or the [OverflowError] of a quotient
    that rounds beyond the floats. *)
Definition truediv (a b : Z) : option float :=
  if (b =? 0)%Z then None
  else if overflows a b then None
  else Some (SF2Prim (SFdiv prec emax (exact a) (exact b))).

(** [sum(xs)] on floats: additions from the left, starting from zero.
    Interpreters that compensate the rounding of these additions return
    the same float whenever every addition is exact, as in the series
    evaluated below. *)
Definition fsum (xs : list float) : float := fold_left PrimFloat.add xs 0%float.

(** [sum(xs)] on [int]s. *)
Definition zsum (xs : list Z) : Z := fold_left Z.add xs 0%Z.

(** [xs[i]] with Python's negative indices; [None] is an [IndexError]. *)
Definition index {A} (xs : list A) (i : Z) : option A :=
  let n := Z.of_nat (length xs) in
  if (0 <=? i)%Z then nth_error xs (Z.to_nat i)
  else if (0 <=? n + i)%Z then nth_error xs (Z.to_nat (n + i))
  else None.

End PyNum.

(** ** Console output

    One constructor per message the modelled functions print. *)

Inductive message : Type :=
| Loaded (n : nat)
| ErrorLoading
| DryRunMode
| WouldSave
| Saved (n : nat)
| FileNotFound (filename : string)
| ExpectedFormat
| SkippingHeader (line : string)
| SkippingInvalid (line_num : nat) (line : string)
| ReadEntries (n : nat) (filename : string)
| NoStatistics
| ReportExported.

(** ** The episode log *)

Module OverthinkingTracker.
Import PyStr PyNum.

Definition THOUGHTS_FILE : string := "overthinking_log.txt".

(** One logged episode, the dictionary [thought] of the program. *)
Record thought : Type := mkThought {
  timestamp : string;
  category : string;
  intensity : Z;
  note : string
}.

(** The tracker object. *)
Record tracker : Type := mkTracker {
  thoughts : list thought;
  dry_run : bool
}.

(** What one line of the log does to the load. *)
Inductive line_result : Type :=
| NotAnEntry
| Entry (t : thought)
| Raises.

(** The dictionary built from the fields of a line with at least four
    parts.  [int] raises on a field that passes [isdigit] without being
    decimal, and on one of more digits than the bound allows. *)
Definition thought_of_parts (parts : list string) : line_result :=
  let field i := strip (nth i parts EmptyString) in
  let note_field := if (3 <? length parts)%nat then field 3%nat else EmptyString in
  if isdigit (field 2%nat) then
    match int_of_digits (field 2%nat) with
    | Some n => Entry (mkThought (field 0%nat) (field 1%nat) n note_field)
    | None => Raises
    end
  else Entry (mkThought (field 0%nat) (field 1%nat) 5%Z note_field).

(** The body of the loop of [load_thoughts] on one line. *)
Definition parse_line (line : string) : line_result :=
  let line := strip line in
  if truthy line && has_char "|" line then
    let parts := split "|" line in
    if (4 <=? length parts)%nat then thought_of_parts parts else NotAnEntry
  else NotAnEntry.

(** The loop of [load_thoughts]: the entries appended to [acc], and whether
    the loop ran to the end of the file. *)
Fixpoint load_lines (lines : list string) (acc : list thought) : list thought * bool :=
  match lines with
  | [] => (acc, true)
  | line :: rest =>
      match parse_line line with
      | NotAnEntry => load_lines rest acc
      | Entry t => load_lines rest (acc ++ [t])
      | Raises => (acc, false)
      end
  end.

Definition load_thoughts (self : tracker) (d : gmap string string)
  : tracker * list message :=
  match d !! THOUGHTS_FILE with
  | None => (self, [])
  | Some text =>
      let '(ths, finished) := load_lines (readlines text) (thoughts self) in
      (mkTracker ths (dry_run self),
       [if finished then Loaded (length ths) else ErrorLoading])
  end.

(** [OverthinkingTracker(dry_run)] *)
Definition init (dry : bool) (d : gmap string string) : tracker * list message :=
  let '(self, out) := load_thoughts (mkTracker [] dry) d in
  (self, out ++ (if dry then [DryRunMode] else [])).

(** The line written for one entry. *)
Definition log_line (t : thought) : string :=
  timestamp t +:+ "|" +:+ category t +:+ "|" +:+ str_of_int (intensity t)
  +:+ "|" +:+ note t +:+ String LF EmptyString.

Definition log_text (ths : list thought) : string :=
  fold_right (fun t rest => log_line t +:+ rest) EmptyString ths.

(** [save_thoughts]: the file is rewritten in full unless the tracker runs
    dry. *)
Definition save_thoughts (self : tracker) (d : gmap string string)
  : gmap string string * list message :=
  if dry_run self then (d, [WouldSave])
  else (<[THOUGHTS_FILE := log_text (thoughts self)]> d,
        [Saved (length (thoughts self))]).

(** The end of [log_overthinking], once the answers are accepted: the new
    entry is appended and the log saved. *)
Definition log_entry (self : tracker) (t : thought) (d : gmap string string)
  : tracker * gmap string string * list message :=
  let self' := mkTracker (thoughts self ++ [t]) (dry_run self) in
  let '(d', out) := save_thoughts self' d in
  (self', d', out).


(** *** Time

    A naive [datetime] is its count of microseconds since
    0001-01-01 00:00:00: the order of the counts is the order of the
    datetimes, and a [timedelta] is a difference of counts. *)
Definition datetime : Type := Z.

Definition timedelta_days (n : Z) : Z := (n * 86400000000)%Z.

(** [dt.hour] *)
Definition hour (dt : datetime) : Z := ((dt / 3600000000) mod 24)%Z.

(** The day of the week [strftime("%A")] names, 0 for Monday. *)
Definition weekday (dt : datetime) : Z := ((dt / 86400000000) mod 7)%Z.

Inductive period : Type := Morning | Afternoon | Evening | Night.

#[global] Instance period_eq_dec : EqDecision period.
Proof. solve_decision. Defined.

#[global] Instance period_countable : Countable period.
Proof.
  refine (inj_countable'
            (fun p => match p with
                      | Morning => 0 | Afternoon => 1 | Evening => 2 | Night => 3
                      end)%nat
            (fun n => match n with
                      | 0 => Morning | 1 => Afternoon | 2 => Evening | _ => Night
                      end)%nat _).
  intros []; reflexivity.
Defined.

Definition get_time_period (h : Z) : period :=
  if (5 <=? h)%Z && (h <? 12)%Z then Morning
  else if (12 <=? h)%Z && (h <? 17)%Z then Afternoon
  else if (17 <=? h)%Z && (h <? 21)%Z then Evening
  else Night.

(** [counts[k] += 1] on a [defaultdict(int)] or a [Counter]. *)
Definition bump `{Countable K} (k : K) (counts : gmap K nat) : gmap K nat :=
  <[k := S (default 0%nat (counts !! k))]> counts.

Section Analysis.

(** [datetime.strptime(s, "%Y-%m-%d %H:%M:%S")]; [None] is the
    [ValueError] of a text that does not match. *)
Variable strptime : string -> option datetime.

(** The four accumulators of the loop of [analyze_patterns]. *)
Record tally : Type := mkTally {
  hour_counts : gmap Z nat;
  period_counts : gmap period nat;
  category_counts : gmap string nat;
  intensity_sum : Z
}.

Definition tally0 : tally := mkTally ∅ ∅ ∅ 0%Z.

(** One turn of the loop: an entry whose timestamp does not parse is
    passed over. *)
Definition tally_step (acc : tally) (t : thought) : tally :=
  match strptime (timestamp t) with
  | Some dt =>
      let h := hour dt in
      mkTally (bump h (hour_counts acc))
              (bump (get_time_period h) (period_counts acc))
              (bump (category t) (category_counts acc))
              (intensity_sum acc + intensity t)%Z
  | None => acc
  end.

Record insights : Type := mkInsights {
  total_episodes : nat;
  tallies : tally;
  avg_intensity : float
}.

Inductive analysis : Type :=
| NotEnoughData
| CouldNotAnalyze
| Insights (i : insights)
| AnalysisRaises.

(** [analyze_patterns], up to the figures it reports.  The average is
    computed before any figure is printed; when the division raises, the
    function raises with it. *)
Definition analyze_patterns (self : tracker) : analysis :=
  match thoughts self with
  | [] => NotEnoughData
  | _ :: _ =>
      let acc := fold_left tally_step (thoughts self) tally0 in
      if bool_decide (hour_counts acc = ∅) then CouldNotAnalyze
      else
        match truediv (intensity_sum acc) (Z.of_nat (length (thoughts self))) with
        | Some avg => Insights (mkInsights (length (thoughts self)) acc avg)
        | None => AnalysisRaises
        end
  end.

(** The entries [weekly_summary] keeps: the timestamp parses and is not
    older than seven days before [now]. *)
Definition in_week (now : datetime) (t : thought) : bool :=
  match strptime (timestamp t) with
  | Some dt => (now - timedelta_days 7 <=? dt)%Z
  | None => false
  end.

Definition weekly_thoughts (now : datetime) (ths : list thought) : list thought :=
  List.filter (in_week now) ths.

Definition day_step (acc : gmap Z nat) (t : thought) : gmap Z nat :=
  match strptime (timestamp t) with
  | Some dt => bump (weekday dt) acc
  | None => acc
  end.

Inductive trend_label : Type := Improving | Increasing | Stable.

(** [sum(t['intensity'] for t in ths) / len(ths)]; [None] when the
    division raises. *)
Definition mean_intensity (ths : list thought) : option float :=
  truediv (zsum (map intensity ths)) (Z.of_nat (length ths)).

(** What the trend block of [weekly_summary] does: nothing below six
    entries, a label from six entries on, or the raise of one of its two
    divisions. *)
Inductive trend_result : Type :=
| NoTrend
| Trend (l : trend_label)
| TrendRaises.

Definition weekly_trend (week : list thought) : trend_result :=
  if (6 <=? length week)%nat then
    let mid := (length week / 2)%nat in
    match mean_intensity (firstn mid week) with
    | None => TrendRaises
    | Some first_avg =>
        match mean_intensity (skipn mid week) with
        | None => TrendRaises
        | Some second_avg =>
            if PrimFloat.ltb second_avg (PrimFloat.mul first_avg 0.85%float)
            then Trend Improving
            else if PrimFloat.ltb (PrimFloat.mul first_avg 1.15%float) second_avg
            then Trend Increasing
            else Trend Stable
        end
    end
  else NoTrend.

Record week_stats : Type := mkWeekStats {
  week_total : nat;
  week_avg_intensity : float;
  day_counts : gmap Z nat;
  week_categories : gmap string nat;
  high_intensity : nat;
  trend_of_week : trend_result
}.

(** The figures of the summary; [None] when the average of the week, the
    first of them to be computed, raises. *)
Definition week_stats_of (week : list thought) : option week_stats :=
  match mean_intensity week with
  | None => None
  | Some avg =>
      Some (mkWeekStats
              (length week)
              avg
              (fold_left day_step week ∅)
              (fold_left (fun acc t => bump (category t) acc) week ∅)
              (length (List.filter (fun t => (7 <=? intensity t)%Z) week))
              (weekly_trend week))
  end.

Inductive weekly : Type :=
| NoData
| NoEntriesThisWeek
| Summary (s : week_stats)
| WeeklyRaises.

(** [weekly_summary], up to the figures it reports, at the instant [now]
    that [datetime.now()] returns.  A summary whose trend is [TrendRaises]
    is printed up to its top concerns, where the function raises. *)
Definition weekly_summary (self : tracker) (now : datetime) : weekly :=
  match thoughts self with
  | [] => NoData
  | _ :: _ =>
      match weekly_thoughts now (thoughts self) with
      | [] => NoEntriesThisWeek
      | week =>
          match week_stats_of week with
          | Some s => Summary s
          | None => WeeklyRaises
          end
      end
  end.

End Analysis.

End OverthinkingTracker.

(** ** The daily series *)

Module DailyDataAnalyzer.
Import PyStr PyNum.

Definition DAILY_DATA_FILE : string := "daily_overthinking.csv".
Definition REPORT_FILE : string := "overthinking_report.txt".

(** One row of the series. *)
Record entry : Type := mkEntry {
  date : string;
  minutes : float
}.

Definition header_keywords : list string := ["date"; "minutes"; "time"; "duration"].

Section Reading.

(** [float(s)]; [None] is the [ValueError] of a text that is no number. *)
Variable float_of_str : string -> option float.

(** The body of the loop of [read_daily_data] on the line numbered
    [line_num]: the entry it appends, if any, and what it prints. *)
Definition read_row (line_num : nat) (raw : string) : option entry * list message :=
  let line := strip raw in
  if negb (truthy line) then (None, [])
  else if (line_num =? 1)%nat
          || existsb (fun keyword => contains keyword (lower line)) header_keywords
  then (None, [SkippingHeader line])
  else
    let parts := split "," line in
    if (2 <=? length parts)%nat then
      let date_str := strip (nth 0 parts EmptyString) in
      match float_of_str (strip (nth 1 parts EmptyString)) with
      | Some m => (Some (mkEntry date_str m), [])
      | None => (None, [SkippingInvalid line_num line])
      end
    else (None, []).

Fixpoint read_rows (line_num : nat) (lines : list string) : list entry * list message :=
  match lines with
  | [] => ([], [])
  | raw :: rest =>
      let '(e, out) := read_row line_num raw in
      let '(es, outs) := read_rows (S line_num) rest in
      (match e with Some e => e :: es | None => es end, out ++ outs)
  end.

Definition read_daily_data (filename : string) (d : gmap string string)
  : list entry * list message :=
  match d !! filename with
  | None => ([], [FileNotFound filename; ExpectedFormat])
  | Some text =>
      let '(data, out) := read_rows 1 (readlines text) in
      (data, out ++ [ReadEntries (length data) filename])
  end.

End Reading.

(** [sorted(values)], the sort of the library, with what the language
    promises of it: the result holds the items of the list, and it
    ascends when no item is a NaN, the order [<] being then a total
    preorder.  How a list that holds a NaN is arranged depends on the
    comparisons the merge strategy of the interpreter happens to make; it
    is left open, and what is proved holds of every arrangement. *)
Record sorted_builtin : Type := mkSorted {
  sorted_list :> list float -> list float;
  sorted_items : forall values, Permutation (sorted_list values) values;
  sorted_ascends :
    forall values,
      Forall (fun x => PrimFloat.is_nan x = false) values ->
      Sorted (fun a b => PrimFloat.leb a b = true) (sorted_list values)
}.

Section Statistics.

Variable sorted : sorted_builtin.

(** [_calculate_median]; [None] is the [IndexError] of the empty list. *)
Definition _calculate_median (values : list float) : option float :=
  let sorted_vals := sorted values in
  let n := length sorted_vals in
  let mid := (n / 2)%nat in
  if (n mod 2 =? 0)%nat then
    match index sorted_vals (Z.of_nat mid - 1), index sorted_vals (Z.of_nat mid) with
    | Some a, Some b => Some (PrimFloat.div (PrimFloat.add a b) 2%float)
    | _, _ => None
    end
  else index sorted_vals (Z.of_nat mid).

Definition _calculate_trend (mins : list float) : string :=
  if (length mins <? 2)%nat then "neutral"
  else
    let mid := (length mins / 2)%nat in
    let first_half_avg :=
      if (0 <? mid)%nat
      then PrimFloat.div (fsum (firstn mid mins)) (float_of_nat mid)
      else 0%float in
    let second_half_avg :=
      if (mid <? length mins)%nat
      then PrimFloat.div (fsum (skipn mid mins)) (float_of_nat (length mins - mid))
      else 0%float in
    if PrimFloat.ltb second_half_avg (PrimFloat.mul first_half_avg 0.9%float)
    then "improving"
    else if PrimFloat.ltb (PrimFloat.mul first_half_avg 1.1%float) second_half_avg
    then "increasing"
    else "stable".

(** [max(xs)] and [min(xs)] on a non-empty list: the first extreme item. *)
Definition fmax (x : float) (xs : list float) : float :=
  fold_left (fun best y => if PrimFloat.ltb best y then y else best) xs x.

Definition fmin (x : float) (xs : list float) : float :=
  fold_left (fun best y => if PrimFloat.ltb y best then y else best) xs x.

Record stats : Type := mkStats {
  days_tracked : nat;
  avg_minutes : float;
  median_minutes : float;
  highest_day : float;
  lowest_day : float;
  total_hours : float;
  trend : string
}.

(** [calculate_stats]; [None] is the [None] it returns on no data. *)
Definition calculate_stats (data : list entry) : option stats :=
  match map minutes data with
  | [] => None
  | m :: ms =>
      let mins := m :: ms in
      match _calculate_median mins with
      | Some med =>
          Some (mkStats (length mins)
                  (PrimFloat.div (fsum mins) (float_of_nat (length mins)))
                  med
                  (fmax m ms)
                  (fmin m ms)
                  (PrimFloat.div (fsum mins) 60%float)
                  (_calculate_trend mins))
      | None => None
      end
  end.

End Statistics.

Section Report.

(** [fmt k x] is the text of [x] with [k] decimals, the format
    [f"{x:.kf}"]. *)
Variable fmt : nat -> float -> string.

Fixpoint times (n : nat) (s : string) : string :=
  match n with
  | O => EmptyString
  | S n' => s +:+ times n' s
  end.

Definition nl : string := String LF EmptyString.

Definition breakdown_line (e : entry) : string :=
  date e +:+ ": " +:+ fmt 1 (minutes e) +:+ " minutes" +:+ nl.

(** The text [export_report] writes; [generated] is the current time as
    [strftime] prints it. *)
Definition report_text (generated : string) (st : stats) (data : list entry) : string :=
  times 60 "=" +:+ nl
  +:+ "OVERTHINKING PATTERN ANALYSIS REPORT" +:+ nl
  +:+ "Generated: " +:+ generated +:+ nl
  +:+ times 60 "=" +:+ nl +:+ nl
  +:+ "DAILY STATISTICS" +:+ nl
  +:+ times 60 "-" +:+ nl
  +:+ "Days Tracked:        " +:+ str_of_int (Z.of_nat (days_tracked st)) +:+ nl
  +:+ "Avg Minutes/Day:     " +:+ fmt 2 (avg_minutes st) +:+ nl
  +:+ "Median Minutes:      " +:+ fmt 2 (median_minutes st) +:+ nl
  +:+ "Highest Day:         " +:+ fmt 2 (highest_day st) +:+ " minutes" +:+ nl
  +:+ "Lowest Day:          " +:+ fmt 2 (lowest_day st) +:+ " minutes" +:+ nl
  +:+ "Total Time:          " +:+ fmt 1 (total_hours st) +:+ " hours" +:+ nl
  +:+ "Trend:               " +:+ trend st +:+ nl +:+ nl
  +:+ "DAILY BREAKDOWN" +:+ nl
  +:+ times 60 "-" +:+ nl
  +:+ fold_right (fun e rest => breakdown_line e +:+ rest) EmptyString data.

(** [export_report]: no flag of the program is consulted. *)
Definition export_report (st : option stats) (data : list entry)
    (generated : string) (d : gmap string string)
  : gmap string string * list message :=
  match st with
  | None => (d, [NoStatistics])
  | Some st => (<[REPORT_FILE := report_text generated st data]> d, [ReportExported])
  end.

End Report.

End DailyDataAnalyzer.

(** ** The operations that write files *)

Module Persistence.
Import OverthinkingTracker DailyDataAnalyzer.

Inductive operation : Type :=
| SaveThoughts
| ExportReport (st : option stats) (data : list entry) (generated : string).

(** The file system after one writing operation of a session whose tracker
    is [self]. *)
Definition run (fmt : nat -> float -> string) (self : tracker) (op : operation)
    (d : gmap string string) : gmap string string :=
  match op with
  | SaveThoughts => fst (save_thoughts self d)
  | ExportReport st data generated => fst (export_report fmt st data generated d)
  end.

End Persistence.

(** ** Properties the statements below are phrased with *)

Module Spec.
Import PyStr PyNum OverthinkingTracker DailyDataAnalyzer.

(** The shape of every entry the tracker holds: [load_thoughts] strips each
    text field it reads and [log_overthinking] strips the note it is given,
    a timestamp and a category hold no delimiter, and an intensity is read
    from digits, no more of them than [int] accepts, or typed in the range
    1 to 10. *)
Record storable (t : thought) : Prop := mkStorable {
  timestamp_stripped : strip (timestamp t) = timestamp t;
  timestamp_plain : has_char "|" (timestamp t) = false;
  category_stripped : strip (category t) = category t;
  category_plain : has_char "|" (category t) = false;
  intensity_nonneg : (0 <= intensity t)%Z;
  intensity_numeral :
    (String.length (str_of_int (intensity t)) <= INT_MAX_STR_DIGITS)%nat;
  note_stripped : strip (note t) = note t
}.

(** The entries whose timestamp parses. *)
Definition parsed_thoughts (strptime : string -> option datetime)
    (ths : list thought) : list thought :=
  List.filter (fun t => bool_decide (is_Some (strptime (timestamp t)))) ths.

(** The mean of a series of minutes. *)
Definition mean (xs : list float) : float :=
  PrimFloat.div (fsum xs) (float_of_nat (length xs)).

(** No item of the series is a NaN. *)
Definition nan_free (xs : list float) : Prop :=
  Forall (fun x => PrimFloat.is_nan x = false) xs.

(** Ascending order of floats. *)
Definition ascending (xs : list float) : Prop :=
  Sorted (fun a b => PrimFloat.leb a b = true) xs.

End Spec.

(** ** Library routines on the inputs the examples use *)

Module Instances.
Import PyStr PyNum OverthinkingTracker.

Definition digit (c : ascii) : option Z :=
  if isdecimal_char c then Some (Z.of_nat (nat_of_ascii c) - 48)%Z else None.

Definition two_digits (a b : ascii) : option Z :=
  x ← digit a; y ← digit b; Some (10 * x + y)%Z.

Definition is_leap (y : Z) : bool :=
  ((y mod 4 =? 0) && (negb (y mod 100 =? 0) || (y mod 400 =? 0)))%Z.

Definition days_before_year (y : Z) : Z :=
  let p := (y - 1)%Z in (p * 365 + p / 4 - p / 100 + p / 400)%Z.

Definition days_in_month (y m : Z) : Z :=
  if (m =? 2)%Z then (if is_leap y then 29 else 28)%Z
  else if ((m =? 4) || (m =? 6) || (m =? 9) || (m =? 11))%Z then 30%Z
  else 31%Z.

Definition days_before_month (y m : Z) : Z :=
  zsum (map (days_in_month y) (map Z.of_nat (seq 1 (Z.to_nat m - 1)))).

(** [strptime] on the timestamps [strftime] writes: four digits of year,
    two of each other field, in range; every other text is refused. *)
Definition strptime_canonical (s : string) : option datetime :=
  match list_ascii_of_string s with
  | [y1; y2; y3; y4; a; m1; m2; b; d1; d2; c; h1; h2; e; n1; n2; f; s1; s2] =>
      if Ascii.eqb a "-" && Ascii.eqb b "-" && Ascii.eqb c " "
         && Ascii.eqb e ":" && Ascii.eqb f ":"
      then
        yh ← two_digits y1 y2; yl ← two_digits y3 y4;
        mo ← two_digits m1 m2; dd ← two_digits d1 d2;
        hh ← two_digits h1 h2; mi ← two_digits n1 n2; ss ← two_digits s1 s2;
        let y := (100 * yh + yl)%Z in
        if ((1 <=? y) && (1 <=? mo) && (mo <=? 12) && (1 <=? dd)
            && (dd <=? days_in_month y mo) && (hh <=? 23) && (mi <=? 59)
            && (ss <=? 59))%Z
        then
          let days := (days_before_year y + days_before_month y mo + dd - 1)%Z in
          Some ((((days * 24 + hh) * 60 + mi) * 60 + ss) * 1000000)%Z
        else None
      else None
  | _ => None
  end.

(** [float] on plain decimal literals of at most fifteen digits, an
    optional sign and an optional point: the quotient of two exact floats
    is the nearest float of the literal.  Every other text is refused. *)
Definition all_decimal (s : string) : bool := all_chars isdecimal_char s.

Definition decimal_value (s : string) : Z :=
  match NilEmpty.uint_of_string s with
  | Some u => Z.of_uint u
  | None => 0%Z
  end.

Definition unsigned_float (s : string) : option float :=
  match split "." s with
  | [ip] =>
      if truthy ip && all_decimal ip && (String.length ip <=? 15)%nat
      then Some (SF2Prim (nearest (decimal_value ip))) else None
  | [ip; fp] =>
      if truthy (ip +:+ fp) && all_decimal (ip +:+ fp)
         && (String.length (ip +:+ fp) <=? 15)%nat
      then Some (PrimFloat.div (SF2Prim (nearest (decimal_value (ip +:+ fp))))
                               (SF2Prim (nearest (10 ^ Z.of_nat (String.length fp)))))
      else None
  | _ => None
  end.

Definition float_of_decimal (s : string) : option float :=
  match s with
  | String "-" r => option_map PrimFloat.opp (unsigned_float r)
  | String "+" r => unsigned_float r
  | _ => unsigned_float s
  end.

(** Fixed-point formatting with [k] decimals: the exact value of the float
    is rounded to the nearest multiple of 10^-k, ties to even. *)
Definition round_half_even (n d : Z) : Z :=
  let q := (n / d)%Z in
  let r := (n mod d)%Z in
  if (2 * r <? d)%Z then q
  else if (d <? 2 * r)%Z then (q + 1)%Z
  else if Z.even q then q else (q + 1)%Z.

Definition fixed_digits (k : nat) (n : Z) : string :=
  let p := (10 ^ Z.of_nat k)%Z in
  let frac := str_of_int (n mod p) in
  str_of_int (n / p)
  +:+ match k with
      | O => EmptyString
      | S _ => "." +:+ DailyDataAnalyzer.times (k - String.length frac) "0" +:+ frac
      end.

Definition format_fixed (k : nat) (x : float) : string :=
  match Prim2SF x with
  | S754_nan => "nan"
  | S754_infinity s => if s then "-inf" else "inf"
  | S754_zero s => (if s then "-" else EmptyString) +:+ fixed_digits k 0
  | S754_finite s m e =>
      let num := (Zpos m * 10 ^ Z.of_nat k)%Z in
      let scaled :=
        if (0 <=? e)%Z then (num * 2 ^ e)%Z else round_half_even num (2 ^ (- e)) in
      (if s then "-" else EmptyString) +:+ fixed_digits k scaled
  end.

(** A stable sort by [<], by insertion from the left: a sort that keeps
    the promises of [sorted], for the examples. *)
Fixpoint insert_sorted (x : float) (l : list float) : list float :=
  match l with
  | [] => [x]
  | y :: l' => if PrimFloat.ltb x y then x :: l else y :: insert_sorted x l'
  end.

Definition insertion_sort (values : list float) : list float :=
  fold_left (fun acc x => insert_sorted x acc) values [].

Definition by_insertion : DailyDataAnalyzer.sorted_builtin.
Proof.
  assert (Hperm1 : forall x l, Permutation (insert_sorted x l) (x :: l)).
  { intros x l. induction l as [|y l IH]; simpl; [reflexivity|].
    destruct (PrimFloat.ltb x y); [reflexivity|].
    rewrite IH. apply perm_swap. }
  assert (Hperm : forall l acc,
            Permutation (fold_left (fun a x => insert_sorted x a) l acc) (acc ++ l)).
  { intros l. induction l as [|x l IH]; intros acc; simpl.
    - now rewrite app_nil_r.
    - rewrite IH, Hperm1. apply Permutation_middle. }
  assert (Hswap : forall a b, SFcompare b a = option_map CompOpp (SFcompare a b)).
  { intros a b.
    destruct a as [sa|sa| |sa ma ea], b as [sb|sb| |sb mb eb]; simpl;
      try destruct sa; try destruct sb; try reflexivity.
    all: rewrite (Z.compare_antisym ea eb); destruct (ea ?= eb)%Z; simpl;
      try reflexivity.
    all: rewrite (Pos.compare_cont_antisym ma mb Eq); simpl; try reflexivity.
    all: now destruct (Pos.compare_cont Eq ma mb). }
  assert (Hlt : forall x y, PrimFloat.ltb x y = true -> PrimFloat.leb x y = true).
  { intros x y. rewrite FloatAxioms.ltb_spec, FloatAxioms.leb_spec.
    unfold SFltb, SFleb. destruct (SFcompare _ _) as [[]|]; congruence. }
  assert (Hge : forall x y,
            PrimFloat.is_nan x = false -> PrimFloat.is_nan y = false ->
            PrimFloat.ltb x y = false -> PrimFloat.leb y x = true).
  { intros x y. unfold PrimFloat.is_nan.
    rewrite !FloatAxioms.eqb_spec, FloatAxioms.ltb_spec, FloatAxioms.leb_spec.
    unfold SFltb, SFleb. rewrite (Hswap (Prim2SF x) (Prim2SF y)).
    destruct (Prim2SF x) as [sa|sa| |sa ma ea], (Prim2SF y) as [sb|sb| |sb mb eb];
      simpl; try discriminate; try destruct sa; try destruct sb; simpl;
      try congruence.
    all: intros _ _; destruct (ea ?= eb)%Z; simpl; try congruence.
    all: destruct (Pos.compare_cont Eq ma mb); simpl; congruence. }
  assert (Hins : forall x l,
            PrimFloat.is_nan x = false -> Spec.nan_free l ->
            Spec.ascending l -> Spec.ascending (insert_sorted x l)).
  { intros x l Hx Hnan Hasc. induction Hasc as [|y l Hl IH Hhd]; simpl.
    - repeat constructor.
    - inversion Hnan as [|? ? Hy Hnl]; subst.
      destruct (PrimFloat.ltb x y) eqn:E.
      + constructor; [now constructor|]. constructor. now apply Hlt.
      + constructor; [now apply IH|].
        destruct l as [|z l]; simpl.
        * constructor. now apply Hge.
        * destruct (PrimFloat.ltb x z).
          -- constructor. now apply Hge.
          -- inversion Hhd; subst. now constructor. }
  assert (Hasc : forall l acc,
            Spec.nan_free l -> Spec.nan_free acc -> Spec.ascending acc ->
            Spec.ascending (fold_left (fun a x => insert_sorted x a) l acc)).
  { intros l. induction l as [|x l IH]; intros acc Hl Hacc Hs; simpl; [exact Hs|].
    inversion Hl as [|? ? Hx Hl']; subst.
    apply IH; [exact Hl'| |now apply Hins].
    unfold Spec.nan_free. rewrite Hperm1. now constructor. }
  exact (DailyDataAnalyzer.mkSorted insertion_sort
           (fun l => Hperm l [])
           (fun l H => Hasc l [] H (List.Forall_nil _) (Sorted_nil _))).
Defined.

(** A daily file of a header, a good row and a malformed row. *)
Definition sample_csv : string :=
  "Date,Minutes" +:+ DailyDataAnalyzer.nl +:+ "2025-01-15,45" +:+ DailyDataAnalyzer.nl
  +:+ "bad,row,x" +:+ DailyDataAnalyzer.nl.

(** A log of two entries, the second with a timestamp that is no date. *)
Definition mixed_log : list thought :=
  [mkThought "2025-01-15 10:00:00" "Work" 8 EmptyString;
   mkThought "not a date" "Work" 2 EmptyString].

End Instances.

(** ** Shapes of stored text *)

Module Shapes.
Import PyStr OverthinkingTracker Spec.

(** A text without line break. *)
Definition one_line (s : string) : Prop :=
  has_char LF s = false /\ has_char CR s = false.

(** An entry that occupies one line of the log and is read back from it: of
    the stored shape, with no delimiter in its note and no line break in
    its text fields. *)
Record writable (t : thought) : Prop := mkWritable {
  writable_stored : storable t;
  writable_note : has_char "|" (note t) = false;
  writable_timestamp_line : one_line (timestamp t);
  writable_category_line : one_line (category t);
  writable_note_line : one_line (note t)
}.

End Shapes.

(** ** Reading counters *)

Module Counting.
Import OverthinkingTracker.

(** [counts[k]] on a counter, 0 for an absent key. *)
Definition count_of `{Countable K} (counts : gmap K nat) (k : K) : nat :=
  default 0%nat (counts !! k).

(** [sum(counts.values())] *)
Definition total `{Countable K} (counts : gmap K nat) : nat :=
  map_fold (fun _ v acc => (v + acc)%nat) 0%nat counts.

(** The number of items of a list that pass a test. *)
Definition how_many {A} (p : A -> bool) (l : list A) : nat :=
  length (List.filter p l).

(** The hour of an entry whose timestamp parses. *)
Definition entry_hour (strptime : string -> option datetime) (t : thought) : option Z :=
  option_map hour (strptime (timestamp t)).

End Counting.

(** ** A numeric key for the order of floats *)

Module FloatKey.

(** The class of a float that is no NaN (negative infinity, negative, zero,
    positive, positive infinity), then exponent and mantissa, signed so
    that the order of the keys is the order of the floats. *)
Definition key (f : spec_float) : Z * (Z * Z) :=
  match f with
  | S754_nan => (0, (0, 0))%Z
  | S754_infinity true => (-2, (0, 0))%Z
  | S754_infinity false => (2, (0, 0))%Z
  | S754_zero _ => (0, (0, 0))%Z
  | S754_finite true m e => (-1, (- e, Zneg m))%Z
  | S754_finite false m e => (1, (e, Zpos m))%Z
  end.

Definition lex_le (a b : Z * (Z * Z)) : Prop :=
  (fst a < fst b
   \/ (fst a = fst b
       /\ (fst (snd a) < fst (snd b)
           \/ (fst (snd a) = fst (snd b) /\ snd (snd a) <= snd (snd b)))))%Z.

End FloatKey.

(** ** The interactive front end *)

Module Interaction.
Import PyStr PyNum OverthinkingTracker DailyDataAnalyzer.

(** [int(s)] on any text: white space at the ends, an optional sign, and
    decimal digits in groups joined by single underscores, no more digits
    than the bound allows; [None] is the [ValueError] of any other text. *)
Definition digit_groups (body : string) : option Z :=
  let groups := split "_" body in
  let digits := String.concat EmptyString groups in
  if forallb (fun g => truthy g && all_chars isdecimal_char g) groups
     && (String.length digits <=? INT_MAX_STR_DIGITS)%nat
  then option_map Z.of_uint (NilEmpty.uint_of_string digits)
  else None.

Definition py_int (s : string) : option Z :=
  match strip s with
  | String "-" r => option_map Z.opp (digit_groups r)
  | String "+" r => digit_groups r
  | r => digit_groups r
  end.

(** [int(x)] on a float: the value cut towards zero; [None] is the error
    raised on a NaN or an infinity. *)
Definition int_of_float (x : float) : option Z :=
  match Prim2SF x with
  | S754_nan => None
  | S754_infinity _ => None
  | S754_zero _ => Some 0%Z
  | S754_finite s m e =>
      let v := if (0 <=? e)%Z then (Zpos m * 2 ^ e)%Z else (Zpos m / 2 ^ (- e))%Z in
      Some (if s then (- v)%Z else v)
  end.

(** [xs[-n:]] for [n] above zero. *)
Definition last_items {A} (n : nat) (xs : list A) : list A :=
  skipn (length xs - n) xs.

(** [s[-n:]] for [n] above zero. *)
Definition str_tail (n : nat) (s : string) : string :=
  substring (String.length s - n) n s.

(** [enumerate(xs, start)] *)
Fixpoint enumerate {A} (start : nat) (xs : list A) : list (nat * A) :=
  match xs with
  | [] => []
  | x :: xs' => (start, x) :: enumerate (S start) xs'
  end.

(** The messages of the functions below, beside those of [message]. *)
Inductive notice : Type :=
| Cancelled
| InvalidCategory
| EnterOneToTen
| EnterValidNumber
| LoggedLight
| LoggedBreathe
| LoggedTalk
| HighIntensityDetected
| UnexpectedError.

Inductive printed : Type :=
| Said (m : message)
| Noted (n : notice).

Inductive colour : Type := Green | Yellow | Red.

(** *** [view_history] *)

Record history_row : Type := mkRow {
  row_number : nat;
  row_entry : thought;
  row_bar : nat;
  row_colour : colour;
  row_note : bool
}.

Definition history_row_of (it : nat * thought) : history_row :=
  let '(i, t) := it in
  mkRow i t (Z.to_nat (intensity t))
    (if (intensity t <=? 3)%Z then Green
     else if (intensity t <=? 6)%Z then Yellow else Red)
    (truthy (note t)).

Section History.

(** The length of the longest bar the interpreter can build: a repetition
    of more items raises, an [OverflowError] from 2^63 on and a
    [MemoryError] below, from a length that depends on the memory of the
    machine. *)
Variable room : nat.

(** The loop of [view_history]: the rows printed, and whether the loop ran
    to its end.  The bar is built first in each turn, so nothing of an
    entry is printed when its bar cannot be built. *)
Fixpoint history_rows (items : list (nat * thought)) : list history_row * bool :=
  match items with
  | [] => ([], true)
  | it :: rest =>
      if (intensity (snd it) <=? Z.of_nat room)%Z then
        let '(rows, finished) := history_rows rest in
        (history_row_of it :: rows, finished)
      else ([], false)
  end.

Inductive history : Type :=
| NoEntries
| Shown (rows : list history_row) (total : nat)
| HistoryRaises (rows : list history_row).

(** [view_history]: that there is no entry yet, the rows printed and the
    total reported, or the rows printed before the bar of an entry could
    not be built. *)
Definition view_history (self : tracker) : history :=
  match thoughts self with
  | [] => NoEntries
  | _ :: _ =>
      let recent := last_items 10 (thoughts self) in
      let '(rows, finished) := history_rows (enumerate 1 (rev recent)) in
      if finished then Shown rows (length (thoughts self)) else HistoryRaises rows
  end.

End History.

(** *** [log_overthinking] *)

Definition CATEGORY_KEYS : list string := ["1"; "2"; "3"; "4"; "5"; "6"; "7"].

Definition encouragement (intensity : Z) : list printed :=
  if (intensity <=? 3)%Z then [Noted LoggedLight]
  else if (intensity <=? 6)%Z then [Noted LoggedBreathe]
  else [Noted LoggedTalk; Noted HighIntensityDetected].

Section Logging.

(** [CATEGORIES[key]] for the seven keys: the labels hold characters
    outside the range of [string], so the table of labels is a parameter. *)
Variable label : string -> string.

(** [log_overthinking] on the lines [stdin] still to be typed, at the time
    [now] as [strftime] prints it: the tracker, the lines left, the files
    and the messages.  A prompt that finds no line raises, which the
    function reports as an unexpected error. *)
Definition log_overthinking (self : tracker) (now : string) (stdin : list string)
    (d : gmap string string)
  : tracker * list string * gmap string string * list printed :=
  match stdin with
  | [] => (self, [], d, [Noted UnexpectedError])
  | a :: stdin1 =>
      let cat_choice := strip a in
      if String.eqb (lower cat_choice) "cancel" then (self, stdin1, d, [Noted Cancelled])
      else if negb (existsb (String.eqb cat_choice) CATEGORY_KEYS)
      then (self, stdin1, d, [Noted InvalidCategory])
      else
        match stdin1 with
        | [] => (self, [], d, [Noted UnexpectedError])
        | b :: stdin2 =>
            let intensity_str := strip b in
            match py_int intensity_str with
            | None => (self, stdin2, d, [Noted EnterValidNumber])
            | Some intensity =>
                if negb ((1 <=? intensity)%Z && (intensity <=? 10)%Z)
                then (self, stdin2, d, [Noted EnterOneToTen])
                else
                  match stdin2 with
                  | [] => (self, [], d, [Noted UnexpectedError])
                  | c :: stdin3 =>
                      let thought := mkThought now (label cat_choice) intensity (strip c) in
                      let '(self', d', out) := log_entry self thought d in
                      (self', stdin3, d', map Said out ++ encouragement intensity)
                  end
            end
        end
  end.

End Logging.

(** *** The trend chart and the analysis of the daily file *)

Record chart_row : Type := mkChartRow {
  chart_label : string;
  chart_bar : Z;
  chart_colour : colour;
  chart_minutes : float
}.

(** The rows of the loop of [draw_trend_chart], and whether the loop ran
    to its end: [int] raises on a quotient that is a NaN or an infinity. *)
Fixpoint chart_rows (min_val max_val : float) (recent : list entry)
  : list chart_row * bool :=
  match recent with
  | [] => ([], true)
  | e :: rest =>
      let mins := minutes e in
      let bar_length :=
        if PrimFloat.ltb min_val max_val
        then int_of_float
               (PrimFloat.mul
                  (PrimFloat.div (PrimFloat.sub mins min_val)
                                 (PrimFloat.sub max_val min_val))
                  40%float)
        else Some 20%Z in
      match bar_length with
      | None => ([], false)
      | Some bar =>
          let row := mkChartRow (str_tail 5 (date e)) bar
                       (if PrimFloat.ltb 60%float mins then Red
                        else if PrimFloat.ltb 30%float mins then Yellow else Green)
                       mins in
          let '(rows, finished) := chart_rows min_val max_val rest in
          (row :: rows, finished)
      end
  end.

Inductive chart : Type :=
| NeedMorePoints
| Chart (rows : list chart_row)
| ChartRaises (rows : list chart_row).

Definition draw_trend_chart (data : list entry) : chart :=
  match map minutes data with
  | m :: m' :: ms =>
      let '(rows, finished) :=
        chart_rows (fmin m (m' :: ms)) (fmax m (m' :: ms)) (last_items 14 data) in
      if finished then Chart rows else ChartRaises rows
  | _ => NeedMorePoints
  end.

Inductive daily_analysis : Type :=
| NoDailyData
| DailyStats (st : stats) (c : chart)
| DailyRaises.

Section Main.

Variable sorted : sorted_builtin.
Variable float_of_str : string -> option float.
Variable fmt : nat -> float -> string.
Variable label : string -> string.

(** [clock k] is the current time, as [strftime] prints it, during the
    [k]-th turn of the menu loop. *)
Variable clock : nat -> string.

(** [analyze_daily_data]: what it returns, or that it raises. *)
Definition analyze_daily_data (d : gmap string string) : daily_analysis :=
  match fst (read_daily_data float_of_str DAILY_DATA_FILE d) with
  | [] => NoDailyData
  | data =>
      match calculate_stats sorted data with
      | None => DailyRaises
      | Some st =>
          match draw_trend_chart data with
          | ChartRaises _ => DailyRaises
          | c => DailyStats st c
          end
      end
  end.

(** [dry_run] as [main] reads it from the command line. *)
Definition dry_run_flag (argv : list string) : bool :=
  existsb (String.eqb "--dryrun") argv || existsb (String.eqb "--dry-run") argv.

(** The state of a run of [main]: the tracker, [main.last_stats] with
    [main.last_data] once they are set, the files, the lines still to be
    typed and the number of the turn. *)
Record session : Type := mkSession {
  tracker_of : tracker;
  last_analysis : option (stats * list entry);
  files : gmap string string;
  stdin : list string;
  turn : nat
}.

Inductive step : Type :=
| Continue (s : session)
| Break (s : session).

(** One turn of the loop of [main] on the [choice] typed, with the lines
    [rest] left after it.  The choices that only print leave the state as
    it is, also when they raise. *)
Definition menu_step (s : session) (choice : string) (rest : list string) : step :=
  let s0 := mkSession (tracker_of s) (last_analysis s) (files s) rest (S (turn s)) in
  if String.eqb choice "1" then
    let '(tr, rest', d', _) :=
      log_overthinking label (tracker_of s) (clock (turn s)) rest (files s) in
    Continue (mkSession tr (last_analysis s) d' rest' (S (turn s)))
  else if String.eqb choice "2" then Continue s0
  else if String.eqb choice "3" then Continue s0
  else if String.eqb choice "4" then
    match analyze_daily_data (files s) with
    | DailyStats st _ =>
        Continue (mkSession (tracker_of s)
                    (Some (st, fst (read_daily_data float_of_str DAILY_DATA_FILE (files s))))
                    (files s) rest (S (turn s)))
    | _ => Continue s0
    end
  else if String.eqb choice "5" then
    match last_analysis s with
    | Some (st, data) =>
        Continue (mkSession (tracker_of s) (last_analysis s)
                    (fst (export_report fmt (Some st) data (clock (turn s)) (files s)))
                    rest (S (turn s)))
    | None => Continue s0
    end
  else if String.eqb choice "6" then Continue s0
  else if String.eqb choice "7" then Break s0
  else Continue s0.

Inductive ending : Type :=
| Exits (s : session)
| Spins (s : session)
| Unfinished.

(** The loop of [main].  When no line is left the prompt raises, the loop
    reports it and prompts again, for ever: the run does not end. *)
Fixpoint main_loop (fuel : nat) (s : session) : ending :=
  match fuel with
  | O => Unfinished
  | S fuel' =>
      match stdin s with
      | [] => Spins s
      | line :: rest =>
          match menu_step s (strip line) rest with
          | Continue s' => main_loop fuel' s'
          | Break s' => Exits s'
          end
      end
  end.

Definition main (argv : list string) (typed : list string) (d : gmap string string)
  : ending :=
  main_loop (S (length typed))
    (mkSession (fst (init (dry_run_flag argv) d)) None d typed 0).

End Main.

End Interaction.

(** ** What a run of the menu keeps true *)

Module SessionSpec.
Import OverthinkingTracker DailyDataAnalyzer Interaction.

(** The state of a run that started on the files [d0] with the dry-run flag
    [dry]: the flag is kept; no file but the log and the report differs
    from [d0]; in a dry run the log does not differ either; while no
    analysis has succeeded the report does not differ; and the analysis
    kept is that of the daily file, with the report, once written, being
    the report of that analysis at some turn. *)
Definition keeps (sorted : sorted_builtin) (float_of_str : string -> option float)
    (fmt : nat -> float -> string) (clock : nat -> string)
    (d0 : gmap string string) (dry : bool) (s : session) : Prop :=
  dry_run (tracker_of s) = dry
  /\ (forall f, f <> THOUGHTS_FILE -> f <> REPORT_FILE -> files s !! f = d0 !! f)
  /\ (dry = true -> files s !! THOUGHTS_FILE = d0 !! THOUGHTS_FILE)
  /\ (last_analysis s = None -> files s !! REPORT_FILE = d0 !! REPORT_FILE)
  /\ (forall st data, last_analysis s = Some (st, data) ->
        data = fst (read_daily_data float_of_str DAILY_DATA_FILE d0)
        /\ data <> [] /\ calculate_stats sorted data = Some st
        /\ (files s !! REPORT_FILE = d0 !! REPORT_FILE
            \/ exists k, files s !! REPORT_FILE
                         = Some (report_text fmt (clock k) st data))).

End SessionSpec.

(** * Properties *)

Import PyStr PyNum OverthinkingTracker DailyDataAnalyzer Spec.

#[local] Arguments String.append !_ _ / : simpl nomatch.

(** ** Strings *)

Section StringFacts.

Lemma lstrip_length s : (String.length (lstrip s) <= String.length s)%nat.
Proof.
  induction s as [|c s IH]; simpl; [lia|].
  destruct (isspace c); simpl; lia.
Qed.

Lemma lstrip_head s c r : lstrip s = String c r -> isspace c = false.
Proof.
  induction s as [|a s IH]; simpl; [discriminate|].
  destruct (isspace a) eqn:Ha; [exact IH|].
  intros [= <- _]. exact Ha.
Qed.

Lemma lstrip_fixed_head c s : lstrip (String c s) = String c s -> isspace c = false.
Proof. apply lstrip_head. Qed.

Lemma lstrip_nospace c s : isspace c = false -> lstrip (String c s) = String c s.
Proof. intros H. simpl. now rewrite H. Qed.

Lemma rstrip_nospace c s : isspace c = false -> rstrip (String c s) = String c (rstrip s).
Proof. intros H. simpl. rewrite H. now destruct (rstrip s). Qed.

Lemma rstrip_length s : (String.length (rstrip s) <= String.length s)%nat.
Proof.
  induction s as [|c s IH]; simpl; [lia|].
  destruct (rstrip s); [destruct (isspace c)|]; simpl in *; lia.
Qed.

Lemma rstrip_idem s : rstrip (rstrip s) = rstrip s.
Proof.
  induction s as [|c s IH]; [reflexivity|]. simpl.
  destruct (rstrip s) as [|x r] eqn:E.
  - destruct (isspace c) eqn:Hc; simpl; [reflexivity|now rewrite Hc].
  - change (rstrip (String c (String x r))) with
      (match rstrip (String x r) with
       | EmptyString => if isspace c then EmptyString else String c EmptyString
       | q => String c q
       end).
    now rewrite IH.
Qed.

Lemma rstrip_app a b :
  rstrip (a +:+ b)
  = match rstrip b with EmptyString => rstrip a | String _ _ => a +:+ rstrip b end.
Proof.
  induction a as [|c a IH]; simpl.
  - destruct (rstrip b); reflexivity.
  - rewrite IH. destruct (rstrip b) as [|x r]; [reflexivity|].
    destruct a; reflexivity.
Qed.

Lemma lstrip_app_nospace a c b :
  lstrip a = a -> isspace c = false ->
  lstrip (a +:+ String c b) = a +:+ String c b.
Proof.
  intros Ha Hc. destruct a as [|x a]; simpl.
  - now rewrite Hc.
  - now rewrite (lstrip_fixed_head _ _ Ha).
Qed.

(** A string that [strip] leaves alone has white space at neither end. *)
Lemma strip_fixed s : strip s = s -> lstrip s = s /\ rstrip s = s.
Proof.
  unfold strip. intros H.
  assert (Hl : lstrip s = s).
  { destruct s as [|c s]; [reflexivity|].
    simpl. destruct (isspace c) eqn:Hc; [|reflexivity].
    exfalso. simpl in H. rewrite Hc in H.
    pose proof (rstrip_length (lstrip s)). pose proof (lstrip_length s).
    rewrite H in *. simpl in *. lia. }
  split; [exact Hl|]. now rewrite Hl in H.
Qed.

Lemma strip_idem s : strip (strip s) = strip s.
Proof.
  unfold strip.
  assert (H : lstrip (rstrip (lstrip s)) = rstrip (lstrip s)).
  { destruct (lstrip s) as [|c r] eqn:E; [reflexivity|].
    pose proof (lstrip_head _ _ _ E) as Hc.
    rewrite (rstrip_nospace _ _ Hc). now apply lstrip_nospace. }
  rewrite H. apply rstrip_idem.
Qed.

Lemma has_char_app c a b : has_char c (a +:+ b) = has_char c a || has_char c b.
Proof.
  induction a as [|x a IH]; simpl; [reflexivity|].
  rewrite IH. now rewrite orb_assoc.
Qed.

Lemma has_char_lstrip c s : has_char c s = false -> has_char c (lstrip s) = false.
Proof.
  induction s as [|x s IH]; simpl; [easy|].
  intros H. apply orb_false_elim in H as [Hx Hs].
  destruct (isspace x); [auto|]. simpl. now rewrite Hx, Hs.
Qed.

Lemma has_char_rstrip c s : has_char c s = false -> has_char c (rstrip s) = false.
Proof.
  induction s as [|x s IH]; simpl; [easy|].
  intros H. apply orb_false_elim in H as [Hx Hs].
  specialize (IH Hs).
  destruct (rstrip s) as [|y r].
  - destruct (isspace x); simpl; [reflexivity|now rewrite Hx].
  - simpl in *. now rewrite Hx, IH.
Qed.

Lemma has_char_strip c s : has_char c s = false -> has_char c (strip s) = false.
Proof. intros H. now apply has_char_rstrip, has_char_lstrip. Qed.

Lemma split_not_nil sep s : split sep s <> [].
Proof.
  destruct s as [|c s]; simpl; [easy|].
  destruct (Ascii.eqb c sep); [easy|]. now destruct (split sep s).
Qed.

Lemma split_plain sep s : has_char sep s = false -> split sep s = [s].
Proof.
  induction s as [|c s IH]; simpl; [reflexivity|].
  intros H. apply orb_false_elim in H as [Hc Hs].
  rewrite Hc, (IH Hs). reflexivity.
Qed.

Lemma split_app sep a b :
  has_char sep a = false -> split sep (a +:+ String sep b) = a :: split sep b.
Proof.
  induction a as [|c a IH]; simpl.
  - intros _. now rewrite Ascii.eqb_refl.
  - intros H. apply orb_false_elim in H as [Hc Ha].
    rewrite Hc, (IH Ha). reflexivity.
Qed.

Lemma split_parts_plain sep s : Forall (fun p => has_char sep p = false) (split sep s).
Proof.
  induction s as [|c s IH]; simpl.
  - now constructor.
  - destruct (Ascii.eqb c sep) eqn:Hc.
    + now constructor.
    + destruct (split sep s) as [|p ps]; inversion IH; subst;
        constructor; simpl; try rewrite Hc; auto.
Qed.

Lemma split_two_has sep s : (2 <= length (split sep s))%nat -> has_char sep s = true.
Proof.
  intros H. destruct (has_char sep s) eqn:E; [reflexivity|].
  rewrite (split_plain _ _ E) in H. simpl in H. lia.
Qed.

Lemma split_two_truthy sep s : (2 <= length (split sep s))%nat -> truthy s = true.
Proof. destruct s; simpl; [lia|reflexivity]. Qed.

End StringFacts.

(** ** Decimal numerals *)

Section DecimalFacts.

Lemma decimal_char_classes c :
  isdecimal_char c = true ->
  isspace c = false /\ isdigit_char c = true /\ Ascii.eqb c "|" = false.
Proof.
  destruct c as [[] [] [] [] [] [] [] []]; vm_compute; intuition congruence.
Qed.

Lemma uint_string_decimal d : all_chars isdecimal_char (NilEmpty.string_of_uint d) = true.
Proof. induction d; simpl; auto. Qed.

Lemma decimal_rstrip s : all_chars isdecimal_char s = true -> rstrip s = s.
Proof.
  induction s as [|c s IH]; [reflexivity|].
  intros H. apply andb_prop in H as [Hc Hs].
  destruct (decimal_char_classes _ Hc) as (Hsp & _ & _).
  now rewrite (rstrip_nospace _ _ Hsp), (IH Hs).
Qed.

Lemma decimal_strip s : all_chars isdecimal_char s = true -> strip s = s.
Proof.
  intros H. unfold strip.
  assert (Hl : lstrip s = s).
  { destruct s as [|c s]; [reflexivity|].
    apply andb_prop in H as [Hc _].
    destruct (decimal_char_classes _ Hc) as (Hsp & _ & _).
    now apply lstrip_nospace. }
  rewrite Hl. now apply decimal_rstrip.
Qed.

Lemma decimal_plain s : all_chars isdecimal_char s = true -> has_char "|" s = false.
Proof.
  induction s as [|c s IH]; [reflexivity|].
  intros H. apply andb_prop in H as [Hc Hs]. simpl.
  destruct (decimal_char_classes _ Hc) as (_ & _ & Hb).
  now rewrite Hb, (IH Hs).
Qed.

Lemma decimal_isdigit s :
  truthy s = true -> all_chars isdecimal_char s = true -> isdigit s = true.
Proof.
  intros Ht H. destruct s as [|c s]; [discriminate|]. unfold isdigit.
  clear Ht. revert H. generalize (String c s). intros u.
  induction u as [|x u IH]; [reflexivity|].
  intros H. apply andb_prop in H as [Hx Hu]. simpl.
  destruct (decimal_char_classes _ Hx) as (_ & Hd & _).
  now rewrite Hd, (IH Hu).
Qed.

Lemma uint_of_decimal_string s :
  all_chars isdecimal_char s = true -> exists u, NilEmpty.uint_of_string s = Some u.
Proof.
  induction s as [|c s IH]; simpl; [eauto|].
  intros H. apply andb_prop in H as [Hc Hs].
  destruct (IH Hs) as [u ->].
  revert Hc. destruct c as [[] [] [] [] [] [] [] []]; vm_compute; intros; try discriminate; eauto.
Qed.

(** [int] succeeds on a non-empty run of decimal digits within the bound,
    with a value that is not negative. *)
Lemma int_of_decimal_digits s :
  truthy s = true -> all_chars isdecimal_char s = true ->
  (String.length s <= INT_MAX_STR_DIGITS)%nat ->
  exists n, int_of_digits s = Some n /\ (0 <= n)%Z.
Proof.
  intros Ht H Hlen. destruct (uint_of_decimal_string _ H) as [u Hu].
  exists (Z.of_uint u). split.
  - destruct s; [discriminate|]. unfold int_of_digits.
    destruct (Nat.ltb_spec INT_MAX_STR_DIGITS (String.length (String a s))); [lia|].
    now rewrite Hu.
  - unfold Z.of_uint. lia.
Qed.

(** [int] refuses a run of more digits than the bound allows. *)
Lemma int_of_long_digits s :
  (INT_MAX_STR_DIGITS < String.length s)%nat -> int_of_digits s = None.
Proof.
  intros Hlen. destruct s as [|c s]; [reflexivity|]. unfold int_of_digits.
  now destruct (Nat.ltb_spec INT_MAX_STR_DIGITS (String.length (String c s))); [|lia].
Qed.

Lemma int_of_digits_some s n :
  int_of_digits s = Some n ->
  truthy s = true /\ (String.length s <= INT_MAX_STR_DIGITS)%nat
  /\ exists u, NilEmpty.uint_of_string s = Some u /\ n = Z.of_uint u.
Proof.
  destruct s as [|c s]; [discriminate|]. unfold int_of_digits.
  destruct (Nat.ltb_spec INT_MAX_STR_DIGITS (String.length (String c s)));
    [discriminate|].
  destruct (NilEmpty.uint_of_string (String c s)) as [u|]; [|discriminate].
  intros [= <-]. split; [reflexivity|]. split; [lia|eauto].
Qed.

Lemma int_of_digits_nonneg s n : int_of_digits s = Some n -> (0 <= n)%Z.
Proof.
  intros H. apply int_of_digits_some in H as (_ & _ & u & _ & ->).
  unfold Z.of_uint. lia.
Qed.

Lemma uint_string_length d :
  String.length (NilEmpty.string_of_uint d) = Decimal.nb_digits d.
Proof. induction d; simpl; auto. Qed.

(** The numeral [str] writes for a value [int] has read is no longer than
    the digits read: it is within the bound. *)
Lemma int_of_digits_numeral s n :
  int_of_digits s = Some n ->
  (String.length (str_of_int n) <= INT_MAX_STR_DIGITS)%nat.
Proof.
  intros H. apply int_of_digits_some in H as (Ht & Hlen & u & Hu & ->).
  assert (Hne : u <> Decimal.Nil).
  { intros ->. apply NilEmpty.sus in Hu. simpl in Hu. subst s.
    discriminate Ht. }
  apply NilEmpty.sus in Hu. rewrite <- Hu, uint_string_length in Hlen.
  unfold str_of_int.
  change (Z.of_uint u) with (Z.of_int (Decimal.Pos u)).
  rewrite DecimalZ.to_of. simpl.
  pose proof (DecimalFacts.nb_digits_unorm u Hne) as Hn.
  assert (Hs : NilZero.string_of_uint (Decimal.unorm u)
               = NilEmpty.string_of_uint (Decimal.unorm u)).
  { unfold NilZero.string_of_uint.
    destruct (Decimal.unorm u) eqn:E; try reflexivity.
    exfalso. revert E. apply DecimalFacts.unorm_nonnil. }
  rewrite Hs, uint_string_length. lia.
Qed.

(** The numeral of an [int] that is not negative: decimal digits, at least
    one, that [int] reads back. *)
Lemma str_of_int_numeral z :
  (0 <= z)%Z ->
  exists d, str_of_int z = NilEmpty.string_of_uint d /\ d <> Decimal.Nil /\ Z.of_uint d = z.
Proof.
  intros Hz. destruct z as [|p|p]; [| |lia].
  - exists (Decimal.D0 Decimal.Nil). repeat split; discriminate.
  - exists (Pos.to_uint p). unfold str_of_int. simpl.
    pose proof (DecimalPos.Unsigned.to_uint_nonnil p) as Hn.
    repeat split; [|exact Hn|].
    + unfold NilZero.string_of_uint. now destruct (Pos.to_uint p).
    + unfold Z.of_uint. now rewrite DecimalPos.Unsigned.of_to.
Qed.

Lemma str_of_int_decimal z :
  (0 <= z)%Z ->
  all_chars isdecimal_char (str_of_int z) = true
  /\ truthy (str_of_int z) = true
  /\ ((String.length (str_of_int z) <= INT_MAX_STR_DIGITS)%nat ->
      int_of_digits (str_of_int z) = Some z).
Proof.
  intros Hz. destruct (str_of_int_numeral z Hz) as (d & -> & Hd & Hv).
  split; [apply uint_string_decimal|].
  assert (Ht : truthy (NilEmpty.string_of_uint d) = true) by now destruct d.
  split; [exact Ht|]. intros Hlen.
  unfold int_of_digits.
  destruct (NilEmpty.string_of_uint d) eqn:E; [discriminate|].
  rewrite <- E in *.
  destruct (Nat.ltb_spec INT_MAX_STR_DIGITS (String.length (NilEmpty.string_of_uint d)));
    [lia|].
  rewrite NilEmpty.usu. simpl. now rewrite Hv.
Qed.

End DecimalFacts.

(** ** The log format *)

Section LogFormat.

Lemma rstrip_bar a b : rstrip (a +:+ String "|" b) = a +:+ String "|" (rstrip b).
Proof.
  rewrite rstrip_app.
  assert (H : rstrip (String "|" b) = String "|" (rstrip b))
    by now apply rstrip_nospace.
  now rewrite H.
Qed.

(** What [strip] makes of the line written for an entry whose timestamp
    and note carry no white space at their ends. *)
Lemma strip_log_line t :
  strip (timestamp t) = timestamp t -> strip (note t) = note t ->
  strip (log_line t)
  = timestamp t +:+ String "|" (category t +:+ String "|"
      (str_of_int (intensity t) +:+ String "|" (note t))).
Proof.
  intros Hts Hnote.
  destruct (strip_fixed _ Hts) as [Hl _].
  destruct (strip_fixed _ Hnote) as [_ Hr].
  unfold strip, log_line. simpl.
  rewrite lstrip_app_nospace by (exact Hl || reflexivity).
  rewrite !rstrip_bar. rewrite rstrip_app. simpl.
  now rewrite Hr.
Qed.

(** The entry read from the fields of a stored entry, whatever follows the
    first part of the note. *)
Lemma thought_of_stored_parts t p ps :
  strip (timestamp t) = timestamp t -> strip (category t) = category t ->
  (0 <= intensity t)%Z ->
  (String.length (str_of_int (intensity t)) <= INT_MAX_STR_DIGITS)%nat ->
  thought_of_parts (timestamp t :: category t :: str_of_int (intensity t) :: p :: ps)
  = Entry (mkThought (timestamp t) (category t) (intensity t) (strip p)).
Proof.
  intros Hts Hcat Hz Hlen.
  destruct (str_of_int_decimal _ Hz) as (Hdec & Htr & Hint).
  unfold thought_of_parts. simpl nth. simpl length.
  rewrite (decimal_strip _ Hdec), (decimal_isdigit _ Htr Hdec), (Hint Hlen), Hts, Hcat.
  reflexivity.
Qed.

Lemma parse_log_line t :
  storable t ->
  parse_line (log_line t)
  = Entry (mkThought (timestamp t) (category t) (intensity t)
             (strip (hd EmptyString (split "|" (note t))))).
Proof.
  intros [Hts Hpts Hcat Hpcat Hz Hnum Hnote].
  destruct (str_of_int_decimal _ Hz) as (Hdec & _ & _).
  unfold parse_line. rewrite (strip_log_line _ Hts Hnote).
  assert (Hsplit :
    split "|" (timestamp t +:+ String "|" (category t +:+ String "|"
                 (str_of_int (intensity t) +:+ String "|" (note t))))
    = timestamp t :: category t :: str_of_int (intensity t) :: split "|" (note t)).
  { rewrite !split_app; auto using decimal_plain. }
  rewrite Hsplit.
  assert (Htruthy : forall a b, truthy (a +:+ String "|" b) && has_char "|" (a +:+ String "|" b) = true).
  { intros a b. rewrite has_char_app. simpl.
    rewrite orb_true_r. now destruct a. }
  rewrite Htruthy.
  destruct (split "|" (note t)) as [|p ps] eqn:E.
  - now apply split_not_nil in E.
  - simpl length. simpl hd.
    change (4 <=? S (S (S (S (length ps)))))%nat with true. cbv iota.
    now apply thought_of_stored_parts.
Qed.

(** Every entry [load_thoughts] reads has the stored shape, and its note
    holds no delimiter. *)
Lemma parse_line_storable line t :
  parse_line line = Entry t -> storable t /\ has_char "|" (note t) = false.
Proof.
  unfold parse_line.
  destruct (truthy (strip line) && has_char "|" (strip line)); [|discriminate].
  destruct (4 <=? length (split "|" (strip line)))%nat; [|discriminate].
  pose proof (split_parts_plain "|" (strip line)) as Hplain.
  assert (Hfield : forall i,
    has_char "|" (strip (nth i (split "|" (strip line)) EmptyString)) = false
    /\ strip (strip (nth i (split "|" (strip line)) EmptyString))
       = strip (nth i (split "|" (strip line)) EmptyString)).
  { intros i. split; [|apply strip_idem]. apply has_char_strip.
    destruct (nth_in_or_default i (split "|" (strip line)) EmptyString) as [Hin | ->];
      [|reflexivity].
    rewrite Forall_forall in Hplain. now apply Hplain, list_elem_of_In. }
  unfold thought_of_parts.
  set (note_field := if (3 <? _)%nat then _ else _).
  assert (Hnote : has_char "|" note_field = false /\ strip note_field = note_field).
  { subst note_field. destruct (3 <? _)%nat; [apply Hfield|split; reflexivity]. }
  destruct (isdigit _).
  - destruct (int_of_digits _) as [n|] eqn:Hn; [|discriminate].
    intros [= <-]. split; [|apply Hnote].
    constructor; simpl; try apply Hfield; try apply Hnote.
    + eapply int_of_digits_nonneg; eauto.
    + eapply int_of_digits_numeral; eauto.
  - intros [= <-]. split; [|apply Hnote].
    constructor; simpl; try apply Hfield; try apply Hnote; [lia|].
    vm_compute. lia.
Qed.

Lemma four_parts_guard s :
  (4 <= length (split "|" s))%nat ->
  truthy s && has_char "|" s = true /\ (4 <=? length (split "|" s))%nat = true.
Proof.
  intros H. split.
  - rewrite (split_two_truthy "|" s), (split_two_has "|" s) by lia. reflexivity.
  - now apply Nat.leb_le.
Qed.




(** C10: a line of more than four fields is read from its first four
    alone, the note is the fourth without the white space at its ends, and
    so the note of a stored entry that holds a delimiter comes back cut at
    its first delimiter. *)
Theorem extra_fields_dropped :
  (forall line : string,
      (4 < length (split "|" (strip line)))%nat ->
      parse_line line = thought_of_parts (firstn 4 (split "|" (strip line)))
      /\ forall t, parse_line line = Entry t ->
                   note t = strip (nth 3 (split "|" (strip line)) EmptyString))
  /\ (forall (t : thought) (a b : string),
         storable t -> note t = a +:+ String "|" b -> has_char "|" a = false ->
         parse_line (log_line t)
         = Entry (mkThought (timestamp t) (category t) (intensity t) (strip a))).
Proof.
  split.
  - intros line Hlen.
    assert (H4 : (4 <= length (split "|" (strip line)))%nat) by lia.
    destruct (four_parts_guard _ H4) as [Hg Hl].
    assert (Hparse : parse_line line = thought_of_parts (split "|" (strip line))).
    { unfold parse_line. now rewrite Hg, Hl. }
    destruct (split "|" (strip line)) as [|p0 [|p1 [|p2 [|p3 [|p4 ps]]]]];
      simpl in Hlen; try lia.
    split; [rewrite Hparse; reflexivity|].
    intros t. rewrite Hparse. unfold thought_of_parts. simpl.
    destruct (isdigit (strip p2)); [destruct (int_of_digits (strip p2))|];
      intros [= <-]; reflexivity.
  - intros t a b Hst Hnote Ha. rewrite (parse_log_line _ Hst).
    now rewrite Hnote, (split_app _ _ _ Ha).
Qed.

Lemma extra_fields_dropped_witness :
  parse_line "2025-01-15 10:00:00|Work|7|before|after"
  = thought_of_parts (firstn 4 (split "|" (strip "2025-01-15 10:00:00|Work|7|before|after")))
  /\ parse_line (log_line (mkThought "2025-01-15 10:00:00" "Work" 7 "before|after"))
     = Entry (mkThought "2025-01-15 10:00:00" "Work" 7 "before").
Proof.
  split.
  - apply (proj1 extra_fields_dropped "2025-01-15 10:00:00|Work|7|before|after").
    vm_compute; lia.
  - apply (proj2 extra_fields_dropped
             (mkThought "2025-01-15 10:00:00" "Work" 7 "before|after") "before" "after");
      [constructor; simpl; solve [reflexivity | lia | vm_compute; lia] | reflexivity | reflexivity].
Defined.

End LogFormat.

(** ** The order of floats *)

Section FloatOrder.

Lemma SFcompare_swap a b : SFcompare b a = option_map CompOpp (SFcompare a b).
Proof.
  destruct a as [sa|sa| |sa ma ea], b as [sb|sb| |sb mb eb]; simpl;
    try destruct sa; try destruct sb; try reflexivity.
  all: rewrite (Z.compare_antisym ea eb); destruct (ea ?= eb)%Z; simpl;
    try reflexivity.
  all: rewrite (Pos.compare_cont_antisym ma mb Eq); simpl; try reflexivity.
  all: now destruct (Pos.compare_cont Eq ma mb).
Qed.

Lemma SFcompare_defined a b :
  a <> S754_nan -> b <> S754_nan -> SFcompare a b <> None.
Proof.
  destruct a as [sa|sa| |sa ma ea], b as [sb|sb| |sb mb eb]; simpl;
    try destruct sa; try destruct sb; congruence.
Qed.

Lemma not_nan_spec x : PrimFloat.is_nan x = false -> Prim2SF x <> S754_nan.
Proof.
  unfold PrimFloat.is_nan. rewrite FloatAxioms.eqb_spec. intros H E.
  rewrite E in H. discriminate.
Qed.

Lemma ltb_leb x y : PrimFloat.ltb x y = true -> PrimFloat.leb x y = true.
Proof.
  rewrite FloatAxioms.ltb_spec, FloatAxioms.leb_spec. unfold SFltb, SFleb.
  destruct (SFcompare _ _) as [[]|]; congruence.
Qed.

(** Two floats that are no NaN compare one way or the other. *)
Lemma not_ltb_leb x y :
  PrimFloat.is_nan x = false -> PrimFloat.is_nan y = false ->
  PrimFloat.ltb x y = false -> PrimFloat.leb y x = true.
Proof.
  intros Hx Hy. rewrite FloatAxioms.ltb_spec, FloatAxioms.leb_spec. unfold SFltb, SFleb.
  rewrite (SFcompare_swap (Prim2SF x) (Prim2SF y)).
  pose proof (SFcompare_defined _ _ (not_nan_spec _ Hx) (not_nan_spec _ Hy)) as Hd.
  destruct (SFcompare (Prim2SF x) (Prim2SF y)) as [[]|]; simpl; congruence.
Qed.

End FloatOrder.

(** ** Statistics of the daily series *)

Section SeriesStatistics.

Variable sorted : sorted_builtin.

Lemma sorted_length l : length (sorted l) = length l.
Proof. apply Permutation_length, sorted_items. Qed.

Lemma index_nat {A} (xs : list A) (d : A) (i : nat) :
  (i < length xs)%nat -> index xs (Z.of_nat i) = Some (nth i xs d).
Proof.
  intros H. unfold index.
  destruct (Z.leb_spec 0 (Z.of_nat i)); [|lia].
  rewrite Nat2Z.id. now apply nth_error_nth'.
Qed.

Lemma half_bounds n : (2 <= n)%nat -> (0 < n / 2 /\ n / 2 < n)%nat.
Proof.
  intros H. pose proof (Nat.div_mod_eq n 2).
  pose proof (Nat.mod_upper_bound n 2). lia.
Qed.

Lemma median_even values :
  values <> [] -> Nat.Even (length values) ->
  _calculate_median sorted values
  = Some (PrimFloat.div
            (PrimFloat.add (nth (length values / 2 - 1) (sorted values) 0%float)
                           (nth (length values / 2) (sorted values) 0%float))
            2%float).
Proof.
  intros Hne [k Hk]. unfold _calculate_median.
  rewrite sorted_length.
  assert (Hpos : (0 < length values)%nat) by (destruct values; simpl; [easy|lia]).
  assert (Hmod : (length values mod 2 = 0)%nat)
    by (rewrite Hk, Nat.mul_comm; apply Nat.Div0.mod_mul).
  rewrite Hmod. simpl Nat.eqb. cbv iota.
  assert (Hhalf : (length values / 2 = k)%nat)
    by (rewrite Hk, Nat.mul_comm; apply Nat.div_mul; lia).
  rewrite Hhalf.
  replace (Z.of_nat k - 1)%Z with (Z.of_nat (k - 1)) by lia.
  rewrite (index_nat _ 0%float (k - 1)), (index_nat _ 0%float k)
    by (rewrite sorted_length; lia).
  reflexivity.
Qed.

Lemma median_odd values :
  Nat.Odd (length values) ->
  _calculate_median sorted values = Some (nth (length values / 2) (sorted values) 0%float).
Proof.
  intros [k Hk]. unfold _calculate_median. rewrite sorted_length.
  assert (Hmod : (length values mod 2 = 1)%nat).
  { rewrite Hk, Nat.add_comm, Nat.mul_comm, Nat.Div0.mod_add. reflexivity. }
  rewrite Hmod. simpl Nat.eqb. cbv iota.
  apply index_nat. rewrite sorted_length.
  pose proof (Nat.div_mod_eq (length values) 2). lia.
Qed.

Lemma median_defined values :
  values <> [] -> exists m, _calculate_median sorted values = Some m.
Proof.
  intros Hne. destruct (Nat.Even_or_Odd (length values)) as [He|Ho].
  - rewrite (median_even _ Hne He). eauto.
  - rewrite (median_odd _ Ho). eauto.
Qed.

(** C3: a series of at least two values is cut by position into its first
    floor(n/2) values and the rest, and the trend is "improving" when the
    mean of the rest is below 0.9 times the mean of the first part,
    otherwise "increasing" when it is above 1.1 times that mean, and
    "stable" otherwise; the three series of the specification give
    "increasing", "improving" and "stable". *)
Theorem trend_compares_half_means (mins : list float) :
  (2 <= length mins)%nat ->
  let first_half := firstn (length mins / 2) mins in
  let second_half := skipn (length mins / 2) mins in
  length first_half = (length mins / 2)%nat
  /\ first_half ++ second_half = mins
  /\ (PrimFloat.ltb (mean second_half) (PrimFloat.mul (mean first_half) 0.9%float) = true ->
      _calculate_trend mins = "improving")
  /\ (PrimFloat.ltb (mean second_half) (PrimFloat.mul (mean first_half) 0.9%float) = false ->
      PrimFloat.ltb (PrimFloat.mul (mean first_half) 1.1%float) (mean second_half) = true ->
      _calculate_trend mins = "increasing")
  /\ (PrimFloat.ltb (mean second_half) (PrimFloat.mul (mean first_half) 0.9%float) = false ->
      PrimFloat.ltb (PrimFloat.mul (mean first_half) 1.1%float) (mean second_half) = false ->
      _calculate_trend mins = "stable")
  /\ _calculate_trend [10; 10; 10; 50; 50; 50]%float = "increasing"
  /\ _calculate_trend [50; 50; 50; 10; 10; 10]%float = "improving"
  /\ _calculate_trend [30; 30; 30; 30; 30; 30]%float = "stable".
Proof.
  intros Hlen first_half second_half.
  destruct (half_bounds _ Hlen) as [Hlo Hhi].
  assert (Hfirst : length first_half = (length mins / 2)%nat).
  { subst first_half. rewrite length_firstn. lia. }
  assert (Hsecond : length second_half = (length mins - length mins / 2)%nat).
  { subst second_half. now rewrite length_skipn. }
  assert (Htrend : _calculate_trend mins =
    if PrimFloat.ltb (mean second_half) (PrimFloat.mul (mean first_half) 0.9%float)
    then "improving"
    else if PrimFloat.ltb (PrimFloat.mul (mean first_half) 1.1%float) (mean second_half)
         then "increasing" else "stable").
  { unfold _calculate_trend, mean. rewrite Hfirst, Hsecond.
    destruct (Nat.ltb_spec (length mins) 2); [lia|].
    destruct (Nat.ltb_spec 0 (length mins / 2)); [|lia].
    destruct (Nat.ltb_spec (length mins / 2) (length mins)); [|lia].
    reflexivity. }
  split; [exact Hfirst|]. split; [apply firstn_skipn|].
  split; [intros H; now rewrite Htrend, H|].
  split; [intros H1 H2; now rewrite Htrend, H1, H2|].
  split; [intros H1 H2; now rewrite Htrend, H1, H2|].
  repeat split; reflexivity.
Qed.

Lemma trend_compares_half_means_witness :
  length (firstn (length [10; 20; 30; 40; 50]%float / 2) [10; 20; 30; 40; 50]%float) = 2%nat
  /\ _calculate_trend [10; 20; 30; 40; 50]%float = "increasing".
Proof.
  destruct (trend_compares_half_means [10; 20; 30; 40; 50]%float) as (Hl & _ & _ & Hinc & _);
    [simpl; lia|].
  split; [exact Hl|]. apply Hinc; reflexivity.
Defined.

(** C8 (as amended): the statistics of a non-empty series exist; their
    trend is "improving", "increasing" or "stable" when the series has at
    least two entries, and "neutral" when it has one. *)
Theorem stats_trend_labels (data : list entry) :
  data <> [] ->
  exists st, calculate_stats sorted data = Some st
    /\ ((2 <= length data)%nat ->
        trend st = "improving" \/ trend st = "increasing" \/ trend st = "stable")
    /\ (length data = 1%nat -> trend st = "neutral").
Proof.
  intros Hne. unfold calculate_stats.
  destruct data as [|e data]; [congruence|]. simpl map.
  destruct (median_defined (minutes e :: map minutes data)) as [m Hm]; [discriminate|].
  rewrite Hm. eexists. split; [reflexivity|]. simpl trend.
  split.
  - intros Hlen. unfold _calculate_trend.
    assert (H : (length (minutes e :: map minutes data) <? 2)%nat = false).
    { apply Nat.ltb_ge. simpl in *. rewrite length_map. lia. }
    rewrite H.
    repeat match goal with |- context [if ?b then _ else _] => destruct b end; auto.
  - intros Hlen. destruct data; [reflexivity|discriminate].
Qed.

End SeriesStatistics.

Lemma stats_trend_labels_witness :
  exists st,
    calculate_stats Instances.by_insertion [mkEntry "2025-01-15" 45%float; mkEntry "2025-01-16" 30%float] = Some st
    /\ ((2 <= 2)%nat ->
        trend st = "improving" \/ trend st = "increasing" \/ trend st = "stable")
    /\ (2%nat = 1%nat -> trend st = "neutral").
Proof.
  apply (stats_trend_labels Instances.by_insertion [mkEntry "2025-01-15" 45%float; mkEntry "2025-01-16" 30%float]).
  discriminate.
Defined.

(** C8, the claim as stated fails: the trend of a series of one entry is
    "neutral", none of the three labels. *)
Lemma single_entry_trend_is_neutral :
  [mkEntry "2025-01-15" 45%float] <> []
  /\ option_map trend (calculate_stats Instances.by_insertion [mkEntry "2025-01-15" 45%float]) = Some "neutral"
  /\ "neutral" <> "improving" /\ "neutral" <> "increasing" /\ "neutral" <> "stable".
Proof. repeat split; try discriminate; vm_compute; reflexivity. Qed.


(** ** Reading the daily CSV *)

Section CsvReading.

Variable float_of_str : string -> option float.

Lemma read_row_first raw : fst (read_row float_of_str 1 raw) = None.
Proof.
  unfold read_row. destruct (truthy (strip raw)); reflexivity.
Qed.

Lemma read_rows_cons n raw rest :
  read_rows float_of_str n (raw :: rest)
  = (match fst (read_row float_of_str n raw) with
     | Some e => e :: fst (read_rows float_of_str (S n) rest)
     | None => fst (read_rows float_of_str (S n) rest)
     end,
     snd (read_row float_of_str n raw) ++ snd (read_rows float_of_str (S n) rest)).
Proof.
  simpl. destruct (read_row float_of_str n raw) as [e out].
  destruct (read_rows float_of_str (S n) rest) as [es outs]. reflexivity.
Qed.

Lemma read_row_keyword n raw keyword :
  In keyword header_keywords ->
  contains keyword (lower (strip raw)) = true ->
  fst (read_row float_of_str n raw) = None.
Proof.
  intros Hin Hc. unfold read_row.
  destruct (truthy (strip raw)); [|reflexivity]. simpl negb. cbv iota.
  assert (H : existsb (fun k => contains k (lower (strip raw))) header_keywords = true)
    by (apply existsb_exists; eauto).
  rewrite H, orb_true_r. reflexivity.
Qed.

Lemma read_row_invalid n raw :
  (2 <= n)%nat -> truthy (strip raw) = true ->
  existsb (fun k => contains k (lower (strip raw))) header_keywords = false ->
  (2 <= length (split "," (strip raw)))%nat ->
  float_of_str (strip (nth 1 (split "," (strip raw)) EmptyString)) = None ->
  read_row float_of_str n raw = (None, [SkippingInvalid n (strip raw)]).
Proof.
  intros Hn Ht Hk Hl Hf. unfold read_row. rewrite Ht, Hk, Hf.
  destruct (Nat.eqb_spec n 1); [lia|].
  destruct (Nat.leb_spec 2 (length (split "," (strip raw)))); [reflexivity|lia].
Qed.

(** C6: the first line of the file gives no entry whatever it holds; a
    later line that holds one of the keywords, in any case, gives none; the
    row ["2025-01-15,45"] gives the entry of that date with 45.0 minutes; a
    row with at least two fields whose second is no float, as
    ["bad,row,x"], gives no entry and a warning, and the rows after it are
    still read. *)
Theorem csv_rows :
  float_of_str "45" = Some 45%float ->
  float_of_str "row" = None ->
  (forall first rest,
      fst (read_rows float_of_str 1 (first :: rest))
      = fst (read_rows float_of_str 2 rest))
  /\ (forall n raw keyword,
         In keyword header_keywords ->
         contains keyword (lower (strip raw)) = true ->
         fst (read_row float_of_str n raw) = None)
  /\ (forall n, (2 <= n)%nat ->
         read_row float_of_str n "2025-01-15,45"
         = (Some (mkEntry "2025-01-15" 45%float), []))
  /\ (forall n rest, (2 <= n)%nat ->
         read_rows float_of_str n ("bad,row,x" :: rest)
         = (fst (read_rows float_of_str (S n) rest),
            SkippingInvalid n "bad,row,x" :: snd (read_rows float_of_str (S n) rest)))
  /\ (forall n raw rest,
         (2 <= n)%nat -> truthy (strip raw) = true ->
         existsb (fun k => contains k (lower (strip raw))) header_keywords = false ->
         (2 <= length (split "," (strip raw)))%nat ->
         float_of_str (strip (nth 1 (split "," (strip raw)) EmptyString)) = None ->
         read_rows float_of_str n (raw :: rest)
         = (fst (read_rows float_of_str (S n) rest),
            SkippingInvalid n (strip raw) :: snd (read_rows float_of_str (S n) rest)))
  /\ read_daily_data float_of_str DAILY_DATA_FILE {[DAILY_DATA_FILE := Instances.sample_csv]}
     = ([mkEntry "2025-01-15" 45%float],
        [SkippingHeader "Date,Minutes"; SkippingInvalid 3 "bad,row,x";
         ReadEntries 1 DAILY_DATA_FILE]).
Proof.
  intros H45 Hrow.
  assert (Hgood : forall n, (2 <= n)%nat ->
            read_row float_of_str n "2025-01-15,45"
            = (Some (mkEntry "2025-01-15" 45%float), [])).
  { intros n Hn. unfold read_row.
    destruct (Nat.eqb_spec n 1); [lia|].
    change (strip "2025-01-15,45") with "2025-01-15,45".
    change (truthy "2025-01-15,45") with true.
    change (existsb (fun k => contains k (lower "2025-01-15,45")) header_keywords)
      with false.
    change (split "," "2025-01-15,45") with ["2025-01-15"; "45"].
    simpl. change (strip "45") with "45". rewrite H45. reflexivity. }
  assert (Hbad : forall n, (2 <= n)%nat ->
            read_row float_of_str n "bad,row,x"
            = (None, [SkippingInvalid n "bad,row,x"])).
  { intros n Hn.
    apply (read_row_invalid n "bad,row,x"); try reflexivity; [lia|simpl; lia|exact Hrow]. }
  split; [|split; [|split; [|split; [|split]]]].
  - intros first rest. rewrite read_rows_cons, read_row_first. reflexivity.
  - apply read_row_keyword.
  - exact Hgood.
  - intros n rest Hn. rewrite read_rows_cons, (Hbad n Hn). reflexivity.
  - intros n raw rest Hn Ht Hk Hl Hf.
    rewrite read_rows_cons, (read_row_invalid n raw Hn Ht Hk Hl Hf). reflexivity.
  - unfold read_daily_data. rewrite lookup_singleton_eq.
    change (readlines Instances.sample_csv)
      with ["Date,Minutes" +:+ nl; "2025-01-15,45" +:+ nl; "bad,row,x" +:+ nl].
    rewrite !read_rows_cons.
    change (read_row float_of_str 1 ("Date,Minutes" +:+ nl))
      with (@None entry, [SkippingHeader "Date,Minutes"]).
    assert (H2 : read_row float_of_str 2 ("2025-01-15,45" +:+ nl)
                 = (Some (mkEntry "2025-01-15" 45%float), [])).
    { rewrite <- (Hgood 2%nat) by lia. reflexivity. }
    assert (H3 : read_row float_of_str 3 ("bad,row,x" +:+ nl)
                 = (None, [SkippingInvalid 3 "bad,row,x"])).
    { rewrite <- (Hbad 3%nat) by lia. reflexivity. }
    rewrite H2, H3. reflexivity.
Qed.

End CsvReading.

Lemma csv_rows_witness :
  read_daily_data Instances.float_of_decimal DAILY_DATA_FILE
    {[DAILY_DATA_FILE := Instances.sample_csv]}
  = ([mkEntry "2025-01-15" 45%float],
     [SkippingHeader "Date,Minutes"; SkippingInvalid 3 "bad,row,x";
      ReadEntries 1 DAILY_DATA_FILE]).
Proof.
  apply (csv_rows Instances.float_of_decimal); reflexivity.
Defined.

(** ** Pattern analysis and the weekly window *)

Section AnalysisFacts.

Variable strptime : string -> option datetime.

Lemma zsum_from l a : fold_left Z.add l a = (a + zsum l)%Z.
Proof.
  unfold zsum. revert a. induction l as [|x l IH]; intros a; simpl; [lia|].
  rewrite (IH (a + x)%Z), (IH (0 + x)%Z). lia.
Qed.

Lemma tally_sum ths acc :
  intensity_sum (fold_left (tally_step strptime) ths acc)
  = (intensity_sum acc + zsum (map intensity (parsed_thoughts strptime ths)))%Z.
Proof.
  revert acc. induction ths as [|t ths IH]; intros acc; simpl.
  - unfold zsum. simpl. lia.
  - rewrite IH. unfold tally_step.
    destruct (strptime (timestamp t)) as [dt|]; simpl.
    + unfold zsum at 2. simpl. rewrite zsum_from. lia.
    + reflexivity.
Qed.

Lemma truediv_none a b :
  b <> 0%Z -> (truediv a b = None <-> overflows a b = true).
Proof.
  intros Hb. unfold truediv. destruct (Z.eqb_spec b 0); [contradiction|].
  destruct (overflows a b); split; congruence.
Qed.

Lemma analyze_patterns_nonempty self :
  thoughts self <> [] ->
  analyze_patterns strptime self
  = if bool_decide (hour_counts (fold_left (tally_step strptime) (thoughts self) tally0) = ∅)
    then CouldNotAnalyze
    else match truediv
                 (intensity_sum (fold_left (tally_step strptime) (thoughts self) tally0))
                 (Z.of_nat (length (thoughts self))) with
         | Some avg =>
             Insights
               (mkInsights (length (thoughts self))
                  (fold_left (tally_step strptime) (thoughts self) tally0) avg)
         | None => AnalysisRaises
         end.
Proof.
  unfold analyze_patterns. destruct (thoughts self); [congruence|reflexivity].
Qed.

(** What the insights hold: the total is the number of all entries, the
    tallies are those of the loop, and the average is the sum of the
    intensities of the entries whose timestamp parses over the count of
    all entries. *)
Lemma insights_figures self i :
  analyze_patterns strptime self = Insights i ->
  total_episodes i = length (thoughts self)
  /\ tallies i = fold_left (tally_step strptime) (thoughts self) tally0
  /\ truediv (zsum (map intensity (parsed_thoughts strptime (thoughts self))))
             (Z.of_nat (length (thoughts self)))
     = Some (avg_intensity i).
Proof.
  destruct (thoughts self) as [|t ths] eqn:E.
  - unfold analyze_patterns. rewrite E. discriminate.
  - rewrite analyze_patterns_nonempty by (rewrite E; discriminate). rewrite E.
    destruct (bool_decide _); [discriminate|].
    destruct (truediv _ _) as [avg|] eqn:Hq; [|discriminate].
    intros [= <-]. simpl. split; [reflexivity|]. split; [reflexivity|].
    rewrite tally_sum in Hq. exact Hq.
Qed.

(** The average [analyze_patterns] reports: the intensities of the entries
    whose timestamp parses, summed, over the count of all entries. *)
Lemma analyze_patterns_average self i :
  analyze_patterns strptime self = Insights i ->
  truediv (zsum (map intensity (parsed_thoughts strptime (thoughts self))))
          (Z.of_nat (length (thoughts self)))
  = Some (avg_intensity i).
Proof. intros H. now apply insights_figures in H. Qed.

(** C7, the program at a log with one entry that parses, of intensity 8,
    and one that does not, of intensity 2: the mean over the entries that
    parse is 8, and the average reported is 8 / 2 = 4. *)
Theorem average_counts_unparsed_entries (dt : datetime) :
  strptime "2025-01-15 10:00:00" = Some dt ->
  strptime "not a date" = None ->
  parsed_thoughts strptime Instances.mixed_log
  = [mkThought "2025-01-15 10:00:00" "Work" 8 EmptyString]
  /\ mean_intensity (parsed_thoughts strptime Instances.mixed_log) = Some 8%float
  /\ exists i, analyze_patterns strptime (mkTracker Instances.mixed_log false) = Insights i
               /\ total_episodes i = 2%nat
               /\ avg_intensity i = 4%float.
Proof.
  intros Hgood Hbad.
  assert (Hp : parsed_thoughts strptime Instances.mixed_log
               = [mkThought "2025-01-15 10:00:00" "Work" 8 EmptyString]).
  { unfold parsed_thoughts, Instances.mixed_log. simpl. rewrite Hgood, Hbad. reflexivity. }
  split; [exact Hp|]. split; [rewrite Hp; vm_compute; reflexivity|].
  assert (Hacc : fold_left (tally_step strptime) Instances.mixed_log tally0
                 = mkTally (bump (hour dt) ∅) (bump (get_time_period (hour dt)) ∅)
                     (bump "Work" ∅) 8%Z).
  { unfold Instances.mixed_log. simpl fold_left. unfold tally_step. simpl timestamp.
    rewrite Hgood, Hbad. reflexivity. }
  assert (Hq : truediv 8 (Z.of_nat (length Instances.mixed_log)) = Some 4%float)
    by (vm_compute; reflexivity).
  rewrite analyze_patterns_nonempty by discriminate.
  simpl thoughts. rewrite Hacc. cbv beta iota delta [hour_counts intensity_sum].
  rewrite bool_decide_eq_false_2 by apply insert_non_empty.
  rewrite Hq.
  eexists. split; [reflexivity|]. split; reflexivity.
Qed.

Lemma in_week_spec now t :
  in_week strptime now t = true
  <-> exists dt, strptime (timestamp t) = Some dt /\ (now - timedelta_days 7 <= dt)%Z.
Proof.
  unfold in_week. destruct (strptime (timestamp t)) as [dt|].
  - rewrite Z.leb_le. split; [eauto|]. now intros (? & [= <-] & ?).
  - split; [discriminate|]. now intros (? & [=] & _).
Qed.

Lemma weekly_thoughts_drop now before t after :
  in_week strptime now t = false ->
  weekly_thoughts strptime now (before ++ t :: after)
  = weekly_thoughts strptime now (before ++ after).
Proof.
  intros H. unfold weekly_thoughts.
  rewrite !List.filter_app. simpl. now rewrite H.
Qed.

End AnalysisFacts.

Lemma average_counts_unparsed_entries_witness :
  exists i, analyze_patterns Instances.strptime_canonical
              (mkTracker Instances.mixed_log false) = Insights i
            /\ total_episodes i = 2%nat
            /\ avg_intensity i = 4%float.
Proof.
  apply (average_counts_unparsed_entries Instances.strptime_canonical 63872532000000000%Z);
    reflexivity.
Defined.

(** ** Dry runs and the files written *)

Section DryRun.

Lemma init_thoughts dry d :
  thoughts (fst (init dry d)) = thoughts (fst (load_thoughts (mkTracker [] dry) d)).
Proof.
  unfold init. now destruct (load_thoughts (mkTracker [] dry) d).
Qed.

Lemma load_thoughts_flag dry d :
  thoughts (fst (load_thoughts (mkTracker [] dry) d))
  = match d !! THOUGHTS_FILE with
    | Some text => fst (load_lines (readlines text) [])
    | None => []
    end.
Proof.
  unfold load_thoughts. destruct (d !! THOUGHTS_FILE) as [text|]; [|reflexivity].
  simpl thoughts. now destruct (load_lines (readlines text) []).
Qed.

(** C9 (as amended): in a dry run [save_thoughts] leaves every file as it
    is and prints its notice, so a logged entry reaches the list in memory
    and not the file; the log is loaded as without the flag; and
    [export_report], which consults no flag, writes the report file, and
    only that file, in a dry run as in any other. *)
Theorem dry_run_gates_the_log (self : tracker) (d : gmap string string) :
  dry_run self = true ->
  save_thoughts self d = (d, [WouldSave])
  /\ (forall t, log_entry self t d
                = (mkTracker (thoughts self ++ [t]) true, d, [WouldSave]))
  /\ thoughts (fst (init true d)) = thoughts (fst (init false d))
  /\ (forall fmt st data generated,
         Persistence.run fmt self (Persistence.ExportReport (Some st) data generated) d
         = <[REPORT_FILE := report_text fmt generated st data]> d
         /\ Persistence.run fmt self (Persistence.ExportReport (Some st) data generated) d
            !! REPORT_FILE = Some (report_text fmt generated st data)
         /\ Persistence.run fmt self (Persistence.ExportReport (Some st) data generated) d
            !! THOUGHTS_FILE = d !! THOUGHTS_FILE).
Proof.
  intros Hdry. split; [|split; [|split]].
  - unfold save_thoughts. now rewrite Hdry.
  - intros t. unfold log_entry, save_thoughts. simpl dry_run. now rewrite Hdry.
  - now rewrite !init_thoughts, !load_thoughts_flag.
  - intros fmt st data generated. simpl. split; [reflexivity|]. split.
    + apply lookup_insert_eq.
    + now apply lookup_insert_ne.
Qed.

End DryRun.

Lemma dry_run_gates_the_log_witness :
  save_thoughts (mkTracker Instances.mixed_log true) {[THOUGHTS_FILE := "old"]}
  = ({[THOUGHTS_FILE := "old"]}, [WouldSave])
  /\ Persistence.run Instances.format_fixed (mkTracker Instances.mixed_log true)
       (Persistence.ExportReport
          (Some (mkStats 1 45 45 45 45 0.75 "neutral"))
          [mkEntry "2025-01-15" 45%float] "2025-01-20 08:00:00")
       {[THOUGHTS_FILE := "old"]}
     !! REPORT_FILE
     = Some (report_text Instances.format_fixed "2025-01-20 08:00:00"
               (mkStats 1 45 45 45 45 0.75 "neutral") [mkEntry "2025-01-15" 45%float]).
Proof.
  destruct (dry_run_gates_the_log (mkTracker Instances.mixed_log true)
              {[THOUGHTS_FILE := "old"]}) as (Hsave & _ & _ & Hexport);
    [reflexivity|].
  split; [exact Hsave|].
  apply (Hexport Instances.format_fixed (mkStats 1 45 45 45 45 0.75 "neutral")
           [mkEntry "2025-01-15" 45%float] "2025-01-20 08:00:00").
Defined.

(** C9, the program in a dry run: started with [--dry-run] on a daily file
    and no report, a session that analyses the daily data (choice 4),
    exports the report (choice 5) and exits (choice 7) ends with the flag
    set and with a report file written. *)
Lemma export_report_writes_in_dry_run :
  exists s,
    Interaction.main Instances.by_insertion Instances.float_of_decimal Instances.format_fixed
      (fun k => "category " +:+ k) (fun _ => "2025-01-20 08:00:00")
      ["app.py"; "--dry-run"] ["4"; "5"; "7"]
      {[DAILY_DATA_FILE := Instances.sample_csv]}
    = Interaction.Exits s
    /\ dry_run (Interaction.tracker_of s) = true
    /\ ({[DAILY_DATA_FILE := Instances.sample_csv]} : gmap string string) !! REPORT_FILE
       = None
    /\ is_Some (Interaction.files s !! REPORT_FILE).
Proof.
  eexists. split; [vm_compute; reflexivity|].
  split; [reflexivity|]. split; [reflexivity|]. vm_compute. eauto.
Qed.

(** ** The log file as a whole *)

Section LogFile.
Import Shapes.

Lemma append_snoc cur c r : (cur +:+ String c EmptyString) +:+ r = cur +:+ String c r.
Proof. induction cur as [|x cur IH]; simpl; [reflexivity|now rewrite IH]. Qed.

Lemma sapp_assoc a b c : (a +:+ b) +:+ c = a +:+ (b +:+ c).
Proof. induction a as [|x a IH]; simpl; [reflexivity|now rewrite IH]. Qed.

Lemma sapp_nil_r a : a +:+ EmptyString = a.
Proof. induction a as [|x a IH]; simpl; [reflexivity|now rewrite IH]. Qed.

(** Reading up to the first line end. *)
Lemma readlines_from_body body cur rest :
  one_line body ->
  readlines_from cur (body +:+ String LF rest)
  = (cur +:+ body +:+ String LF EmptyString) :: readlines_from EmptyString rest.
Proof.
  intros [Hlf Hcr]. revert cur. induction body as [|c body IH]; intros cur; simpl.
  - reflexivity.
  - simpl in Hlf, Hcr.
    apply orb_false_elim in Hlf as [Hc1 Hlf]. apply orb_false_elim in Hcr as [Hc2 Hcr].
    rewrite Hc1, Hc2, (IH Hlf Hcr). now rewrite append_snoc.
Qed.

Lemma decimal_one_line s : all_chars isdecimal_char s = true -> one_line s.
Proof.
  induction s as [|c s IH]; [now split|].
  intros H. apply andb_prop in H as [Hc Hs]. destruct (IH Hs) as [H1 H2].
  assert (Hne : Ascii.eqb c LF = false /\ Ascii.eqb c CR = false).
  { revert Hc. destruct c as [[] [] [] [] [] [] [] []]; vm_compute; intuition congruence. }
  destruct Hne as [Ha Hb]. split; simpl; [now rewrite Ha, H1|now rewrite Hb, H2].
Qed.

Lemma one_line_app a b : one_line a -> one_line b -> one_line (a +:+ b).
Proof.
  intros [H1 H2] [H3 H4]. split; rewrite has_char_app; [now rewrite H1, H3|now rewrite H2, H4].
Qed.

Lemma one_line_bar s : one_line s -> one_line (String "|" s).
Proof. intros [H1 H2]. split; simpl; assumption. Qed.

Lemma log_line_body t :
  writable t ->
  exists body, one_line body /\ forall rest, log_line t +:+ rest = body +:+ String LF rest.
Proof.
  intros [Hst _ Hts Hcat Hnote].
  destruct (str_of_int_decimal _ (intensity_nonneg _ Hst)) as (Hdec & _ & _).
  exists (timestamp t +:+ String "|" (category t +:+ String "|"
            (str_of_int (intensity t) +:+ String "|" (note t)))).
  split.
  - repeat (apply one_line_app || apply one_line_bar); auto using decimal_one_line.
  - intros rest. unfold log_line.
    repeat first [rewrite sapp_assoc | progress simpl]. reflexivity.
Qed.

Lemma readlines_log_text ths :
  Forall writable ths -> readlines (log_text ths) = map log_line ths.
Proof.
  unfold readlines. induction 1 as [|t ths Ht _ IH]; [reflexivity|].
  simpl. destruct (log_line_body _ Ht) as (body & Hbody & Heq).
  rewrite Heq, (readlines_from_body _ _ _ Hbody), IH. simpl.
  f_equal. rewrite <- (Heq EmptyString). apply sapp_nil_r.
Qed.

Lemma parse_written_line t : writable t -> parse_line (log_line t) = Entry t.
Proof.
  intros [Hst Hnote _ _ _]. rewrite (parse_log_line _ Hst).
  rewrite (split_plain _ _ Hnote). simpl hd.
  rewrite (note_stripped _ Hst). now destruct t.
Qed.

Lemma load_written_lines ths acc :
  Forall writable ths -> load_lines (map log_line ths) acc = (acc ++ ths, true).
Proof.
  intros H. revert acc. induction H as [|t ths Ht _ IH]; intros acc; simpl.
  - now rewrite app_nil_r.
  - rewrite (parse_written_line _ Ht), IH. now rewrite <- app_assoc.
Qed.

(** C1: an entry the tracker holds, of the stored shape and with no line
    break in its text, whose note holds no delimiter, is read back
    unchanged from the line written for it: the text written is one line
    of a file, the loop of [load_thoughts] reads the entry from that line,
    and a tracker that starts on a log of that line holds the entry and
    nothing else. *)
Theorem log_line_round_trip (t : thought) :
  storable t ->
  one_line (timestamp t) -> one_line (category t) -> one_line (note t) ->
  has_char "|" (note t) = false ->
  readlines (log_line t) = [log_line t]
  /\ parse_line (log_line t) = Entry t
  /\ forall dry d,
       init dry (<[THOUGHTS_FILE := log_line t]> d)
       = (mkTracker [t] dry, Loaded 1 :: (if dry then [DryRunMode] else [])).
Proof.
  intros Hst Hts Hcat Hline Hnote.
  assert (Hw : writable t) by now constructor.
  assert (Hall : Forall writable [t]) by (constructor; [exact Hw|constructor]).
  assert (Htext : log_text [t] = log_line t) by (simpl; apply sapp_nil_r).
  pose proof (readlines_log_text _ Hall) as Hr. rewrite Htext in Hr.
  split; [exact Hr|]. split; [now apply parse_written_line|].
  intros dry d. unfold init, load_thoughts. simpl.
  rewrite lookup_insert_eq, Hr.
  change [log_line t] with (map log_line [t]).
  rewrite (load_written_lines _ _ Hall). reflexivity.
Qed.

Lemma log_line_round_trip_witness :
  let t := mkThought "2025-01-15 10:00:00" "Other" 5 "late again" in
  readlines (log_line t) = [log_line t] /\ parse_line (log_line t) = Entry t.
Proof.
  intros t.
  destruct (log_line_round_trip (mkThought "2025-01-15 10:00:00" "Other" 5 "late again"))
    as (H1 & H2 & _);
    [constructor; simpl; solve [reflexivity | lia | vm_compute; lia]
    |split; reflexivity|split; reflexivity|split; reflexivity|reflexivity|].
  split; [exact H1|exact H2].
Defined.

(** X1: what is saved is what is loaded.  A tracker that does not run dry
    and holds writable entries saves a file from which a new tracker loads
    the same entries, in the same order, and reports their number. *)
Theorem save_then_load (ths : list thought) (dry : bool) (d : gmap string string) :
  Forall writable ths ->
  init dry (fst (save_thoughts (mkTracker ths false) d))
  = (mkTracker ths dry, Loaded (length ths) :: (if dry then [DryRunMode] else [])).
Proof.
  intros H. unfold init, load_thoughts, save_thoughts. simpl.
  rewrite lookup_insert_eq, (readlines_log_text _ H), (load_written_lines _ _ H).
  reflexivity.
Qed.

Lemma save_then_load_witness :
  init false
    (fst (save_thoughts
            (mkTracker [mkThought "2025-01-15 10:00:00" "Work" 8 "late";
                        mkThought "2025-01-16 09:30:00" "Other" 3 EmptyString] false) ∅))
  = (mkTracker [mkThought "2025-01-15 10:00:00" "Work" 8 "late";
                mkThought "2025-01-16 09:30:00" "Other" 3 EmptyString] false,
     [Loaded 2]).
Proof.
  apply (save_then_load
           [mkThought "2025-01-15 10:00:00" "Work" 8 "late";
            mkThought "2025-01-16 09:30:00" "Other" 3 EmptyString] false ∅).
  repeat constructor; simpl; lia.
Defined.

End LogFile.

(** ** Entries read from a file *)

Section LoadedEntries.
Import Shapes.

Lemma one_line_snoc cur c :
  one_line cur -> Ascii.eqb c LF = false -> Ascii.eqb c CR = false ->
  one_line (cur +:+ String c EmptyString).
Proof.
  intros Hcur H1 H2. apply one_line_app; [exact Hcur|].
  split; simpl; [now rewrite H1|now rewrite H2].
Qed.

(** Every line a file yields is a text without line break, followed or not
    by one line end. *)
Lemma readlines_from_lines n s cur :
  (String.length s <= n)%nat -> one_line cur ->
  Forall (fun l => exists body, one_line body
                    /\ (l = body \/ l = body +:+ String LF EmptyString))
         (readlines_from cur s).
Proof.
  revert s cur. induction n as [|n IH]; intros s cur Hn Hcur.
  - destruct s; [|simpl in Hn; lia]. simpl.
    destruct (truthy cur); repeat constructor. exists cur. auto.
  - destruct s as [|c s]; simpl.
    + destruct (truthy cur); repeat constructor. exists cur. auto.
    + simpl in Hn. destruct (Ascii.eqb c LF) eqn:E1.
      * constructor; [exists cur; auto|]. apply IH; [lia|now split].
      * destruct (Ascii.eqb c CR) eqn:E2.
        -- destruct s as [|c' s'].
           ++ repeat constructor. exists cur. auto.
           ++ destruct (Ascii.eqb c' LF); (constructor; [exists cur; auto|]);
                apply IH; simpl in *; try lia; now split.
        -- apply IH; [lia|]. now apply one_line_snoc.
Qed.

Lemma strip_line_end body : strip (body +:+ String LF EmptyString) = strip body.
Proof.
  unfold strip. induction body as [|x body IH]; [reflexivity|]. simpl.
  destruct (isspace x) eqn:E; [exact IH|].
  change (String x (body +:+ String LF EmptyString))
    with (String x body +:+ String LF EmptyString).
  rewrite rstrip_app. reflexivity.
Qed.

Lemma has_char_split c sep s :
  has_char c s = false -> Forall (fun p => has_char c p = false) (split sep s).
Proof.
  induction s as [|x s IH]; simpl; [now repeat constructor|].
  intros H. apply orb_false_elim in H as [Hx Hs]. specialize (IH Hs).
  destruct (Ascii.eqb x sep).
  - now constructor.
  - destruct (split sep s) as [|p ps]; inversion IH; subst;
      constructor; simpl; try rewrite Hx; auto.
Qed.

Lemma one_line_field s i :
  one_line s -> one_line (strip (nth i (split "|" s) EmptyString)).
Proof.
  intros [H1 H2].
  assert (H : forall c, has_char c s = false ->
                        has_char c (strip (nth i (split "|" s) EmptyString)) = false).
  { intros c Hc. apply has_char_strip.
    destruct (nth_in_or_default i (split "|" s) EmptyString) as [Hin| ->]; [|reflexivity].
    pose proof (has_char_split c "|" s Hc) as HF. rewrite Forall_forall in HF.
    now apply HF, list_elem_of_In. }
  split; auto.
Qed.

Lemma one_line_strip_line l :
  (exists body, one_line body /\ (l = body \/ l = body +:+ String LF EmptyString)) ->
  one_line (strip l).
Proof.
  intros (body & [H1 H2] & [->| ->]); rewrite ?strip_line_end;
    split; now apply has_char_strip.
Qed.

Lemma parse_line_writable l t :
  (exists body, one_line body /\ (l = body \/ l = body +:+ String LF EmptyString)) ->
  parse_line l = Entry t -> writable t.
Proof.
  intros Hl Hp. destruct (parse_line_storable _ _ Hp) as [Hst Hnote].
  pose proof (one_line_strip_line _ Hl) as Hline.
  revert Hp. unfold parse_line.
  destruct (truthy (strip l) && has_char "|" (strip l)); [|discriminate].
  destruct (4 <=? length (split "|" (strip l)))%nat eqn:Hlen; [|discriminate].
  apply Nat.leb_le in Hlen.
  unfold thought_of_parts.
  destruct (Nat.ltb_spec 3 (length (split "|" (strip l)))); [|lia].
  destruct (isdigit _); [destruct (int_of_digits _)|]; intros [= <-];
    constructor; simpl; auto using one_line_field.
Qed.

Lemma load_lines_writable lines acc :
  Forall (fun l => exists body, one_line body
                     /\ (l = body \/ l = body +:+ String LF EmptyString)) lines ->
  Forall writable acc -> Forall writable (fst (load_lines lines acc)).
Proof.
  intros H. revert acc. induction H as [|l lines Hl _ IH]; intros acc Hacc; simpl; [exact Hacc|].
  destruct (parse_line l) as [|t|] eqn:E; [now apply IH| |exact Hacc].
  apply IH. apply Forall_app. split; [exact Hacc|].
  constructor; [|constructor]. eapply parse_line_writable; eauto.
Qed.

Lemma init_writable dry d : Forall writable (thoughts (fst (init dry d))).
Proof.
  rewrite init_thoughts, load_thoughts_flag.
  destruct (d !! THOUGHTS_FILE) as [text|]; [|constructor].
  apply load_lines_writable; [|constructor].
  apply (readlines_from_lines (String.length text)); [lia|now split].
Qed.

(** X2: a log that was loaded survives a save and a new load.  Whatever
    the file holds, the entries a tracker loads from it are writable, so
    saving them and loading the saved file gives the same entries again. *)
Theorem load_save_load (d : gmap string string) (dry dry' : bool) :
  Forall writable (thoughts (fst (init dry d)))
  /\ fst (init dry' (fst (save_thoughts
                            (mkTracker (thoughts (fst (init dry d))) false) d)))
     = mkTracker (thoughts (fst (init dry d))) dry'.
Proof.
  split; [apply init_writable|].
  unfold init at 1, load_thoughts at 1, save_thoughts. simpl.
  rewrite lookup_insert_eq.
  rewrite (readlines_log_text _ (init_writable dry d)),
          (load_written_lines _ _ (init_writable dry d)).
  reflexivity.
Qed.

End LoadedEntries.

(** ** Lines that are skipped and lines that stop the load *)

Section LoadLoop.

Lemma load_lines_app l1 l2 acc :
  load_lines (l1 ++ l2) acc
  = if snd (load_lines l1 acc) then load_lines l2 (fst (load_lines l1 acc))
    else (fst (load_lines l1 acc), false).
Proof.
  revert acc. induction l1 as [|l l1 IH]; intros acc; simpl; [reflexivity|].
  destruct (parse_line l); auto.
Qed.

Lemma parse_line_short line :
  (length (split "|" (strip line)) < 4)%nat -> parse_line line = NotAnEntry.
Proof.
  intros H. unfold parse_line.
  destruct (Nat.leb_spec 4 (length (split "|" (strip line)))); [lia|].
  now destruct (_ && _).
Qed.

(** X3: a line with fewer than four fields, a blank line included, is
    passed over: the load gives what it gives on the file without it. *)
Theorem short_line_skipped (before after : list string) (line : string)
    (acc : list thought) :
  (length (split "|" (strip line)) < 4)%nat ->
  load_lines (before ++ line :: after) acc = load_lines (before ++ after) acc.
Proof.
  intros H. rewrite !load_lines_app. simpl.
  now rewrite (parse_line_short _ H).
Qed.

Lemma short_line_skipped_witness :
  load_lines (["2025-01-15 10:00:00|Work|8|late"] ++ "just a remark" ::
              ["2025-01-16 09:30:00|Other|3|"]) []
  = load_lines (["2025-01-15 10:00:00|Work|8|late"] ++ ["2025-01-16 09:30:00|Other|3|"]) [].
Proof.
  apply (short_line_skipped ["2025-01-15 10:00:00|Work|8|late"]
           ["2025-01-16 09:30:00|Other|3|"] "just a remark" []).
  vm_compute. lia.
Defined.

Lemma uint_of_string_decimal s u :
  NilEmpty.uint_of_string s = Some u -> all_chars isdecimal_char s = true.
Proof.
  intros H. apply NilEmpty.sus in H. rewrite <- H. apply uint_string_decimal.
Qed.

Lemma int_of_digits_none s :
  truthy s = true ->
  (int_of_digits s = None
   <-> all_chars isdecimal_char s = false
       \/ (INT_MAX_STR_DIGITS < String.length s)%nat).
Proof.
  intros Ht. split.
  - intros Hn.
    destruct (all_chars isdecimal_char s) eqn:Hd; [|now left]. right.
    destruct (Nat.ltb_spec INT_MAX_STR_DIGITS (String.length s)) as [|Hle]; [assumption|].
    destruct (int_of_decimal_digits _ Ht Hd Hle) as (n & Hs & _). congruence.
  - intros [Hd|Hlong]; [|now apply int_of_long_digits].
    destruct (int_of_digits s) as [n|] eqn:Hn; [|reflexivity].
    apply int_of_digits_some in Hn as (_ & _ & u & Hu & _).
    rewrite (uint_of_string_decimal _ _ Hu) in Hd. discriminate.
Qed.

Lemma isdigit_truthy s : isdigit s = true -> truthy s = true.
Proof. now destruct s. Qed.

Lemma parse_line_raises line :
  parse_line line = Raises
  <-> (4 <= length (split "|" (strip line)))%nat
      /\ isdigit (strip (nth 2 (split "|" (strip line)) EmptyString)) = true
      /\ (all_chars isdecimal_char (strip (nth 2 (split "|" (strip line)) EmptyString))
          = false
          \/ (INT_MAX_STR_DIGITS
              < String.length (strip (nth 2 (split "|" (strip line)) EmptyString)))%nat).
Proof.
  split.
  - unfold parse_line.
    destruct (truthy (strip line) && has_char "|" (strip line)); [|discriminate].
    destruct (Nat.leb_spec 4 (length (split "|" (strip line)))); [|discriminate].
    unfold thought_of_parts.
    destruct (isdigit _) eqn:Hd; [|discriminate].
    destruct (int_of_digits _) eqn:Hi; [discriminate|]. intros _.
    split; [assumption|]. split; [reflexivity|].
    now apply int_of_digits_none; [apply isdigit_truthy|].
  - intros (Hlen & Hd & Hdec). destruct (four_parts_guard _ Hlen) as [Hg Hl].
    unfold parse_line. rewrite Hg, Hl. unfold thought_of_parts. rewrite Hd.
    apply int_of_digits_none in Hdec; [|now apply isdigit_truthy].
    now rewrite Hdec.
Qed.

(** X4: the load stops at a line of at least four fields whose intensity
    field passes [isdigit] and holds a digit that is not decimal: the
    entries of the lines before it are kept, every line after it is lost,
    and the tracker reports an error instead of the number loaded. *)
Theorem load_stops_at_undecimal_digit (before after : list string) (line : string) :
  (4 <= length (split "|" (strip line)))%nat ->
  isdigit (strip (nth 2 (split "|" (strip line)) EmptyString)) = true ->
  all_chars isdecimal_char (strip (nth 2 (split "|" (strip line)) EmptyString)) = false ->
  forall acc,
    load_lines (before ++ line :: after) acc = (fst (load_lines before acc), false)
    /\ forall (d : gmap string string) (text : string) (dry : bool),
         d !! THOUGHTS_FILE = Some text ->
         readlines text = before ++ line :: after ->
         load_thoughts (mkTracker [] dry) d
         = (mkTracker (fst (load_lines before [])) dry, [ErrorLoading]).
Proof.
  intros Hlen Hd Hdec.
  assert (Hr : parse_line line = Raises) by (apply parse_line_raises; auto).
  assert (Hstop : forall acc,
    load_lines (before ++ line :: after) acc = (fst (load_lines before acc), false)).
  { intros acc. rewrite load_lines_app. simpl. rewrite Hr.
    now destruct (load_lines before acc) as [a []]. }
  intros acc. split; [apply Hstop|].
  intros d text dry Hfile Hlines. unfold load_thoughts.
  rewrite Hfile, Hlines. simpl thoughts. now rewrite Hstop.
Qed.

Lemma load_stops_at_undecimal_digit_witness :
  load_lines (["2025-01-15 10:00:00|Work|8|late"]
              ++ ("2025-01-16 09:30:00|Work|" +:+ String (ascii_of_nat 178) "|x")
              :: ["2025-01-17 09:30:00|Other|3|"]) []
  = ([mkThought "2025-01-15 10:00:00" "Work" 8 "late"], false).
Proof.
  apply (load_stops_at_undecimal_digit ["2025-01-15 10:00:00|Work|8|late"]
           ["2025-01-17 09:30:00|Other|3|"]
           ("2025-01-16 09:30:00|Work|" +:+ String (ascii_of_nat 178) "|x"));
    [vm_compute; lia|reflexivity|reflexivity].
Defined.

(** X5: [save_thoughts] changes no file but the log; saving twice is
    saving once; and outside a dry run the log then holds the lines of the
    entries in memory, whatever it held before. *)
Theorem save_rewrites_the_log_only (self : tracker) (d : gmap string string) :
  (forall f, f <> THOUGHTS_FILE -> fst (save_thoughts self d) !! f = d !! f)
  /\ fst (save_thoughts self (fst (save_thoughts self d))) = fst (save_thoughts self d)
  /\ (dry_run self = false ->
      fst (save_thoughts self d) !! THOUGHTS_FILE = Some (log_text (thoughts self))
      /\ forall old, fst (save_thoughts self (<[THOUGHTS_FILE := old]> d))
                     = fst (save_thoughts self d)).
Proof.
  unfold save_thoughts. destruct (dry_run self); simpl.
  - repeat split; discriminate.
  - split; [intros f Hf; now apply lookup_insert_ne|].
    split; [apply insert_insert_eq|]. intros _.
    split; [apply lookup_insert_eq|]. intros old. apply insert_insert_eq.
Qed.

End LoadLoop.

(** ** Counters of the pattern analysis *)

Section Counters.
Import Counting.

Lemma count_of_bump `{Countable K} (k k' : K) (m : gmap K nat) :
  count_of (bump k m) k' = (count_of m k' + if bool_decide (k = k') then 1 else 0)%nat.
Proof.
  unfold count_of, bump. case_bool_decide as E.
  - subst k'. rewrite lookup_insert_eq. simpl. lia.
  - rewrite lookup_insert_ne by done. lia.
Qed.

Lemma total_bump `{Countable K} (k : K) (m : gmap K nat) :
  total (bump k m) = S (total m).
Proof.
  unfold total, bump.
  assert (Hcomm : forall (j1 j2 : K) (z1 z2 y : nat),
            (z1 + (z2 + y) = z2 + (z1 + y))%nat) by (intros; lia).
  destruct (m !! k) as [v|] eqn:E; simpl.
  - rewrite (map_fold_delete_L _ _ k v m) by (intros; auto).
    rewrite <- (insert_delete_eq m k (S v)).
    rewrite map_fold_insert_L; [lia|intros; auto|apply lookup_delete_eq].
  - rewrite map_fold_insert_L; [lia|intros; auto|exact E].
Qed.

Lemma total_empty `{Countable K} : total (∅ : gmap K nat) = 0%nat.
Proof. apply map_fold_empty. Qed.

Lemma count_of_empty `{Countable K} (k : K) : count_of (∅ : gmap K nat) k = 0%nat.
Proof. unfold count_of. now rewrite lookup_empty. Qed.

Lemma bump_nonempty `{Countable K} (k : K) (m : gmap K nat) : bump k m <> ∅.
Proof. apply insert_non_empty. Qed.

Variable strptime : string -> option datetime.

(** The three counters of the loop, each as a loop of its own. *)
Lemma tally_hours ths acc :
  hour_counts (fold_left (tally_step strptime) ths acc)
  = fold_left (fun m t => match entry_hour strptime t with
                          | Some h => bump h m
                          | None => m
                          end) ths (hour_counts acc).
Proof.
  revert acc. induction ths as [|t ths IH]; intros acc; simpl; [reflexivity|].
  rewrite IH. unfold tally_step, entry_hour.
  now destruct (strptime (timestamp t)).
Qed.

Lemma tally_periods ths acc :
  period_counts (fold_left (tally_step strptime) ths acc)
  = fold_left (fun m t => match option_map get_time_period (entry_hour strptime t) with
                          | Some p => bump p m
                          | None => m
                          end) ths (period_counts acc).
Proof.
  revert acc. induction ths as [|t ths IH]; intros acc; simpl; [reflexivity|].
  rewrite IH. unfold tally_step, entry_hour.
  now destruct (strptime (timestamp t)).
Qed.

Lemma tally_categories ths acc :
  category_counts (fold_left (tally_step strptime) ths acc)
  = fold_left (fun m t => match match entry_hour strptime t with
                                | Some _ => Some (category t)
                                | None => None
                                end with
                          | Some c => bump c m
                          | None => m
                          end) ths (category_counts acc).
Proof.
  revert acc. induction ths as [|t ths IH]; intros acc; simpl; [reflexivity|].
  rewrite IH. unfold tally_step, entry_hour.
  now destruct (strptime (timestamp t)).
Qed.

(** A loop that bumps the key of each item that has one counts, under each
    key, the items with that key. *)
Lemma count_of_fold {A} `{Countable K} (key : A -> option K) (l : list A)
    (m : gmap K nat) (k : K) :
  count_of (fold_left (fun m a => match key a with
                                  | Some x => bump x m
                                  | None => m
                                  end) l m) k
  = (count_of m k + how_many (fun a => bool_decide (key a = Some k)) l)%nat.
Proof.
  unfold how_many. revert m. induction l as [|a l IH]; intros m; simpl; [lia|].
  rewrite IH. destruct (key a) as [x|] eqn:E.
  - rewrite count_of_bump. repeat case_bool_decide; simplify_eq; simpl; lia.
  - case_bool_decide; [discriminate|]. lia.
Qed.

Lemma total_fold {A} `{Countable K} (key : A -> option K) (l : list A) (m : gmap K nat) :
  total (fold_left (fun m a => match key a with
                               | Some x => bump x m
                               | None => m
                               end) l m)
  = (total m + how_many (fun a => bool_decide (is_Some (key a))) l)%nat.
Proof.
  unfold how_many. revert m. induction l as [|a l IH]; intros m; simpl; [lia|].
  rewrite IH. destruct (key a) as [x|] eqn:E.
  - rewrite total_bump. rewrite bool_decide_eq_true_2 by eauto. simpl. lia.
  - rewrite bool_decide_eq_false_2 by (intros [? ?]; discriminate). lia.
Qed.

Lemma parsed_how_many ths :
  length (parsed_thoughts strptime ths)
  = how_many (fun t => bool_decide (is_Some (entry_hour strptime t))) ths.
Proof.
  unfold parsed_thoughts, how_many, entry_hour. f_equal.
  apply List.filter_ext. intros t.
  destruct (strptime (timestamp t)); simpl; reflexivity.
Qed.

Lemma insights_tallies self i :
  analyze_patterns strptime self = Insights i ->
  tallies i = fold_left (tally_step strptime) (thoughts self) tally0
  /\ total_episodes i = length (thoughts self).
Proof.
  intros H. apply insights_figures in H as (H1 & H2 & _). now split.
Qed.

Lemma how_many_parsed_category ths c :
  (0 + how_many (fun t => bool_decide
                            (match entry_hour strptime t with
                             | Some _ => Some (category t)
                             | None => None
                             end = Some c)) ths)%nat
  = how_many (fun t => bool_decide (category t = c)) (parsed_thoughts strptime ths).
Proof.
  unfold how_many, parsed_thoughts, entry_hour. simpl.
  induction ths as [|t ths IH]; [reflexivity|]. simpl.
  destruct (strptime (timestamp t)) as [dt|]; simpl.
  - repeat case_bool_decide; simplify_eq; simpl; congruence.
  - exact IH.
Qed.

(** X6: the counters of the insights count what they are named for, among
    the entries whose timestamp parses: under each hour the entries logged
    in that hour, under each period the entries whose hour falls in it,
    under each category the entries of that category. *)
Theorem counters_count (self : tracker) (i : insights) :
  analyze_patterns strptime self = Insights i ->
  (forall h, count_of (hour_counts (tallies i)) h
             = how_many (fun t => bool_decide (entry_hour strptime t = Some h))
                        (thoughts self))
  /\ (forall p, count_of (period_counts (tallies i)) p
                = how_many (fun t => bool_decide
                                       (option_map get_time_period (entry_hour strptime t)
                                        = Some p))
                           (thoughts self))
  /\ (forall c, count_of (category_counts (tallies i)) c
                = how_many (fun t => bool_decide (category t = c))
                           (parsed_thoughts strptime (thoughts self))).
Proof.
  intros Hi. destruct (insights_tallies _ _ Hi) as [-> _].
  split; [|split].
  - intros h. rewrite tally_hours, (count_of_fold (entry_hour strptime)).
    simpl hour_counts. now rewrite count_of_empty.
  - intros p. rewrite tally_periods.
    rewrite (count_of_fold (fun t => option_map get_time_period (entry_hour strptime t))).
    simpl period_counts. now rewrite count_of_empty.
  - intros c. rewrite tally_categories.
    rewrite (count_of_fold (fun t => match entry_hour strptime t with
                                     | Some _ => Some (category t)
                                     | None => None
                                     end)).
    simpl category_counts. rewrite count_of_empty. apply how_many_parsed_category.
Qed.

End Counters.

(** ** Outcomes and totals of the pattern analysis *)

Section AnalysisOutcomes.
Import Counting.

Variable strptime : string -> option datetime.

Lemma tally_unparsed ths acc :
  parsed_thoughts strptime ths = [] ->
  fold_left (tally_step strptime) ths acc = acc.
Proof.
  revert acc. induction ths as [|t ths IH]; intros acc; simpl; [reflexivity|].
  unfold tally_step at 2. destruct (strptime (timestamp t)) as [dt|]; simpl.
  - discriminate.
  - apply IH.
Qed.

Lemma tally_hours_total ths :
  total (hour_counts (fold_left (tally_step strptime) ths tally0))
  = length (parsed_thoughts strptime ths).
Proof.
  rewrite tally_hours, (total_fold (entry_hour strptime)), parsed_how_many.
  simpl hour_counts. now rewrite total_empty.
Qed.

Lemma tally_empty_iff ths :
  hour_counts (fold_left (tally_step strptime) ths tally0) = ∅
  <-> parsed_thoughts strptime ths = [].
Proof.
  split.
  - intros H. pose proof (tally_hours_total ths) as Ht.
    rewrite H, total_empty in Ht. now destruct (parsed_thoughts strptime ths).
  - intros H. now rewrite (tally_unparsed _ _ H).
Qed.

(** X7: in the insights the hour counts, the period counts and the
    category counts each add up to the number of entries whose timestamp
    parses, which is at least one and at most the number of entries
    reported as total. *)
Theorem counters_add_up (self : tracker) (i : insights) :
  analyze_patterns strptime self = Insights i ->
  total (hour_counts (tallies i)) = length (parsed_thoughts strptime (thoughts self))
  /\ total (period_counts (tallies i)) = length (parsed_thoughts strptime (thoughts self))
  /\ total (category_counts (tallies i)) = length (parsed_thoughts strptime (thoughts self))
  /\ (0 < length (parsed_thoughts strptime (thoughts self)) <= total_episodes i)%nat.
Proof.
  intros Hi. destruct (insights_tallies strptime _ _ Hi) as [Ht Hn]. rewrite Ht, Hn.
  split; [apply tally_hours_total|]. split; [|split].
  - rewrite tally_periods,
      (total_fold (fun t => option_map get_time_period (entry_hour strptime t))),
      parsed_how_many.
    simpl period_counts. rewrite total_empty. unfold how_many. simpl. f_equal.
    apply List.filter_ext. intros t. now destruct (entry_hour strptime t).
  - rewrite tally_categories,
      (total_fold (fun t => match entry_hour strptime t with
                            | Some _ => Some (category t)
                            | None => None
                            end)),
      parsed_how_many.
    simpl category_counts. rewrite total_empty. unfold how_many. simpl. f_equal.
    apply List.filter_ext. intros t. now destruct (entry_hour strptime t).
  - split.
    + revert Hi. unfold analyze_patterns.
      destruct (thoughts self) as [|t ths]; [discriminate|].
      case_bool_decide as E; [discriminate|]. intros _.
      rewrite tally_empty_iff in E.
      destruct (parsed_thoughts strptime (t :: ths)); [congruence|simpl; lia].
    + unfold parsed_thoughts. apply List.filter_length_le.
Qed.

(** X8: the analysis answers "not enough data" exactly on an empty log and
    "could not analyze" exactly on a log that is not empty and has no
    timestamp that parses.  On a log with a timestamp that parses it
    raises exactly when the sum of the intensities of the entries that
    parse, over the number of all entries, rounds beyond the floats, and
    gives insights otherwise, with the number of all entries as their
    total. *)
Theorem analysis_outcomes (self : tracker) :
  let parsed := parsed_thoughts strptime (thoughts self) in
  let beyond :=
    overflows (zsum (map intensity parsed)) (Z.of_nat (length (thoughts self))) in
  (analyze_patterns strptime self = NotEnoughData <-> thoughts self = [])
  /\ (analyze_patterns strptime self = CouldNotAnalyze
      <-> thoughts self <> [] /\ parsed = [])
  /\ ((exists i, analyze_patterns strptime self = Insights i)
      <-> parsed <> [] /\ beyond = false)
  /\ (analyze_patterns strptime self = AnalysisRaises
      <-> parsed <> [] /\ beyond = true)
  /\ (forall i, analyze_patterns strptime self = Insights i ->
                total_episodes i = length (thoughts self)).
Proof.
  intros parsed beyond.
  assert (Hcases : thoughts self = [] \/ thoughts self <> [])
    by (destruct (thoughts self); [now left|now right]).
  destruct Hcases as [E|Hne].
  - assert (Hp : parsed = []) by (subst parsed; now rewrite E).
    unfold analyze_patterns. rewrite E.
    split; [split; auto|]. split; [split; [discriminate|intros [H _]; congruence]|].
    split; [split; [intros [i Hi]; discriminate|intros [H _]; congruence]|].
    split; [split; [discriminate|intros [H _]; congruence]|discriminate].
  - rewrite (analyze_patterns_nonempty strptime) by exact Hne.
    assert (Hlen : Z.of_nat (length (thoughts self)) <> 0%Z)
      by (destruct (thoughts self); [congruence|simpl; lia]).
    case_bool_decide as Hc; rewrite tally_empty_iff in Hc; fold parsed in Hc.
    + split; [split; [discriminate|congruence]|].
      split; [split; [now split|reflexivity]|].
      split; [split; [intros [i Hi]; discriminate|intros [H _]; congruence]|].
      split; [split; [discriminate|intros [H _]; congruence]|discriminate].
    + rewrite (tally_sum strptime). simpl intensity_sum. rewrite Z.add_0_l.
      fold parsed.
      pose proof (truediv_none (zsum (map intensity parsed)) _ Hlen) as Hq.
      fold beyond in Hq.
      destruct (truediv (zsum (map intensity parsed)) _) as [avg|].
      * assert (Hb : beyond = false).
        { destruct beyond; [|reflexivity]. destruct Hq as [_ Hq].
          specialize (Hq eq_refl). discriminate. }
        split; [split; [discriminate|congruence]|].
        split; [split; [discriminate|intros [_ H]; congruence]|].
        split; [split; [intros _; now split|eauto]|].
        split; [split; [discriminate|intros [_ H]; congruence]|].
        intros i [= <-]. reflexivity.
      * assert (Hb : beyond = true) by now apply Hq.
        split; [split; [discriminate|congruence]|].
        split; [split; [discriminate|intros [_ H]; congruence]|].
        split; [split; [intros [i Hi]; discriminate|intros [_ H]; congruence]|].
        split; [split; [intros _; now split|reflexivity]|discriminate].
Qed.

End AnalysisOutcomes.

Lemma mixed_log_insights :
  exists i, analyze_patterns Instances.strptime_canonical
              (mkTracker Instances.mixed_log false) = Insights i.
Proof.
  destruct (analyze_patterns Instances.strptime_canonical
              (mkTracker Instances.mixed_log false)) as [| |i|] eqn:E.
  - vm_compute in E. discriminate.
  - vm_compute in E. discriminate.
  - eauto.
  - vm_compute in E. discriminate.
Qed.

Lemma counters_count_witness :
  exists i, analyze_patterns Instances.strptime_canonical
              (mkTracker Instances.mixed_log false) = Insights i
            /\ Counting.count_of (category_counts (tallies i)) "Work" = 1%nat.
Proof.
  destruct mixed_log_insights as [i Hi]. exists i. split; [exact Hi|].
  destruct (counters_count Instances.strptime_canonical _ _ Hi) as (_ & _ & Hc).
  rewrite Hc. reflexivity.
Defined.

Lemma counters_add_up_witness :
  exists i, analyze_patterns Instances.strptime_canonical
              (mkTracker Instances.mixed_log false) = Insights i
            /\ Counting.total (hour_counts (tallies i)) = 1%nat.
Proof.
  destruct mixed_log_insights as [i Hi]. exists i. split; [exact Hi|].
  destruct (counters_add_up Instances.strptime_canonical _ _ Hi) as (Hh & _).
  rewrite Hh. reflexivity.
Defined.

(** ** Outcomes and totals of the weekly summary *)

Section WeeklyOutcomes.
Import Counting.

Variable strptime : string -> option datetime.

Lemma weekly_thoughts_parse now ths :
  Forall (fun t => is_Some (strptime (timestamp t))) (weekly_thoughts strptime now ths).
Proof.
  apply Forall_forall. intros t Ht. apply list_elem_of_In in Ht.
  unfold weekly_thoughts in Ht. apply List.filter_In in Ht as [_ Ht].
  unfold in_week in Ht. destruct (strptime (timestamp t)); [eauto|discriminate].
Qed.

Lemma day_counts_fold week m :
  fold_left (day_step strptime) week m
  = fold_left (fun m t => match option_map weekday (strptime (timestamp t)) with
                          | Some k => bump k m
                          | None => m
                          end) week m.
Proof.
  revert m. induction week as [|t week IH]; intros m; simpl; [reflexivity|].
  rewrite IH. unfold day_step. now destruct (strptime (timestamp t)).
Qed.

Lemma how_many_all {A} (p : A -> bool) (l : list A) :
  Forall (fun a => p a = true) l -> how_many p l = length l.
Proof.
  unfold how_many. induction 1 as [|a l Ha _ IH]; simpl; [reflexivity|].
  rewrite Ha. simpl. now rewrite IH.
Qed.

Lemma day_counts_total week :
  Forall (fun t => is_Some (strptime (timestamp t))) week ->
  total (fold_left (day_step strptime) week ∅) = length week.
Proof.
  intros H. rewrite day_counts_fold.
  rewrite (total_fold (fun t => option_map weekday (strptime (timestamp t)))).
  rewrite total_empty. simpl. apply how_many_all.
  eapply Forall_impl; [exact H|]. intros t [dt Hdt]. simpl. rewrite Hdt.
  reflexivity.
Qed.

Lemma category_counts_total (week : list thought) :
  total (fold_left (fun acc t => bump (category t) acc) week ∅) = length week.
Proof.
  rewrite (total_fold (fun t => Some (category t))), total_empty. simpl.
  apply how_many_all. apply Forall_forall. intros t _. reflexivity.
Qed.

Lemma weekly_summary_stats self now s :
  weekly_summary strptime self now = Summary s ->
  week_stats_of strptime (weekly_thoughts strptime now (thoughts self)) = Some s
  /\ weekly_thoughts strptime now (thoughts self) <> [].
Proof.
  unfold weekly_summary. destruct (thoughts self) as [|t ths]; [discriminate|].
  destruct (weekly_thoughts strptime now (t :: ths)) as [|w week]; [discriminate|].
  destruct (week_stats_of strptime (w :: week)) as [s'|]; [|discriminate].
  intros [= <-]. split; [reflexivity|discriminate].
Qed.

(** The figures of a week, each as it is computed from the entries of the
    week. *)
Lemma week_stats_fields week s :
  week_stats_of strptime week = Some s ->
  week_total s = length week
  /\ truediv (zsum (map intensity week)) (Z.of_nat (length week))
     = Some (week_avg_intensity s)
  /\ day_counts s = fold_left (day_step strptime) week ∅
  /\ week_categories s = fold_left (fun acc t => bump (category t) acc) week ∅
  /\ high_intensity s = how_many (fun t => (7 <=? intensity t)%Z) week
  /\ trend_of_week s = weekly_trend week.
Proof.
  unfold week_stats_of, mean_intensity.
  destruct (truediv _ _) as [avg|]; [|discriminate].
  intros [= <-]. simpl. repeat split.
Qed.

Lemma weekly_summary_nonempty self now :
  weekly_thoughts strptime now (thoughts self) <> [] ->
  weekly_summary strptime self now
  = match week_stats_of strptime (weekly_thoughts strptime now (thoughts self)) with
    | Some s => Summary s
    | None => WeeklyRaises
    end.
Proof.
  unfold weekly_summary. destruct (thoughts self) as [|t ths]; [now intros []|].
  destruct (weekly_thoughts strptime now (t :: ths)); [now intros []|reflexivity].
Qed.

Lemma weekly_trend_cases week :
  (weekly_trend week = NoTrend <-> (length week < 6)%nat)
  /\ (weekly_trend week = TrendRaises
      <-> (6 <= length week)%nat
          /\ (mean_intensity (firstn (length week / 2) week) = None
              \/ mean_intensity (skipn (length week / 2) week) = None)).
Proof.
  unfold weekly_trend. destruct (Nat.leb_spec 6 (length week)) as [Hlen|Hlen].
  - destruct (mean_intensity (firstn (length week / 2) week)) as [a|].
    + destruct (mean_intensity (skipn (length week / 2) week)) as [b|].
      * split; (split; [|intros H; exfalso; try lia]).
        -- repeat match goal with |- context [if ?c then _ else _] => destruct c end;
             discriminate.
        -- repeat match goal with |- context [if ?c then _ else _] => destruct c end;
             discriminate.
        -- destruct H as [_ [H|H]]; discriminate.
      * split; (split; [|intros H; try lia]); try discriminate.
        -- intros _. split; [exact Hlen|now right].
        -- reflexivity.
    + split; (split; [|intros H; try lia]); try discriminate.
      * intros _. split; [exact Hlen|now left].
      * reflexivity.
  - split; [split; [intros _; exact Hlen|reflexivity]|].
    split; [discriminate|intros [H _]; lia].
Qed.

(** X9: the weekly summary answers "no data" exactly on an empty log and
    "no entries this week" exactly on a log that is not empty and has no
    entry in the window.  On a window that is not empty it raises, before
    any figure is printed, exactly when the mean intensity of the window
    rounds beyond the floats; a summary otherwise counts the entries of
    the window, between one and the number of all entries, has no more
    entries of high intensity than entries, has no trend exactly below six
    entries, and raises in its trend block exactly when, from six entries
    on, the mean of the first or of the second half of the window rounds
    beyond the floats. *)
Theorem weekly_outcomes (self : tracker) (now : datetime) :
  let week := weekly_thoughts strptime now (thoughts self) in
  let beyond (l : list thought) :=
    overflows (zsum (map intensity l)) (Z.of_nat (length l)) in
  (weekly_summary strptime self now = NoData <-> thoughts self = [])
  /\ (weekly_summary strptime self now = NoEntriesThisWeek
      <-> thoughts self <> [] /\ week = [])
  /\ (weekly_summary strptime self now = WeeklyRaises
      <-> week <> [] /\ beyond week = true)
  /\ (forall s, weekly_summary strptime self now = Summary s ->
        week_total s = length week
        /\ (0 < week_total s <= length (thoughts self))%nat
        /\ (high_intensity s <= week_total s)%nat
        /\ (trend_of_week s = NoTrend <-> (week_total s < 6)%nat)
        /\ (trend_of_week s = TrendRaises
            <-> (6 <= week_total s)%nat
                /\ (beyond (firstn (length week / 2) week) = true
                    \/ beyond (skipn (length week / 2) week) = true))).
Proof.
  intros week beyond.
  assert (Hmean : forall l, l <> [] -> (mean_intensity l = None <-> beyond l = true)).
  { intros l Hl. unfold mean_intensity. apply truediv_none.
    destruct l; [congruence|simpl; lia]. }
  split; [|split; [|split]].
  - unfold weekly_summary. destruct (thoughts self) as [|t ths]; [now split|].
    destruct (weekly_thoughts strptime now (t :: ths)); [split; discriminate|].
    destruct (week_stats_of strptime _); split; discriminate.
  - subst week. unfold weekly_summary. destruct (thoughts self) as [|t ths].
    + split; [discriminate|intros [H _]; congruence].
    + destruct (weekly_thoughts strptime now (t :: ths)).
      * split; [now split|reflexivity].
      * destruct (week_stats_of strptime _);
          (split; [discriminate|intros [_ H]; discriminate]).
  - split.
    + intros H.
      assert (Hne : week <> []).
      { subst week. intros Hw. revert H. unfold weekly_summary.
        destruct (thoughts self); [discriminate|]. rewrite Hw. discriminate. }
      split; [exact Hne|]. apply Hmean; [exact Hne|].
      rewrite (weekly_summary_nonempty _ _ Hne) in H. fold week in H.
      unfold week_stats_of in H.
      destruct (mean_intensity week); [discriminate|reflexivity].
    + intros [Hne Hb]. rewrite (weekly_summary_nonempty _ _ Hne). fold week.
      apply Hmean in Hb; [|exact Hne]. unfold week_stats_of. now rewrite Hb.
  - intros s Hs. destruct (weekly_summary_stats _ _ _ Hs) as [Hst Hne].
    fold week in Hst, Hne.
    destruct (week_stats_fields _ _ Hst) as (Ht & _ & _ & _ & Hh & Htr).
    rewrite Ht, Hh, Htr.
    split; [reflexivity|]. split; [|split; [|split]].
    + split; [destruct week; [congruence|simpl; lia]|].
      subst week. unfold weekly_thoughts. apply List.filter_length_le.
    + apply List.filter_length_le.
    + apply weekly_trend_cases.
    + rewrite (proj2 (weekly_trend_cases week)).
      assert (Hhalf : (6 <= length week)%nat ->
                (0 < length week / 2 /\ length week / 2 < length week)%nat).
      { intros H6. apply half_bounds. lia. }
      split; intros [H6 Hor]; (split; [exact H6|]);
        destruct (Hhalf H6) as [Hlo Hhi].
      * destruct Hor as [H|H]; [left|right]; apply Hmean in H; auto.
        -- intros E. apply (f_equal (@length _)) in E.
           rewrite length_firstn in E. change (@length thought []) with 0%nat in E. lia.
        -- intros E. apply (f_equal (@length _)) in E.
           rewrite length_skipn in E. change (@length thought []) with 0%nat in E. lia.
      * destruct Hor as [H|H]; [left|right]; apply Hmean; auto.
        -- intros E. apply (f_equal (@length _)) in E.
           rewrite length_firstn in E. change (@length thought []) with 0%nat in E. lia.
        -- intros E. apply (f_equal (@length _)) in E.
           rewrite length_skipn in E. change (@length thought []) with 0%nat in E. lia.
Qed.

(** X10: in a weekly summary the counts per day of the week add up to the
    number of entries of the window, and so do the counts per category:
    every entry kept parses again when its day is counted. *)
Theorem weekly_counts_add_up (self : tracker) (now : datetime) (s : week_stats) :
  weekly_summary strptime self now = Summary s ->
  total (day_counts s) = week_total s
  /\ total (week_categories s) = week_total s.
Proof.
  intros Hs. destruct (weekly_summary_stats _ _ _ Hs) as [Hst _].
  destruct (week_stats_fields _ _ Hst) as (Ht & _ & Hd & Hc & _).
  rewrite Ht, Hd, Hc. split.
  - apply day_counts_total, weekly_thoughts_parse.
  - apply category_counts_total.
Qed.

(** C5: the entries of the weekly summary are those of the log whose
    timestamp parses to an instant not before [now] minus seven days, that
    instant included; an entry that does not parse or is older is left
    out.  Every figure of a summary is computed from the entries kept and
    from them alone: the total is their number, the average the sum of
    their intensities over their number, the counts per day, per category
    and of high intensity count them, and the trend compares the means of
    their two halves; so the summary of a log is that of the log without
    an entry that is left out. *)
Theorem weekly_window (now : datetime) (ths : list thought) :
  let week := weekly_thoughts strptime now ths in
  (forall t, In t week
             <-> In t ths
                 /\ exists dt, strptime (timestamp t) = Some dt
                               /\ (now - timedelta_days 7 <= dt)%Z)
  /\ (forall t, In t ths ->
                strptime (timestamp t) = Some (now - timedelta_days 7)%Z ->
                In t week)
  /\ (forall t, strptime (timestamp t) = None -> ~ In t week)
  /\ (forall t dt, strptime (timestamp t) = Some dt ->
                   (dt < now - timedelta_days 7)%Z -> ~ In t week)
  /\ (forall dry s,
        weekly_summary strptime (mkTracker ths dry) now = Summary s ->
        week_total s = length week
        /\ truediv (zsum (map intensity week)) (Z.of_nat (length week))
           = Some (week_avg_intensity s)
        /\ high_intensity s = how_many (fun t => (7 <=? intensity t)%Z) week
        /\ (forall c, count_of (week_categories s) c
                      = how_many (fun t => bool_decide (category t = c)) week)
        /\ (forall k, count_of (day_counts s) k
                      = how_many (fun t => bool_decide
                                             (option_map weekday (strptime (timestamp t))
                                              = Some k)) week)
        /\ (trend_of_week s = NoTrend <-> (length week < 6)%nat)
        /\ (forall a b,
              (6 <= length week)%nat ->
              truediv (zsum (map intensity (firstn (length week / 2) week)))
                      (Z.of_nat (length (firstn (length week / 2) week))) = Some a ->
              truediv (zsum (map intensity (skipn (length week / 2) week)))
                      (Z.of_nat (length (skipn (length week / 2) week))) = Some b ->
              trend_of_week s
              = Trend (if PrimFloat.ltb b (PrimFloat.mul a 0.85%float) then Improving
                       else if PrimFloat.ltb (PrimFloat.mul a 1.15%float) b
                            then Increasing else Stable)))
  /\ (forall dry before t after,
        ths = before ++ t :: after -> before ++ after <> [] ->
        in_week strptime now t = false ->
        weekly_summary strptime (mkTracker ths dry) now
        = weekly_summary strptime (mkTracker (before ++ after) dry) now).
Proof.
  intros week.
  assert (Hin : forall t, In t week
             <-> In t ths
                 /\ exists dt, strptime (timestamp t) = Some dt
                               /\ (now - timedelta_days 7 <= dt)%Z).
  { intros t. subst week. unfold weekly_thoughts.
    rewrite List.filter_In, in_week_spec. reflexivity. }
  split; [exact Hin|]. split; [|split; [|split; [|split]]].
  - intros t Ht Hdt. apply Hin. split; [exact Ht|]. eexists. split; [exact Hdt|lia].
  - intros t Hnone Hc. apply Hin in Hc as (_ & dt & Hdt & _). congruence.
  - intros t dt Hdt Hold Hc. apply Hin in Hc as (_ & dt' & Hdt' & Hle).
    rewrite Hdt in Hdt'. injection Hdt' as <-. lia.
  - intros dry s Hs. destruct (weekly_summary_stats _ _ _ Hs) as [Hst _].
    simpl thoughts in Hst. fold week in Hst.
    destruct (week_stats_fields _ _ Hst) as (Ht & Hav & Hd & Hc & Hh & Htr).
    split; [exact Ht|]. split; [exact Hav|]. split; [exact Hh|].
    split; [|split; [|split]].
    + intros c. rewrite Hc, (count_of_fold (fun t => Some (category t))).
      rewrite count_of_empty. simpl. unfold how_many. f_equal.
      apply List.filter_ext. intros t.
      repeat case_bool_decide; simplify_eq; congruence.
    + intros k. rewrite Hd, day_counts_fold.
      rewrite (count_of_fold (fun t => option_map weekday (strptime (timestamp t)))).
      now rewrite count_of_empty.
    + rewrite Htr. apply weekly_trend_cases.
    + intros a b H6 Ha Hb. rewrite Htr. unfold weekly_trend, mean_intensity.
      destruct (Nat.leb_spec 6 (length week)); [|lia].
      rewrite Ha, Hb.
      destruct (PrimFloat.ltb b _); [reflexivity|].
      now destruct (PrimFloat.ltb _ b).
  - intros dry before t after -> Hne Hout. unfold weekly_summary. simpl thoughts.
    subst week. rewrite (weekly_thoughts_drop _ _ _ _ _ Hout).
    destruct (before ++ after) as [|x xs] eqn:E; [congruence|].
    now destruct before.
Qed.

End WeeklyOutcomes.

Lemma mixed_log_summary :
  exists s, weekly_summary Instances.strptime_canonical
              (mkTracker Instances.mixed_log false)
              (63872532000000000 + timedelta_days 7)%Z = Summary s.
Proof.
  destruct (weekly_summary Instances.strptime_canonical
              (mkTracker Instances.mixed_log false)
              (63872532000000000 + timedelta_days 7)%Z) as [| |s|] eqn:E.
  - vm_compute in E. discriminate.
  - vm_compute in E. discriminate.
  - eauto.
  - vm_compute in E. discriminate.
Qed.

Lemma weekly_outcomes_witness :
  exists s, weekly_summary Instances.strptime_canonical
              (mkTracker Instances.mixed_log false)
              (63872532000000000 + timedelta_days 7)%Z = Summary s
            /\ week_total s = 1%nat.
Proof.
  destruct mixed_log_summary as [s Hs]. exists s. split; [exact Hs|].
  destruct (weekly_outcomes Instances.strptime_canonical
              (mkTracker Instances.mixed_log false)
              (63872532000000000 + timedelta_days 7)%Z) as (_ & _ & _ & H).
  destruct (H s Hs) as (Ht & _). rewrite Ht. reflexivity.
Defined.

Lemma weekly_window_witness :
  In (mkThought "2025-01-15 10:00:00" "Work" 8 EmptyString)
     (weekly_thoughts Instances.strptime_canonical
        (63872532000000000 + timedelta_days 7)%Z Instances.mixed_log).
Proof.
  apply (weekly_window Instances.strptime_canonical
           (63872532000000000 + timedelta_days 7)%Z Instances.mixed_log);
    [left; reflexivity | vm_compute; reflexivity].
Defined.

Lemma weekly_counts_add_up_witness :
  exists s, weekly_summary Instances.strptime_canonical
              (mkTracker Instances.mixed_log false)
              (63872532000000000 + timedelta_days 7)%Z = Summary s
            /\ Counting.total (day_counts s) = week_total s.
Proof.
  destruct mixed_log_summary as [s Hs]. exists s. split; [exact Hs|].
  apply (weekly_counts_add_up Instances.strptime_canonical _ _ _ Hs).
Defined.

(** ** Extremes of the daily series *)

Section Extremes.
Import FloatKey.

Variable sorted : sorted_builtin.

Lemma SFleb_key a b :
  SFleb a b = true <-> a <> S754_nan /\ b <> S754_nan /\ lex_le (key a) (key b).
Proof.
  unfold SFleb, lex_le.
  destruct a as [sa|sa| |sa ma ea], b as [sb|sb| |sb mb eb]; simpl;
    try destruct sa; try destruct sb; simpl;
    try (split; [intros H; try discriminate; repeat split; try discriminate; lia
                |intros (H1 & H2 & H3); try congruence; try reflexivity; lia]).
  all: change (Pos.compare_cont Eq ma mb) with (Pos.compare ma mb).
  all: destruct (Z.compare_spec ea eb) as [He|He|He]; simpl;
    try destruct (Pos.compare_spec ma mb) as [Hm|Hm|Hm]; simpl;
    (split; [intros Hle; try discriminate; repeat split; try discriminate; lia
            |intros (H1 & H2 & H3); try reflexivity; lia]).
Qed.

Lemma leb_key x y :
  PrimFloat.leb x y = true
  <-> Prim2SF x <> S754_nan /\ Prim2SF y <> S754_nan
      /\ lex_le (key (Prim2SF x)) (key (Prim2SF y)).
Proof. rewrite FloatAxioms.leb_spec. apply SFleb_key. Qed.

Lemma leb_trans x y z :
  PrimFloat.leb x y = true -> PrimFloat.leb y z = true -> PrimFloat.leb x z = true.
Proof.
  rewrite !leb_key. unfold lex_le.
  intros (Hx & _ & H1) (_ & Hz & H2). repeat split; auto. lia.
Qed.

Lemma leb_refl x : PrimFloat.is_nan x = false -> PrimFloat.leb x x = true.
Proof.
  intros H. apply leb_key. pose proof (not_nan_spec _ H).
  repeat split; auto. unfold lex_le. lia.
Qed.

Lemma fmax_in x xs : In (fmax x xs) (x :: xs).
Proof.
  unfold fmax. revert x. induction xs as [|y xs IH]; intros x; simpl; [auto|].
  destruct (IH (if PrimFloat.ltb x y then y else x)) as [H|H]; [|auto].
  rewrite <- H. destruct (PrimFloat.ltb x y); auto.
Qed.

Lemma fmin_in x xs : In (fmin x xs) (x :: xs).
Proof.
  unfold fmin. revert x. induction xs as [|y xs IH]; intros x; simpl; [auto|].
  destruct (IH (if PrimFloat.ltb y x then y else x)) as [H|H]; [|auto].
  rewrite <- H. destruct (PrimFloat.ltb y x); auto.
Qed.

Lemma fmax_upper x xs :
  nan_free (x :: xs) -> forall y, In y (x :: xs) -> PrimFloat.leb y (fmax x xs) = true.
Proof.
  unfold fmax. revert x. induction xs as [|z xs IH]; intros x Hnan y Hy.
  - destruct Hy as [<-|[]]. simpl. apply leb_refl. now inversion Hnan.
  - inversion Hnan as [|? ? Hx Hrest]; subst. inversion Hrest as [|? ? Hz Hxs]; subst.
    simpl. set (b := if PrimFloat.ltb x z then z else x).
    assert (Hb : PrimFloat.is_nan b = false) by (subst b; now destruct (PrimFloat.ltb x z)).
    assert (Hxb : PrimFloat.leb x b = true).
    { subst b. destruct (PrimFloat.ltb x z) eqn:E; [now apply ltb_leb|now apply leb_refl]. }
    assert (Hzb : PrimFloat.leb z b = true).
    { subst b. destruct (PrimFloat.ltb x z) eqn:E; [now apply leb_refl|now apply not_ltb_leb]. }
    assert (Hnb : nan_free (b :: xs)) by now constructor.
    pose proof (IH b Hnb b (or_introl eq_refl)) as Hbf.
    destruct Hy as [<-|[<-|Hy]].
    + eapply leb_trans; eauto.
    + eapply leb_trans; eauto.
    + apply (IH b Hnb). now right.
Qed.

Lemma fmin_lower x xs :
  nan_free (x :: xs) -> forall y, In y (x :: xs) -> PrimFloat.leb (fmin x xs) y = true.
Proof.
  unfold fmin. revert x. induction xs as [|z xs IH]; intros x Hnan y Hy.
  - destruct Hy as [<-|[]]. simpl. apply leb_refl. now inversion Hnan.
  - inversion Hnan as [|? ? Hx Hrest]; subst. inversion Hrest as [|? ? Hz Hxs]; subst.
    simpl. set (b := if PrimFloat.ltb z x then z else x).
    assert (Hb : PrimFloat.is_nan b = false) by (subst b; now destruct (PrimFloat.ltb z x)).
    assert (Hxb : PrimFloat.leb b x = true).
    { subst b. destruct (PrimFloat.ltb z x) eqn:E; [now apply ltb_leb|now apply leb_refl]. }
    assert (Hzb : PrimFloat.leb b z = true).
    { subst b. destruct (PrimFloat.ltb z x) eqn:E; [now apply leb_refl|now apply not_ltb_leb]. }
    assert (Hnb : nan_free (b :: xs)) by now constructor.
    pose proof (IH b Hnb b (or_introl eq_refl)) as Hbf.
    destruct Hy as [<-|[<-|Hy]].
    + eapply leb_trans; eauto.
    + eapply leb_trans; eauto.
    + apply (IH b Hnb). now right.
Qed.

Lemma calculate_stats_some data st :
  calculate_stats sorted data = Some st ->
  exists m ms, map minutes data = m :: ms
               /\ days_tracked st = length data
               /\ highest_day st = fmax m ms /\ lowest_day st = fmin m ms
               /\ _calculate_median sorted (m :: ms) = Some (median_minutes st).
Proof.
  unfold calculate_stats. destruct (map minutes data) as [|m ms] eqn:E; [discriminate|].
  destruct (_calculate_median sorted (m :: ms)) as [med|] eqn:Hm; [|discriminate].
  intros [= <-]. exists m, ms. split; [reflexivity|].
  split; [transitivity (length (map minutes data));
            [now rewrite E|apply length_map]|].
  repeat split; try reflexivity. exact Hm.
Qed.

Lemma calculate_stats_defined data :
  data <> [] -> exists st, calculate_stats sorted data = Some st.
Proof.
  intros Hne. unfold calculate_stats.
  destruct data as [|e data]; [congruence|]. simpl map.
  destruct (median_defined sorted (minutes e :: map minutes data)) as [m Hm];
    [discriminate|].
  rewrite Hm. eauto.
Qed.

(** X11: the statistics exist exactly for a series that is not empty; they
    count its entries; the highest and the lowest day are minutes of the
    series; and when no value is a NaN every value of the series lies
    between the lowest and the highest day. *)
Theorem stats_extremes (data : list entry) :
  (calculate_stats sorted data = None <-> data = [])
  /\ (forall st, calculate_stats sorted data = Some st ->
        days_tracked st = length data
        /\ In (highest_day st) (map minutes data)
        /\ In (lowest_day st) (map minutes data)
        /\ (nan_free (map minutes data) ->
            forall e, In e data ->
              PrimFloat.leb (lowest_day st) (minutes e) = true
              /\ PrimFloat.leb (minutes e) (highest_day st) = true)).
Proof.
  split.
  - split; [|now intros ->]. intros H. destruct data as [|e data]; [reflexivity|].
    destruct (calculate_stats_defined (e :: data)) as [st Hst]; [discriminate|].
    congruence.
  - intros st Hst. destruct (calculate_stats_some _ _ Hst) as (m & ms & E & Hn & Hhi & Hlo & _).
    split; [exact Hn|]. rewrite Hhi, Hlo, E.
    split; [apply fmax_in|]. split; [apply fmin_in|].
    intros Hnan e He. apply (List.in_map minutes) in He. rewrite E in He.
    split; [now apply fmin_lower|now apply fmax_upper].
Qed.

End Extremes.

Lemma stats_extremes_witness :
  exists st,
    calculate_stats Instances.by_insertion
      [mkEntry "2025-01-15" 45%float; mkEntry "2025-01-16" 30%float] = Some st
    /\ days_tracked st = 2%nat
    /\ PrimFloat.leb (minutes (mkEntry "2025-01-15" 45%float)) (highest_day st) = true.
Proof.
  destruct (calculate_stats Instances.by_insertion
              [mkEntry "2025-01-15" 45%float; mkEntry "2025-01-16" 30%float])
    as [st|] eqn:E; [|vm_compute in E; discriminate].
  exists st. split; [reflexivity|].
  destruct (stats_extremes Instances.by_insertion
              [mkEntry "2025-01-15" 45%float; mkEntry "2025-01-16" 30%float])
    as [_ H].
  destruct (H st E) as (Hn & _ & _ & Hb). split; [exact Hn|].
  apply Hb; [repeat constructor|left; reflexivity].
Defined.

(** ** The median and the sorted values *)

Section Median.

Variable sorted : sorted_builtin.

Lemma ltb_not_leb x y : PrimFloat.ltb x y = true -> PrimFloat.leb y x = false.
Proof.
  rewrite FloatAxioms.ltb_spec, FloatAxioms.leb_spec. unfold SFltb, SFleb.
  rewrite (SFcompare_swap (Prim2SF x) (Prim2SF y)).
  destruct (SFcompare (Prim2SF x) (Prim2SF y)) as [[]|]; simpl; congruence.
Qed.

Lemma ltb_irrefl x : PrimFloat.ltb x x = false.
Proof.
  destruct (PrimFloat.ltb x x) eqn:E; [|reflexivity].
  pose proof (ltb_leb _ _ E) as H1. pose proof (ltb_not_leb _ _ E) as H2. congruence.
Qed.

(** A series that ascends strictly has one ascending arrangement, itself. *)
Lemma ascending_unique l :
  StronglySorted (fun a b => PrimFloat.ltb a b = true) l ->
  forall s, Permutation s l -> ascending s -> s = l.
Proof.
  induction 1 as [|x l Hl IH Hx]; intros s Hp Hs.
  - apply Permutation_sym in Hp. now apply Permutation_nil in Hp.
  - destruct s as [|y s]; [now apply Permutation_nil in Hp|].
    assert (Hyx : y = x).
    { assert (Hy : In y (x :: l))
        by (eapply Permutation_in; [exact Hp|now left]).
      destruct Hy as [Hy|Hy]; [now symmetry|]. exfalso.
      rewrite List.Forall_forall in Hx. pose proof (Hx y Hy) as Hlt.
      assert (Hxin : In x (y :: s))
        by (eapply Permutation_in; [apply Permutation_sym; exact Hp|now left]).
      destruct Hxin as [E|Hxs].
      - subst y. rewrite ltb_irrefl in Hlt. discriminate.
      - assert (Hst : StronglySorted (fun a b => PrimFloat.leb a b = true) (y :: s)).
        { apply Sorted_StronglySorted; [|exact Hs].
          intros a b c. apply leb_trans. }
        inversion Hst as [|? ? _ Hall]; subst.
        rewrite List.Forall_forall in Hall. pose proof (Hall x Hxs) as Hle.
        rewrite (ltb_not_leb _ _ Hlt) in Hle. discriminate. }
    subst y. f_equal. apply IH.
    + now apply Permutation_cons_inv in Hp.
    + now inversion Hs.
Qed.

(** C4: the median of a non-empty series is read off its sorted values, a
    rearrangement of the series that ascends when no value is a NaN: the
    middle value for an odd count, the half-sum of the two middle values
    for an even count; 20 for 10, 20, 30 and 25 for 10, 20, 30, 40. *)
Theorem median_is_middle_of_sorted (values : list float) :
  values <> [] ->
  Permutation (sorted values) values
  /\ (nan_free values -> ascending (sorted values))
  /\ (Nat.Odd (length values) ->
      _calculate_median sorted values
      = Some (nth (length values / 2) (sorted values) 0%float))
  /\ (Nat.Even (length values) ->
      _calculate_median sorted values
      = Some (PrimFloat.div
                (PrimFloat.add (nth (length values / 2 - 1) (sorted values) 0%float)
                               (nth (length values / 2) (sorted values) 0%float))
                2%float))
  /\ _calculate_median sorted [10; 20; 30]%float = Some 20%float
  /\ _calculate_median sorted [10; 20; 30; 40]%float = Some 25%float.
Proof.
  intros Hne. split; [apply sorted_items|]. split; [apply sorted_ascends|].
  split; [apply median_odd|]. split; [now apply median_even|].
  assert (Hfix : forall l,
            StronglySorted (fun a b => PrimFloat.ltb a b = true) l ->
            nan_free l -> sorted l = l).
  { intros l Hl Hn. apply ascending_unique;
      [exact Hl|apply sorted_items|now apply sorted_ascends]. }
  split.
  - rewrite (median_odd sorted) by (exists 1%nat; reflexivity).
    rewrite Hfix; [reflexivity| |]; repeat constructor.
  - rewrite (median_even sorted) by (try discriminate; exists 2%nat; reflexivity).
    rewrite Hfix; [reflexivity| |]; repeat constructor.
Qed.

End Median.

Lemma median_is_middle_of_sorted_witness :
  Permutation (Instances.by_insertion [30; 10; 20]%float) [30; 10; 20]%float
  /\ _calculate_median Instances.by_insertion [30; 10; 20]%float = Some 20%float.
Proof.
  destruct (median_is_middle_of_sorted Instances.by_insertion [30; 10; 20]%float)
    as (Hp & _ & Ho & _); [discriminate|].
  split; [exact Hp|].
  rewrite Ho; [reflexivity|]. exists 1%nat. reflexivity.
Defined.

(** ** Entries of the daily file *)

Section CsvEntries.

Variable float_of_str : string -> option float.

(** X12: an entry comes only from a line that is not the first, holds no
    header keyword and has at least two fields; its date is the first
    field and its minutes the float of the second, both without the white
    space at their ends; the fields after the second are not read, and
    nothing is printed for the line.  The date holds no comma. *)
Theorem read_row_sound (n : nat) (raw : string) (e : entry) :
  fst (read_row float_of_str n raw) = Some e ->
  n <> 1%nat
  /\ existsb (fun k => contains k (lower (strip raw))) header_keywords = false
  /\ (2 <= length (split "," (strip raw)))%nat
  /\ date e = strip (nth 0 (split "," (strip raw)) EmptyString)
  /\ float_of_str (strip (nth 1 (split "," (strip raw)) EmptyString)) = Some (minutes e)
  /\ snd (read_row float_of_str n raw) = []
  /\ has_char "," (date e) = false /\ strip (date e) = date e.
Proof.
  unfold read_row. destruct (truthy (strip raw)); [|discriminate]. simpl negb. cbv iota.
  destruct (Nat.eqb_spec n 1) as [->|Hn]; [discriminate|]. rewrite !orb_false_l.
  destruct (existsb _ header_keywords); [discriminate|].
  destruct (Nat.leb_spec 2 (length (split "," (strip raw)))) as [Hl|Hl]; [|discriminate].
  destruct (float_of_str _) as [m|] eqn:Hf; [|discriminate].
  intros [= <-]. simpl. repeat split; auto.
  - apply has_char_strip.
    destruct (nth_in_or_default 0 (split "," (strip raw)) EmptyString) as [Hin| ->];
      [|reflexivity].
    pose proof (split_parts_plain "," (strip raw)) as HF. rewrite Forall_forall in HF.
    now apply HF, list_elem_of_In.
  - apply strip_idem.
Qed.

Lemma read_rows_in n lines e :
  In e (fst (read_rows float_of_str n lines))
  <-> exists i raw, nth_error lines i = Some raw
                    /\ fst (read_row float_of_str (n + i) raw) = Some e.
Proof.
  revert n. induction lines as [|l lines IH]; intros n.
  - simpl. split; [tauto|]. intros (i & raw & H & _). now destruct i.
  - rewrite read_rows_cons. cbn [fst]. split.
    + intros H.
      assert (Hcase : fst (read_row float_of_str n l) = Some e
                      \/ In e (fst (read_rows float_of_str (S n) lines))).
      { destruct (fst (read_row float_of_str n l)) as [e0|]; [|auto].
        destruct H as [->|H]; auto. }
      destruct Hcase as [H0|H0].
      * exists 0%nat, l. rewrite Nat.add_0_r. auto.
      * apply IH in H0 as (i & raw & Hi & Hr). exists (S i), raw.
        split; [exact Hi|]. now replace (n + S i)%nat with (S n + i)%nat by lia.
    + intros (i & raw & Hi & Hr). destruct i as [|i].
      * simpl in Hi. injection Hi as ->. rewrite Nat.add_0_r in Hr. rewrite Hr. now left.
      * simpl in Hi.
        assert (Hin : In e (fst (read_rows float_of_str (S n) lines))).
        { apply IH. exists i, raw. split; [exact Hi|].
          now replace (S n + i)%nat with (n + S i)%nat by lia. }
        destruct (fst (read_row float_of_str n l)); [now right|exact Hin].
Qed.

Lemma read_rows_length n lines :
  (length (fst (read_rows float_of_str n lines)) <= length lines)%nat.
Proof.
  revert n. induction lines as [|l lines IH]; intros n; [simpl; lia|].
  rewrite read_rows_cons. cbn [fst]. specialize (IH (S n)).
  destruct (fst (read_row float_of_str n l)); simpl; lia.
Qed.

(** X13: a missing daily file gives no entry and the two messages on the
    file and its format; a file that exists gives the entries of its
    lines, each from one line, at most one less than there are lines, and
    the last message tells how many were read. *)
Theorem read_daily_data_entries (filename : string) (d : gmap string string) :
  (d !! filename = None ->
   read_daily_data float_of_str filename d
   = ([], [FileNotFound filename; ExpectedFormat]))
  /\ (forall text, d !! filename = Some text ->
        (forall e, In e (fst (read_daily_data float_of_str filename d))
                   <-> exists i raw, nth_error (readlines text) i = Some raw
                                     /\ fst (read_row float_of_str (1 + i) raw) = Some e)
        /\ (length (fst (read_daily_data float_of_str filename d))
            <= length (readlines text) - 1)%nat
        /\ List.last (snd (read_daily_data float_of_str filename d)) ExpectedFormat
           = ReadEntries (length (fst (read_daily_data float_of_str filename d))) filename).
Proof.
  unfold read_daily_data. split.
  - now intros ->.
  - intros text ->.
    destruct (read_rows float_of_str 1 (readlines text)) as [data out] eqn:E.
    assert (Hd : data = fst (read_rows float_of_str 1 (readlines text))) by now rewrite E.
    cbn [fst snd]. split; [|split].
    + intros e. rewrite Hd. apply read_rows_in.
    + rewrite Hd. destruct (readlines text) as [|l lines]; [simpl; lia|].
      rewrite read_rows_cons, read_row_first. cbn [fst].
      pose proof (read_rows_length 2 lines). simpl. lia.
    + apply List.last_last.
Qed.

End CsvEntries.

Lemma read_row_sound_witness :
  date (mkEntry "2025-01-15" 45%float)
  = strip (nth 0 (split "," (strip "2025-01-15,45,extra")) EmptyString).
Proof.
  apply (read_row_sound Instances.float_of_decimal 2 "2025-01-15,45,extra"
           (mkEntry "2025-01-15" 45%float)).
  reflexivity.
Defined.

(** ** The history view *)

Section History.
Import Interaction.

Lemma enumerate_length {A} (start : nat) (xs : list A) :
  length (enumerate start xs) = length xs.
Proof.
  revert start. induction xs as [|x xs IH]; intros start; simpl; [reflexivity|].
  now rewrite IH.
Qed.

Lemma enumerate_nth {A} (start k : nat) (xs : list A) :
  nth_error (enumerate start xs) k
  = option_map (fun x => ((start + k)%nat, x)) (nth_error xs k).
Proof.
  revert start k. induction xs as [|x xs IH]; intros start k; simpl.
  - now destruct k.
  - destruct k as [|k]; simpl; [now rewrite Nat.add_0_r|].
    rewrite IH. now replace (S start + k)%nat with (start + S k)%nat by lia.
Qed.

Lemma last_items_length {A} (n : nat) (xs : list A) :
  length (last_items n xs) = Nat.min n (length xs).
Proof. unfold last_items. rewrite length_skipn. lia. Qed.

Lemma history_rows_shown room items :
  Forall (fun it => (intensity (snd it) <= Z.of_nat room)%Z) items ->
  history_rows room items = (map history_row_of items, true).
Proof.
  induction 1 as [|it items Hit _ IH]; [reflexivity|]. simpl.
  destruct (Z.leb_spec (intensity (snd it)) (Z.of_nat room)); [|lia]. now rewrite IH.
Qed.

Lemma history_rows_raises room before it after :
  Forall (fun it => (intensity (snd it) <= Z.of_nat room)%Z) before ->
  (Z.of_nat room < intensity (snd it))%Z ->
  history_rows room (before ++ it :: after) = (map history_row_of before, false).
Proof.
  intros Hb Hit. induction Hb as [|x before Hx _ IH]; simpl.
  - destruct (Z.leb_spec (intensity (snd it)) (Z.of_nat room)); [lia|reflexivity].
  - destruct (Z.leb_spec (intensity (snd x)) (Z.of_nat room)); [|lia]. now rewrite IH.
Qed.

(** The items of a loop either all pass a test, or split at the first that
    does not. *)
Lemma first_failure {A} (p : A -> Prop) (dec : forall a, {p a} + {~ p a}) (l : list A) :
  Forall p l
  \/ exists before a after, l = before ++ a :: after /\ Forall p before /\ ~ p a.
Proof.
  induction l as [|a l IH]; [left; constructor|].
  destruct (dec a) as [Ha|Ha].
  - destruct IH as [IH|(before & b & after & -> & Hb & Hnb)].
    + left. now constructor.
    + right. exists (a :: before), b, after. repeat split; auto.
  - right. exists [], a, l. repeat split; auto.
Qed.

Lemma enumerate_app {A} (start : nat) (xs ys : list A) :
  enumerate start (xs ++ ys) = enumerate start xs ++ enumerate (start + length xs) ys.
Proof.
  revert start. induction xs as [|x xs IH]; intros start; simpl.
  - now rewrite Nat.add_0_r.
  - rewrite IH. now replace (S start + length xs)%nat with (start + S (length xs))%nat by lia.
Qed.

Lemma enumerate_snd {A} (start : nat) (xs : list A) :
  map snd (enumerate start xs) = xs.
Proof.
  revert start. induction xs as [|x xs IH]; intros start; simpl; [reflexivity|].
  now rewrite IH.
Qed.

(** X14: the history is refused exactly on an empty log.  On another log
    it runs to its end exactly when the bar of each of the last ten
    entries can be built; it then reports the number of all entries and
    shows the last ten of them, or all when there are fewer, the newest
    first: the row numbered k shows the k-th entry from the end of the
    log, with a bar as long as its intensity and the note when there is
    one.  Otherwise it raises at the newest of these entries whose bar
    cannot be built, after the rows of the entries newer than it. *)
Theorem history_shows_latest (room : nat) (self : tracker) :
  let recent := rev (last_items 10 (thoughts self)) in
  (view_history room self = NoEntries <-> thoughts self = [])
  /\ ((exists rows total, view_history room self = Shown rows total)
      <-> thoughts self <> [] /\ Forall (fun t => (intensity t <= Z.of_nat room)%Z) recent)
  /\ (forall rows total, view_history room self = Shown rows total ->
        total = length (thoughts self)
        /\ length rows = Nat.min 10 total
        /\ forall k, (k < length rows)%nat ->
             exists r, nth_error rows k = Some r
                       /\ row_number r = S k
                       /\ nth_error (thoughts self) (total - S k) = Some (row_entry r)
                       /\ row_bar r = Z.to_nat (intensity (row_entry r))
                       /\ row_note r = truthy (note (row_entry r)))
  /\ (forall rows, view_history room self = HistoryRaises rows ->
        exists newer t older,
          recent = newer ++ t :: older
          /\ Forall (fun t => (intensity t <= Z.of_nat room)%Z) newer
          /\ (Z.of_nat room < intensity t)%Z
          /\ map row_entry rows = newer
          /\ map row_number rows = seq 1 (length newer)).
Proof.
  intros recent.
  assert (Hcases :
    Forall (fun it : nat * thought => (intensity (snd it) <= Z.of_nat room)%Z) (enumerate 1 recent)
    \/ exists before a after,
         enumerate 1 recent = before ++ a :: after
         /\ Forall (fun it : nat * thought => (intensity (snd it) <= Z.of_nat room)%Z) before
         /\ ~ (intensity (snd a) <= Z.of_nat room)%Z).
  { apply first_failure. intros a. apply Z_le_dec. }
  assert (Hall : Forall (fun it : nat * thought => (intensity (snd it) <= Z.of_nat room)%Z)
                        (enumerate 1 recent)
                 <-> Forall (fun t => (intensity t <= Z.of_nat room)%Z) recent).
  { rewrite <- (enumerate_snd 1 recent) at 2. rewrite List.Forall_map. reflexivity. }
  assert (Hentry : forall its, map row_entry (map history_row_of its) = map snd its).
  { intros its. rewrite List.map_map. apply List.map_ext. now intros [i t]. }
  assert (Hnumber : forall its, map row_number (map history_row_of its) = map fst its).
  { intros its. rewrite List.map_map. apply List.map_ext. now intros [i t]. }
  assert (Hemp : thoughts self = [] \/ thoughts self <> [])
    by (destruct (thoughts self); [now left|now right]).
  assert (Hview : thoughts self <> [] ->
            view_history room self
            = let '(rows, finished) := history_rows room (enumerate 1 recent) in
              if finished then Shown rows (length (thoughts self))
              else HistoryRaises rows).
  { intros Hne. subst recent. unfold view_history.
    destruct (thoughts self); [congruence|reflexivity]. }
  destruct Hemp as [E|Hne].
  - unfold view_history. rewrite E.
    split; [now split|].
    split; [split; [intros (? & ? & ?); discriminate|intros [H _]; congruence]|].
    split; discriminate.
  - rewrite (Hview Hne). clear Hview.
    split; [split; [|congruence]|].
    { destruct (history_rows room (enumerate 1 recent)) as [rows []]; discriminate. }
    destruct Hcases as [Hok|(before & a & after & Hsplit & Hb & Ha)].
    + rewrite (history_rows_shown _ _ Hok).
      split; [split; [intros _; split; [exact Hne|now apply Hall]|eauto]|].
      split; [|discriminate].
      intros rows total [= <- <-].
      assert (Hlen : length (map history_row_of (enumerate 1 recent))
                     = Nat.min 10 (length (thoughts self))).
      { subst recent.
        now rewrite length_map, enumerate_length, length_rev, last_items_length. }
      split; [reflexivity|]. split; [exact Hlen|].
      intros k Hk. rewrite Hlen in Hk. subst recent.
      rewrite nth_error_map, enumerate_nth, nth_error_rev.
      rewrite last_items_length.
      destruct (Nat.ltb_spec k (Nat.min 10 (length (thoughts self)))) as [_|]; [|lia].
      unfold last_items. rewrite nth_error_skipn.
      replace (length (thoughts self) - 10
               + (Nat.min 10 (length (thoughts self)) - S k))%nat
        with (length (thoughts self) - S k)%nat by lia.
      destruct (nth_error (thoughts self) (length (thoughts self) - S k)) as [t|] eqn:Ht.
      * exists (history_row_of (S k, t)). simpl. repeat split.
      * exfalso. apply nth_error_None in Ht. lia.
    + rewrite Hsplit, (history_rows_raises _ _ _ _ Hb) by lia.
      assert (Hrecent : recent = map snd before ++ snd a :: map snd after).
      { rewrite <- (enumerate_snd 1 recent), Hsplit, List.map_app. reflexivity. }
      split.
      { split; [intros (? & ? & ?); discriminate|]. intros [_ Hrec]. exfalso.
        apply Hall in Hrec. rewrite Hsplit in Hrec.
        apply Forall_app in Hrec as [_ Hrec]. inversion Hrec; subst. contradiction. }
      split; [discriminate|].
      intros rows [= <-]. exists (map snd before), (snd a), (map snd after).
      split; [exact Hrecent|]. split; [now rewrite List.Forall_map|].
      split; [lia|]. split; [apply Hentry|].
      rewrite Hnumber, length_map.
      assert (Hfst : forall (l : list thought) start,
                map fst (enumerate start l) = seq start (length l)).
      { induction l as [|x l IH]; intros start; simpl; [reflexivity|]. now rewrite IH. }
      pose proof (Hfst recent 1%nat) as Hseq.
      rewrite Hsplit, List.map_app in Hseq.
      rewrite Hrecent, length_app, seq_app in Hseq.
      apply (f_equal (firstn (length before))) in Hseq.
      rewrite firstn_app, length_map, Nat.sub_diag, firstn_all2 in Hseq
        by (rewrite length_map; lia).
      simpl firstn in Hseq. rewrite app_nil_r in Hseq. rewrite Hseq.
      rewrite length_map, firstn_app, length_seq, Nat.sub_diag, firstn_all2
        by (rewrite length_seq; lia).
      simpl. now rewrite app_nil_r.
Qed.

Lemma history_shows_latest_witness :
  exists rows,
    view_history 1000 (mkTracker Instances.mixed_log false) = Shown rows 2%nat
    /\ length rows = Nat.min 10 2.
Proof.
  eexists. split; [reflexivity|].
  apply (proj1 (proj2 (proj2 (history_shows_latest 1000
                                (mkTracker Instances.mixed_log false)))) _ 2%nat).
  reflexivity.
Defined.

End History.

(** ** Logging an episode *)

Section LoggingFacts.
Import Interaction.

Variable label : string -> string.

Lemma existsb_eqb_in (k : string) (keys : list string) :
  existsb (String.eqb k) keys = true -> In k keys.
Proof.
  intros H. apply existsb_exists in H as (x & Hx & He).
  apply String.eqb_eq in He. now subst.
Qed.

(** What a call of [log_overthinking] does: nothing to the tracker and the
    files, or one entry appended and the log saved. *)
Lemma log_overthinking_cases self now typed d self' typed' d' out :
  log_overthinking label self now typed d = (self', typed', d', out) ->
  (self' = self /\ d' = d /\ (exists n, out = [Noted n])
   /\ exists used, typed = used ++ typed' /\ (length used <= 2)%nat)
  \/ (exists a b c n,
        typed = a :: b :: c :: typed'
        /\ In (strip a) CATEGORY_KEYS
        /\ py_int (strip b) = Some n /\ (1 <= n <= 10)%Z
        /\ self' = mkTracker (thoughts self
                              ++ [mkThought now (label (strip a)) n (strip c)])
                             (dry_run self)
        /\ (d', out) = (fst (save_thoughts self' d),
                        map Said (snd (save_thoughts self' d)) ++ encouragement n)).
Proof.
  unfold log_overthinking.
  destruct typed as [|a typed1].
  { intros [= <- <- <- <-]. left. repeat split; eauto. exists []. simpl. split; [reflexivity|lia]. }
  destruct (String.eqb (lower (strip a)) "cancel").
  { intros [= <- <- <- <-]. left. repeat split; eauto. exists [a]. simpl. split; [reflexivity|lia]. }
  destruct (existsb (String.eqb (strip a)) CATEGORY_KEYS) eqn:Hkey; simpl negb; cbv iota.
  2: { intros [= <- <- <- <-]. left. repeat split; eauto. exists [a]. simpl. split; [reflexivity|lia]. }
  destruct typed1 as [|b typed2].
  { intros [= <- <- <- <-]. left. repeat split; eauto. exists [a]. simpl. split; [reflexivity|lia]. }
  destruct (py_int (strip b)) as [n|] eqn:Hint.
  2: { intros [= <- <- <- <-]. left. repeat split; eauto. exists [a; b]. simpl. split; [reflexivity|lia]. }
  destruct ((1 <=? n)%Z && (n <=? 10)%Z) eqn:Hrange; simpl negb; cbv iota.
  2: { intros [= <- <- <- <-]. left. repeat split; eauto. exists [a; b]. simpl. split; [reflexivity|lia]. }
  destruct typed2 as [|c typed3].
  { intros [= <- <- <- <-]. left. repeat split; eauto. exists [a; b]. simpl. split; [reflexivity|lia]. }
  unfold log_entry.
  destruct (save_thoughts _ d) as [d1 out1] eqn:Hsave.
  intros [= <- <- <- <-]. right. exists a, b, c, n.
  apply andb_prop in Hrange as [H1 H2]. apply Z.leb_le in H1, H2.
  repeat split; auto using existsb_eqb_in. now rewrite Hsave.
Qed.

(** X15: a call of [log_overthinking] changes all or nothing.  Either the
    tracker and the files are as before and one message says why (a
    cancel, a key that is none of 1 to 7, an intensity that is no integer
    or lies outside 1 to 10, or no line left to read), or the three
    answers were read and accepted, exactly one entry is appended, with
    the label of the key, an intensity from 1 to 10 and the stripped note,
    and the log is saved with it. *)
Theorem log_all_or_nothing (self : tracker) (now : string) (typed : list string)
    (d : gmap string string) (self' : tracker) (typed' : list string)
    (d' : gmap string string) (out : list printed) :
  log_overthinking label self now typed d = (self', typed', d', out) ->
  (self' = self /\ d' = d /\ exists n, out = [Noted n])
  \/ (exists a b c n,
        typed = a :: b :: c :: typed'
        /\ In (strip a) CATEGORY_KEYS
        /\ py_int (strip b) = Some n /\ (1 <= n <= 10)%Z
        /\ thoughts self' = thoughts self ++ [mkThought now (label (strip a)) n (strip c)]
        /\ dry_run self' = dry_run self
        /\ d' = fst (save_thoughts self' d)).
Proof.
  intros H. apply log_overthinking_cases in H as [(H1 & H2 & H3 & _)|H]; [left; auto|].
  destruct H as (a & b & c & n & Ht & Hk & Hi & Hr & Hs & Hd).
  right. exists a, b, c, n. injection Hd as Hd _.
  repeat split; auto; try lia; now rewrite Hs.
Qed.

End LoggingFacts.

Lemma log_all_or_nothing_witness :
  exists a b c n,
    [" 3 "; "7"; " lost my keys "; "2"] = a :: b :: c :: ["2"]
    /\ In (strip a) Interaction.CATEGORY_KEYS
    /\ Interaction.py_int (strip b) = Some n /\ (1 <= n <= 10)%Z.
Proof.
  destruct (log_all_or_nothing (fun k => "category " +:+ k) (mkTracker [] true)
              "2025-01-15 10:00:00" [" 3 "; "7"; " lost my keys "; "2"] ∅
              (mkTracker [mkThought "2025-01-15 10:00:00" "category 3" 7 "lost my keys"] true)
              ["2"] ∅
              [Interaction.Said WouldSave; Interaction.Noted Interaction.LoggedTalk;
               Interaction.Noted Interaction.HighIntensityDetected])
    as [(H & _)|(a & b & c & n & H1 & H2 & H3 & H4 & _)].
  - reflexivity.
  - discriminate H.
  - exists a, b, c, n. auto.
Defined.

(** ** Runs of the menu *)

Section SessionFacts.
Import Interaction SessionSpec.

Variable sorted : sorted_builtin.
Variable float_of_str : string -> option float.
Variable fmt : nat -> float -> string.
Variable label : string -> string.
Variable clock : nat -> string.

Lemma save_frame self (d : gmap string string) f :
  f <> THOUGHTS_FILE -> fst (save_thoughts self d) !! f = d !! f.
Proof.
  intros Hf. unfold save_thoughts. destruct (dry_run self); [reflexivity|].
  simpl. now apply lookup_insert_ne.
Qed.

Lemma save_dry self (d : gmap string string) :
  dry_run self = true -> fst (save_thoughts self d) = d.
Proof. intros H. unfold save_thoughts. now rewrite H. Qed.

Lemma read_daily_data_same (d d' : gmap string string) :
  d !! DAILY_DATA_FILE = d' !! DAILY_DATA_FILE ->
  read_daily_data float_of_str DAILY_DATA_FILE d
  = read_daily_data float_of_str DAILY_DATA_FILE d'.
Proof. intros H. unfold read_daily_data. now rewrite H. Qed.

Lemma analyze_daily_data_stats d st c :
  analyze_daily_data sorted float_of_str d = DailyStats st c ->
  fst (read_daily_data float_of_str DAILY_DATA_FILE d) <> []
  /\ calculate_stats sorted (fst (read_daily_data float_of_str DAILY_DATA_FILE d)) = Some st.
Proof.
  unfold analyze_daily_data.
  destruct (fst (read_daily_data float_of_str DAILY_DATA_FILE d)) as [|e data];
    [discriminate|].
  destruct (calculate_stats sorted (e :: data)) as [st'|]; [|discriminate].
  destruct (draw_trend_chart (e :: data)); intros [= <- _]; split; congruence.
Qed.

(** The five ways a turn of the menu goes. *)
Lemma menu_step_cases s choice rest :
  let s0 := mkSession (tracker_of s) (last_analysis s) (files s) rest (S (turn s)) in
  (exists tr rest' d' out,
      log_overthinking label (tracker_of s) (clock (turn s)) rest (files s)
      = (tr, rest', d', out)
      /\ menu_step sorted float_of_str fmt label clock s choice rest
         = Continue (mkSession tr (last_analysis s) d' rest' (S (turn s))))
  \/ (exists st c,
        analyze_daily_data sorted float_of_str (files s) = DailyStats st c
        /\ menu_step sorted float_of_str fmt label clock s choice rest
           = Continue (mkSession (tracker_of s)
                         (Some (st, fst (read_daily_data float_of_str DAILY_DATA_FILE
                                           (files s))))
                         (files s) rest (S (turn s))))
  \/ (exists st data,
        last_analysis s = Some (st, data)
        /\ menu_step sorted float_of_str fmt label clock s choice rest
           = Continue (mkSession (tracker_of s) (last_analysis s)
                         (<[REPORT_FILE := report_text fmt (clock (turn s)) st data]>
                            (files s))
                         rest (S (turn s))))
  \/ (choice = "7" /\ menu_step sorted float_of_str fmt label clock s choice rest = Break s0)
  \/ (choice <> "7" /\ menu_step sorted float_of_str fmt label clock s choice rest = Continue s0).
Proof.
  intros s0. unfold menu_step. fold s0.
  destruct (String.eqb_spec choice "1") as [->|H1].
  { destruct (log_overthinking label (tracker_of s) (clock (turn s)) rest (files s))
      as [[[tr rest'] d'] out] eqn:E.
    left. exists tr, rest', d', out. auto. }
  destruct (String.eqb_spec choice "2") as [->|H2]; [right; right; right; right; now split|].
  destruct (String.eqb_spec choice "3") as [->|H3]; [right; right; right; right; now split|].
  destruct (String.eqb_spec choice "4") as [->|H4].
  { destruct (analyze_daily_data sorted float_of_str (files s)) as [|st c|] eqn:E.
    - right; right; right; right; now split.
    - right; left. exists st, c. auto.
    - right; right; right; right; now split. }
  destruct (String.eqb_spec choice "5") as [->|H5].
  { destruct (last_analysis s) as [[st data]|] eqn:E.
    - right; right; left. exists st, data. auto.
    - right; right; right; right; now split. }
  destruct (String.eqb_spec choice "6") as [->|H6]; [right; right; right; right; now split|].
  destruct (String.eqb_spec choice "7") as [->|H7].
  - right; right; right; left. now split.
  - right; right; right; right. now split.
Qed.

Lemma menu_step_keeps d0 dry s choice rest s' :
  keeps sorted float_of_str fmt clock d0 dry s ->
  (menu_step sorted float_of_str fmt label clock s choice rest = Continue s'
   \/ menu_step sorted float_of_str fmt label clock s choice rest = Break s') ->
  keeps sorted float_of_str fmt clock d0 dry s'.
Proof.
  intros (Hdry & Hframe & Hlog & Hnone & Hsome) Hstep.
  assert (Hcsv : files s !! DAILY_DATA_FILE = d0 !! DAILY_DATA_FILE)
    by (apply Hframe; discriminate).
  destruct (menu_step_cases s choice rest)
    as [(tr & rest' & d' & out & Hl & E)
       |[(st & c & Ha & E)|[(st & data & Hlast & E)|[[_ E]|[_ E]]]]];
    rewrite E in Hstep; destruct Hstep as [Hs|Hs]; try discriminate;
    injection Hs as <-; unfold keeps; simpl.
  - apply log_overthinking_cases in Hl
      as [(-> & -> & _)|(a & b & c & n & _ & _ & _ & _ & -> & Hd)].
    + split; [exact Hdry|]. split; [exact Hframe|]. split; [exact Hlog|].
      split; [exact Hnone|exact Hsome].
    + injection Hd as -> _. simpl.
      split; [exact Hdry|]. split; [|split; [|split]].
      * intros f Hf1 Hf2. rewrite save_frame by exact Hf1. now apply Hframe.
      * intros Hd. rewrite save_dry by (simpl; congruence). now apply Hlog.
      * intros Hn. rewrite save_frame by discriminate. now apply Hnone.
      * intros st data Hl. destruct (Hsome st data Hl) as (H1 & H2 & H3 & H4).
        split; [exact H1|]. split; [exact H2|]. split; [exact H3|].
        now rewrite save_frame by discriminate.
  - destruct (analyze_daily_data_stats _ _ _ Ha) as [Hne Hst].
    rewrite (read_daily_data_same _ _ Hcsv) in Hne, Hst |- *.
    split; [exact Hdry|]. split; [exact Hframe|]. split; [exact Hlog|].
    split; [discriminate|].
    intros st' data' [= <- <-].
    split; [reflexivity|]. split; [exact Hne|]. split; [exact Hst|].
    destruct (last_analysis s) as [[st0 data0]|] eqn:Hl.
    + destruct (Hsome st0 data0 eq_refl) as (H1 & _ & H3 & H4).
      subst data0. rewrite Hst in H3. injection H3 as <-. exact H4.
    + left. now apply Hnone.
  - split; [exact Hdry|]. split; [|split; [|split]].
    + intros f Hf1 Hf2. rewrite lookup_insert_ne by congruence. now apply Hframe.
    + intros Hd. rewrite lookup_insert_ne by discriminate. now apply Hlog.
    + intros Hn. congruence.
    + intros st' data' Hl. rewrite Hlast in Hl. injection Hl as <- <-.
      destruct (Hsome st data Hlast) as (H1 & H2 & H3 & _).
      split; [exact H1|]. split; [exact H2|]. split; [exact H3|].
      right. exists (turn s). apply lookup_insert_eq.
  - split; [exact Hdry|]. split; [exact Hframe|]. split; [exact Hlog|].
    split; [exact Hnone|exact Hsome].
  - split; [exact Hdry|]. split; [exact Hframe|]. split; [exact Hlog|].
    split; [exact Hnone|exact Hsome].
Qed.

Lemma main_loop_keeps d0 dry fuel s s' :
  keeps sorted float_of_str fmt clock d0 dry s ->
  (main_loop sorted float_of_str fmt label clock fuel s = Exits s'
   \/ main_loop sorted float_of_str fmt label clock fuel s = Spins s') ->
  keeps sorted float_of_str fmt clock d0 dry s'.
Proof.
  revert s. induction fuel as [|fuel IH]; intros s Hk Hend; simpl in Hend.
  - destruct Hend; discriminate.
  - destruct (stdin s) as [|line rest] eqn:Hin.
    + destruct Hend as [H|H]; [discriminate|]. now injection H as <-.
    + destruct (menu_step sorted float_of_str fmt label clock s (strip line) rest)
        as [s1|s1] eqn:E.
      * apply (IH s1); [|exact Hend]. eapply menu_step_keeps; eauto.
      * destruct Hend as [H|H]; [|discriminate]. injection H as <-.
        eapply menu_step_keeps; eauto.
Qed.

Lemma init_dry_run dry d : dry_run (fst (init dry d)) = dry.
Proof.
  unfold init. destruct (load_thoughts (mkTracker [] dry) d) as [self out] eqn:E.
  simpl. unfold load_thoughts in E.
  destruct (d !! THOUGHTS_FILE) as [text|]; [|now injection E as <- _].
  destruct (load_lines (readlines text) (thoughts (mkTracker [] dry))) as [ths fin].
  now injection E as <- _.
Qed.

Lemma main_keeps argv typed d s :
  (main sorted float_of_str fmt label clock argv typed d = Exits s
   \/ main sorted float_of_str fmt label clock argv typed d = Spins s) ->
  keeps sorted float_of_str fmt clock d (dry_run_flag argv) s.
Proof.
  apply main_loop_keeps. unfold keeps. simpl.
  split; [apply init_dry_run|]. split; [reflexivity|]. split; [reflexivity|].
  split; [reflexivity|discriminate].
Qed.

(** X16: whatever is typed, a run of the program changes no file but the
    log and the report, so the daily CSV is never written; and a run
    started with the dry-run flag leaves the log file as it found it. *)
Theorem run_touches_log_and_report (argv typed : list string)
    (d : gmap string string) (s : session) :
  main sorted float_of_str fmt label clock argv typed d = Exits s
  \/ main sorted float_of_str fmt label clock argv typed d = Spins s ->
  (forall f, f <> THOUGHTS_FILE -> f <> REPORT_FILE -> files s !! f = d !! f)
  /\ files s !! DAILY_DATA_FILE = d !! DAILY_DATA_FILE
  /\ (dry_run_flag argv = true -> files s !! THOUGHTS_FILE = d !! THOUGHTS_FILE).
Proof.
  intros H. destruct (main_keeps _ _ _ _ H) as (_ & Hframe & Hlog & _).
  split; [exact Hframe|]. split; [apply Hframe; discriminate|exact Hlog].
Qed.

(** X17: the report is written from an analysis only.  At the end of a
    run, if no analysis of the daily file succeeded the report file is as
    the run found it; otherwise the analysis kept is that of the daily file
    as it stands, with its statistics, and the report file is as the run
    found it or holds the report of these statistics at some turn. *)
Theorem report_follows_analysis (argv typed : list string)
    (d : gmap string string) (s : session) :
  main sorted float_of_str fmt label clock argv typed d = Exits s
  \/ main sorted float_of_str fmt label clock argv typed d = Spins s ->
  (last_analysis s = None -> files s !! REPORT_FILE = d !! REPORT_FILE)
  /\ (forall st data, last_analysis s = Some (st, data) ->
        data = fst (read_daily_data float_of_str DAILY_DATA_FILE (files s))
        /\ data <> [] /\ calculate_stats sorted data = Some st
        /\ (files s !! REPORT_FILE = d !! REPORT_FILE
            \/ exists k, files s !! REPORT_FILE
                         = Some (report_text fmt (clock k) st data))).
Proof.
  intros H. destruct (main_keeps _ _ _ _ H) as (_ & Hframe & _ & Hnone & Hsome).
  split; [exact Hnone|]. intros st data Hl.
  destruct (Hsome st data Hl) as (H1 & H2 & H3 & H4).
  split; [|split; [exact H2|split; [exact H3|exact H4]]].
  rewrite H1. f_equal. apply read_daily_data_same. symmetry.
  apply Hframe; discriminate.
Qed.

End SessionFacts.

(** ** How a run ends *)

Section RunEnds.
Import Interaction.

Variable sorted : sorted_builtin.
Variable float_of_str : string -> option float.
Variable fmt : nat -> float -> string.
Variable label : string -> string.
Variable clock : nat -> string.

Lemma menu_step_stdin s choice rest :
  (exists s', menu_step sorted float_of_str fmt label clock s choice rest = Break s'
              /\ choice = "7")
  \/ (exists s' used, menu_step sorted float_of_str fmt label clock s choice rest = Continue s'
                      /\ rest = used ++ stdin s').
Proof.
  destruct (menu_step_cases sorted float_of_str fmt label clock s choice rest)
    as [(tr & rest' & d' & out & Hl & E)
       |[(st & c & Ha & E)|[(st & data & Hlast & E)|[[Hc E]|[_ E]]]]].
  - right. eexists. 
    apply log_overthinking_cases in Hl
      as [(_ & _ & _ & used & Hu & _)|(a & b & c & n & Hu & _)].
    + exists used. split; [exact E|exact Hu].
    + exists [a; b; c]. split; [exact E|exact Hu].
  - right. eexists. exists []. split; [exact E|reflexivity].
  - right. eexists. exists []. split; [exact E|reflexivity].
  - left. eexists. split; [exact E|exact Hc].
  - right. eexists. exists []. split; [exact E|reflexivity].
Qed.

Lemma main_loop_ends fuel s :
  (length (stdin s) < fuel)%nat ->
  (exists s', main_loop sorted float_of_str fmt label clock fuel s = Exits s'
              /\ exists line, In line (stdin s) /\ strip line = "7")
  \/ (exists s', main_loop sorted float_of_str fmt label clock fuel s = Spins s'
                 /\ stdin s' = []).
Proof.
  revert s. induction fuel as [|fuel IH]; intros s Hlen; [lia|]. simpl.
  destruct (stdin s) as [|line rest] eqn:Hin.
  - right. exists s. auto.
  - destruct (menu_step_stdin s (strip line) rest)
      as [(s' & E & Hc)|(s' & used & E & Hu)]; rewrite E.
    + left. exists s'. split; [reflexivity|]. exists line. split; [now left|exact Hc].
    + assert (Hl : (length (stdin s') < fuel)%nat).
      { simpl in Hlen. rewrite Hu, length_app in Hlen. lia. }
      destruct (IH s' Hl) as [(s2 & E2 & l2 & Hl2 & H7)|(s2 & E2 & Hn)].
      * left. exists s2. split; [exact E2|]. exists l2. split; [|exact H7].
        right. rewrite Hu. apply in_or_app. now right.
      * right. exists s2. auto.
Qed.

(** X18: a run on finitely many typed lines, with no keyboard interrupt,
    exits, and then one of the lines typed is the choice 7, or it reads
    all its input and goes on prompting without end; so such a run does
    not exit when no line typed is the choice 7. *)
Theorem run_exits_on_seven_only (argv typed : list string) (d : gmap string string) :
  (exists s, main sorted float_of_str fmt label clock argv typed d = Exits s
             /\ exists line, In line typed /\ strip line = "7")
  \/ (exists s, main sorted float_of_str fmt label clock argv typed d = Spins s
                /\ stdin s = []).
Proof.
  unfold main. apply (main_loop_ends (S (length typed))). simpl. lia.
Qed.

End RunEnds.

Lemma sample_run :
  exists s st data,
    Interaction.main Instances.by_insertion Instances.float_of_decimal Instances.format_fixed
      (fun k => "category " +:+ k) (fun _ => "2025-01-20 08:00:00")
      ["app.py"; "--dry-run"] ["1"; "3"; "7"; "late"; "4"; "5"; "7"]
      {[DAILY_DATA_FILE := Instances.sample_csv]}
    = Interaction.Exits s
    /\ Interaction.last_analysis s = Some (st, data).
Proof.
  eexists _, _, _. split; [vm_compute; reflexivity|reflexivity].
Qed.

Lemma run_touches_log_and_report_witness :
  exists s,
    Interaction.main Instances.by_insertion Instances.float_of_decimal Instances.format_fixed
      (fun k => "category " +:+ k) (fun _ => "2025-01-20 08:00:00")
      ["app.py"; "--dry-run"] ["1"; "3"; "7"; "late"; "4"; "5"; "7"]
      {[DAILY_DATA_FILE := Instances.sample_csv]}
    = Interaction.Exits s
    /\ Interaction.files s !! DAILY_DATA_FILE = Some Instances.sample_csv
    /\ Interaction.files s !! THOUGHTS_FILE = None.
Proof.
  destruct sample_run as (s & _ & _ & Hs & _). exists s. split; [exact Hs|].
  destruct (run_touches_log_and_report _ _ _ _ _ _ _ _ _ (or_introl Hs)) as (_ & H & Hdry).
  split; [rewrite H; apply lookup_singleton_eq|].
  rewrite Hdry by reflexivity. apply lookup_singleton_ne. discriminate.
Defined.

Lemma report_follows_analysis_witness :
  exists s st data,
    Interaction.main Instances.by_insertion Instances.float_of_decimal Instances.format_fixed
      (fun k => "category " +:+ k) (fun _ => "2025-01-20 08:00:00")
      ["app.py"; "--dry-run"] ["1"; "3"; "7"; "late"; "4"; "5"; "7"]
      {[DAILY_DATA_FILE := Instances.sample_csv]}
    = Interaction.Exits s
    /\ Interaction.last_analysis s = Some (st, data)
    /\ data <> []
    /\ calculate_stats Instances.by_insertion data = Some st.
Proof.
  destruct sample_run as (s & st & data & Hs & Hlast). exists s, st, data.
  split; [exact Hs|]. split; [exact Hlast|].
  destruct (report_follows_analysis _ _ _ _ _ _ _ _ _ (or_introl Hs)) as (_ & H).
  destruct (H st data Hlast) as (_ & Hne & Hst & _). now split.
Defined.
